(** * neo2nix: the NIX reader and writer of [neo2nix/nixio.py]

    A shallow embedding of the synchronisation engine of [nixio.py]: the
    file handler and the lazy [ProxyList], the attribute codec
    ([extract_metadata], [write_metadata], [read_attributes],
    [read_annotations], [read_quantity]), the identity resolver
    ([get_obj_nix_name]), the reconciler ([write_many]), the orphan sweep
    ([clean]) and the per-kind readers and writers.

    The NIX container ([nix.File], blocks, tags, sources, data arrays and
    metadata sections) is a library outside the repository.  It is modelled
    here by plain records, with the behaviour the Python code relies on:
    containers are looked up, created and deleted by name, a failed lookup
    raises [KeyError], and a metadata section is shared by every node that
    links it. *)

From stdpp Require Import gmap strings list fin_maps pretty.
From Stdlib Require Import ZArith.
From Stdlib.Strings Require Import Byte.

Local Open Scope string_scope.

(** ** Python values, exceptions and results *)

(** An exception is kept as its class name and its argument. *)
Record exn := Exn { exn_class : string; exn_arg : string }.

Definition KeyError (key : string) : exn := Exn "KeyError" key.
Definition AttributeError (what : string) : exn := Exn "AttributeError" what.
Definition TypeError (what : string) : exn := Exn "TypeError" what.
Definition ValueError (what : string) : exn := Exn "ValueError" what.

Inductive result (A : Type) : Type :=
| Ok (a : A)
| Raise (e : exn).
Arguments Ok {A} a.
Arguments Raise {A} e.

Definition is_ok {A} (r : result A) : bool :=
  match r with Ok _ => true | Raise _ => false end.

(** A double is kept by its 64-bit pattern, so that equality is bit
    equality. *)
Inductive float :=
| FBits (bits : Z).

Inductive Scalar :=
| SBool (b : bool)
| SInt (z : Z)
| SFloat (f : float)
| SStr (s : string).

(** The values an attribute or an annotation holds: [None], a scalar, or a
    list or tuple of scalars. *)
Inductive PyValue :=
| PNone
| PScalar (x : Scalar)
| PList (xs : list Scalar)
| PTuple (xs : list Scalar).

Global Instance float_eq_dec : EqDecision float.
Proof. solve_decision. Defined.
Global Instance Scalar_eq_dec : EqDecision Scalar.
Proof. solve_decision. Defined.
Global Instance PyValue_eq_dec : EqDecision PyValue.
Proof. solve_decision. Defined.

Definition is_None (v : PyValue) : bool :=
  match v with PNone => true | _ => false end.

(** Truth value of a float: zero (of either sign) is false. *)
Definition float_is_zero (f : float) : bool :=
  match f with
  | FBits b => bool_decide (b = 0 ∨ b = 2 ^ 63)%Z
  end.

(** Truth value of a Python value. *)
Definition py_truthy (v : PyValue) : bool :=
  match v with
  | PNone => false
  | PScalar (SBool b) => b
  | PScalar (SInt z) => negb (bool_decide (z = 0%Z))
  | PScalar (SFloat f) => negb (float_is_zero f)
  | PScalar (SStr s) => negb (bool_decide (s = ""))
  | PList xs | PTuple xs => negb (bool_decide (xs = []))
  end.

(** A scalar physical quantity: [q.item()] and
    [q.units.dimensionality.string]. *)
Record Quantity := { q_item : float; q_units : string }.

(** A numpy array: its [dtype] and the bytes [tostring()] returns. *)
Record ndarray := { nd_dtype : string; nd_bytes : list byte }.

(** ** The NIX container *)

(** A metadata section is addressed by its path from the root of the file. *)
Abbreviation path := (list string).

Record NixSection := {
  sec_type : string;
  sec_props : gmap string (list Scalar)   (* property name to its values *)
}.

Inductive Dimension :=
| SampledDimension (sampling_interval : float) (unit : option string)
| RangeDimension (ticks : ndarray) (unit : option string)
| SetDimension (labels : list string).

(** The nodes of a container are kept by name: NIX does not admit two
    nodes of one name in one container, and the code reaches a node as
    [container[name]].  The links of a node (the references of a tag, the
    sources of a data array) form a set.

    A data array.  [da_data] keeps the stored rows as the Writer hands them
    over (one per [append], one per stacked array); [da_sources] holds the
    linked sources by their path in the block. *)
Record NixDataArray := {
  da_type : string;
  da_dtype : string;
  da_data : list (list byte);
  da_unit : option string;
  da_dimensions : list Dimension;
  da_sources : gset path;
  da_metadata : option path
}.

(** A tag; [tag_references] holds the names of the referenced data arrays. *)
Record NixTag := {
  tag_type : string;
  tag_position : list float;
  tag_references : gset string;
  tag_metadata : option path
}.

(** Sources nest: a block holds sources, and a source holds sources.  The
    Writer creates them one level deep (a unit inside a recording channel
    group), and this is the depth kept here. *)
Record NixSubSource := {
  sub_type : string;
  sub_metadata : option path
}.

Record NixSource := {
  src_type : string;
  src_sources : gmap string NixSubSource;
  src_metadata : option path
}.

Record NixBlock := {
  blk_name : string;
  blk_type : string;
  blk_metadata : option path;
  blk_tags : gmap string NixTag;
  blk_sources : gmap string NixSource;
  blk_data_arrays : gmap string NixDataArray
}.

Record NixFile := {
  f_blocks : gmap string NixBlock;
  f_sections : gmap path NixSection
}.

Definition empty_file : NixFile := {| f_blocks := ∅; f_sections := ∅ |}.

(** ** File operations *)

Inductive FileMode := ReadOnly | ReadWrite | Overwrite.

(** An open or closed [nix.File]. *)
Record Handle := {
  h_mode : FileMode;
  h_is_open : bool;
  h_file : NixFile
}.

Record FileHandler := {
  filename : string;
  readonly : bool;
  handle : option Handle     (* None until the first open *)
}.

(** The files on disk, by name. *)
Abbreviation Disk := (gmap string NixFile).

(** The file handler of an I/O instance is one shared object: every proxy
    list built by the reader refers to it.  It is kept, with the disk, in
    the state that the file operations thread. *)
Record IOState := { io_fh : FileHandler; io_disk : Disk }.

Definition FileHandler_init (filename : string) (readonly : bool) : FileHandler :=
  {| filename := filename; readonly := readonly; handle := None |}.

(** [nix.File.open(filename, filemode)]: [Overwrite] creates an empty file. *)
Definition nix_File_open (filename : string) (filemode : FileMode) (d : Disk)
  : Handle * Disk :=
  match filemode with
  | Overwrite =>
      ({| h_mode := Overwrite; h_is_open := true; h_file := empty_file |},
       <[filename := empty_file]> d)
  | _ =>
      ({| h_mode := filemode; h_is_open := true;
          h_file := default empty_file (d !! filename) |}, d)
  end.

Definition path_exists (filename : string) (d : Disk) : bool :=
  bool_decide (is_Some (d !! filename)).

Definition open_filemode (fh : FileHandler) (d : Disk) : FileMode :=
  if path_exists (filename fh) d then
    if readonly fh then ReadOnly else ReadWrite
  else Overwrite.

Definition FileHandler_open (st : IOState) : IOState :=
  let fh := io_fh st in
  let filemode := open_filemode fh (io_disk st) in
  let '(h, d) := nix_File_open (filename fh) filemode (io_disk st) in
  {| io_fh := {| filename := filename fh; readonly := readonly fh; handle := Some h |};
     io_disk := d |}.

Definition handle_close (h : Handle) : Handle :=
  {| h_mode := h_mode h; h_is_open := false; h_file := h_file h |}.

Definition FileHandler_close (st : IOState) : result IOState :=
  let fh := io_fh st in
  match handle fh with
  | None => Raise (AttributeError "close")
  | Some h =>
      Ok {| io_fh := {| filename := filename fh; readonly := readonly fh;
                        handle := Some (handle_close h) |};
            io_disk := match h_mode h with
                       | ReadOnly => io_disk st
                       | _ => <[filename fh := h_file h]> (io_disk st)
                       end |}
  end.

(** [self._fh.handle is None or not self._fh.handle.is_open()], negated. *)
Definition handle_is_open (fh : FileHandler) : bool :=
  match handle fh with
  | None => false
  | Some h => h_is_open h
  end.

(** *** ProxyList *)

Record ProxyList (A : Type) := {
  _fetch_func : Handle -> result (list A);
  _cache : option (list A)
}.
Arguments _fetch_func {A} p.
Arguments _cache {A} p.

Definition ProxyList_init {A} (fetch_func : Handle -> result (list A)) : ProxyList A :=
  {| _fetch_func := fetch_func; _cache := None |}.

(** The [_data] property: what the access gives (the list, or the
    exception that the fetch function or the close raised), the proxy and
    the state of the file handler afterwards.  The close is the statement
    after the fetch: an exception of the fetch function leaves the method
    before the cache is set and before the handler is closed; an exception
    of the close leaves it with the cache set. *)
Definition ProxyList_data {A} (p : ProxyList A) (st : IOState)
  : result (list A) * ProxyList A * IOState :=
  match _cache p with
  | Some c => (Ok c, p, st)
  | None =>
      let should_close := negb (handle_is_open (io_fh st)) in
      let st1 := if should_close then FileHandler_open st else st in
      match handle (io_fh st1) with
      | None => (Raise (AttributeError "handle"), p, st1)
      | Some h =>
          match _fetch_func p h with
          | Raise e => (Raise e, p, st1)
          | Ok c =>
              let p' := {| _fetch_func := _fetch_func p; _cache := Some c |} in
              if should_close then
                match FileHandler_close st1 with
                | Raise e => (Raise e, p', st1)
                | Ok st2 => (Ok c, p', st2)
                end
              else (Ok c, p', st1)
          end
      end
  end.

(** *** NixIO *)

Record NixIO := { nio_f : FileHandler; nio_readonly : bool }.

(** [NixIO.__init__]: the handler is built as [FileHandler(filename)], with
    the default [readonly=False]. *)
Definition NixIO_init (filename : string) (readonly : bool) : NixIO :=
  {| nio_f := FileHandler_init filename false; nio_readonly := readonly |}.

(** ** The environment

    The functions of the Python run time and of the [quantities] and [neo]
    packages that the code calls and that are not part of it: the built-in
    [hash] of a byte string; the conversions [float(n)] of an integer and
    [float(text)], which fails on text that is not a number; the lookup
    [getattr(pq, name)] of a unit by its name, which gives the unit's
    dimensionality string or fails; and the sampling rate that [neo]
    derives for a signal built from a sampling period. *)
Class Env := {
  py_hash : list byte → Z;
  float_of_int : Z → float;
  float_of_str : string → option float;
  pq_getattr : string → option string;
  rate_of_period : Quantity → Quantity
}.

(** [float(value)] *)
Definition py_float {env : Env} (x : Scalar) : result float :=
  match x with
  | SFloat f => Ok f
  | SInt z => Ok (float_of_int z)
  | SBool b => Ok (float_of_int (if b then 1 else 0))
  | SStr s =>
      match float_of_str s with
      | Some f => Ok f
      | None => Raise (ValueError s)
      end
  end.

(** ** In-memory (Neo) objects *)

(** What every Neo object carries: its instance attributes by name (among
    them [name], [description], [file_origin], ...) and the annotations. *)
Record NeoBase := {
  attrs : gmap string PyValue;
  annotations : gmap string PyValue
}.

(** [getattr(neo_obj, attr_name, None)] *)
Definition getattr (o : NeoBase) (attr_name : string) : PyValue :=
  default PNone (attrs o !! attr_name).

(** [setattr(neo_obj, key, value)] *)
Definition setattr (o : NeoBase) (key : string) (value : PyValue) : NeoBase :=
  {| attrs := <[key := value]> (attrs o); annotations := annotations o |}.

Definition set_annotations (o : NeoBase) (a : gmap string PyValue) : NeoBase :=
  {| attrs := attrs o; annotations := a |}.

(** [neo_obj.name], where the code uses it as the key of a container. *)
Definition name_of (o : NeoBase) : result string :=
  match getattr o "name" with
  | PScalar (SStr s) => Ok s
  | _ => Raise (TypeError "name")
  end.

Record AnalogSignal := {
  as_base : NeoBase;
  as_signal : ndarray;           (* the samples; [dtype] is its dtype *)
  as_units : string;             (* signal.units.dimensionality.string *)
  as_sampling_rate : Quantity;
  as_t_start : Quantity
}.

Record IrregularlySampledSignal := {
  irr_base : NeoBase;
  irr_signal : ndarray;
  irr_units : string;
  irr_times : ndarray;
  irr_time_units : string        (* signal.times.units.dimensionality.string *)
}.

Record SpikeTrain := {
  st_base : NeoBase;
  st_times : ndarray;
  st_units : string;
  st_sampling_rate : option Quantity;
  st_t_start : Quantity;
  st_t_stop : Quantity;
  st_left_sweep : option Quantity
}.

(** The times of an event and of an epoch carry a unit in memory; the
    Writer does not look at it. *)
Record Event := {
  ev_base : NeoBase;
  ev_times : ndarray;
  ev_units : option string;
  ev_labels : list string
}.

Record Epoch := {
  ep_base : NeoBase;
  ep_times : ndarray;
  ep_durations : ndarray;
  ep_units : option string;
  ep_labels : list string
}.

(** The structural objects are parametrised by the type of their child
    collections: plain lists for the objects handed to the Writer, proxy
    lists for the objects the Reader builds. *)
Record Unit (C : Type → Type) := {
  u_base : NeoBase;
  u_spiketrains : C SpikeTrain
}.
Arguments u_base {C} u.
Arguments u_spiketrains {C} u.

Record RecordingChannelGroup (C : Type → Type) := {
  rcg_base : NeoBase;
  rcg_units : C (Unit C);
  rcg_analogsignals : C AnalogSignal;
  rcg_irregularlysampledsignals : C IrregularlySampledSignal
}.
Arguments rcg_base {C} r.
Arguments rcg_units {C} r.
Arguments rcg_analogsignals {C} r.
Arguments rcg_irregularlysampledsignals {C} r.

Record Segment (C : Type → Type) := {
  seg_base : NeoBase;
  seg_analogsignals : C AnalogSignal;
  seg_irregularlysampledsignals : C IrregularlySampledSignal;
  seg_spiketrains : C SpikeTrain;
  seg_events : C Event;
  seg_epochs : C Epoch
}.
Arguments seg_base {C} s.
Arguments seg_analogsignals {C} s.
Arguments seg_irregularlysampledsignals {C} s.
Arguments seg_spiketrains {C} s.
Arguments seg_events {C} s.
Arguments seg_epochs {C} s.

Record Block (C : Type → Type) := {
  b_base : NeoBase;
  b_segments : C (Segment C);
  b_recordingchannelgroups : C (RecordingChannelGroup C)
}.
Arguments b_base {C} b.
Arguments b_segments {C} b.
Arguments b_recordingchannelgroups {C} b.

(** The interface the helpers of the Writer use on any Neo object:
    [get_classname] (the lower-cased class name), the attributes and
    annotations, and the byte string the identity of a data object is
    hashed from ([tostring()] of the object or of its times). *)
Class NeoObject (A : Type) := {
  get_classname : A → string;
  neo_base : A → NeoBase;
  hashed_bytes : A → option (list byte)
}.

Global Instance AnalogSignal_obj : NeoObject AnalogSignal :=
  {| get_classname := λ _, "analogsignal"; neo_base := as_base;
     hashed_bytes := λ o, Some (nd_bytes (as_signal o)) |}.
Global Instance IrregularlySampledSignal_obj : NeoObject IrregularlySampledSignal :=
  {| get_classname := λ _, "irregularlysampledsignal"; neo_base := irr_base;
     hashed_bytes := λ o, Some (nd_bytes (irr_signal o)) |}.
Global Instance SpikeTrain_obj : NeoObject SpikeTrain :=
  {| get_classname := λ _, "spiketrain"; neo_base := st_base;
     hashed_bytes := λ o, Some (nd_bytes (st_times o)) |}.
Global Instance Event_obj : NeoObject Event :=
  {| get_classname := λ _, "event"; neo_base := ev_base;
     hashed_bytes := λ o, Some (nd_bytes (ev_times o)) |}.
Global Instance Epoch_obj : NeoObject Epoch :=
  {| get_classname := λ _, "epoch"; neo_base := ep_base;
     hashed_bytes := λ o, Some (nd_bytes (ep_times o)) |}.
Global Instance Unit_obj {C} : NeoObject (Unit C) :=
  {| get_classname := λ _, "unit"; neo_base := u_base;
     hashed_bytes := λ _, None |}.
Global Instance RecordingChannelGroup_obj {C} : NeoObject (RecordingChannelGroup C) :=
  {| get_classname := λ _, "recordingchannelgroup"; neo_base := rcg_base;
     hashed_bytes := λ _, None |}.
Global Instance Segment_obj {C} : NeoObject (Segment C) :=
  {| get_classname := λ _, "segment"; neo_base := seg_base;
     hashed_bytes := λ _, None |}.
Global Instance Block_obj {C} : NeoObject (Block C) :=
  {| get_classname := λ _, "block"; neo_base := b_base;
     hashed_bytes := λ _, None |}.

(** ** Reader / Writer *)

Definition simple_attrs : gmap string (list string) :=
  list_to_map [
    ("default", ["description"; "file_origin"]);
    ("block", ["file_datetime"; "rec_datetime"; "index"]);
    ("segment", ["file_datetime"; "rec_datetime"; "index"]);
    ("analogsignal", ["name"]);
    ("irregularlysampledsignal", ["name"]);
    ("spiketrain", ["name"]);
    ("event", ["name"]);
    ("epoch", ["name"]);
    ("recordingchannelgroup", ["name"; "channel_indexes"; "channel_names"]);
    ("unit", [])
  ].

(** [simple_attrs['default'] + simple_attrs[obj_type]] *)
Definition attr_names (obj_type : string) : result (list string) :=
  match simple_attrs !! "default", simple_attrs !! obj_type with
  | Some d, Some s => Ok (d ++ s)%list
  | _, _ => Raise (KeyError obj_type)
  end.

(** The containers of a block: its tags, its sources, the sources inside
    one of its sources, its data arrays.  The sources inside a unit and the
    sources linked to a tag are not part of the model ([NoContainer]); the
    Writer never asks for them. *)
Inductive Container :=
| Tags
| Sources
| SubSources (rcg : string)
| DataArrays
| NoContainer.

Global Instance Container_eq_dec : EqDecision Container.
Proof. solve_decision. Defined.

(** *** The state of a write

    The Writer is handed a block of an open file and mutates it in place,
    together with the metadata sections of the file.  The journal records,
    in order, each node created in or deleted from a container, each
    property the attribute codec creates or re-assigns, and each run of the
    orphan sweep. *)
Inductive Mutation :=
| CreateNode (c : Container) (name : string)
| DeleteNode (c : Container) (name : string)
| CreateProperty (sec : path) (name : string) (values : list Scalar)
| AssignValues (sec : path) (name : string) (values : list Scalar)
| Sweep.

Record Store := {
  nix_block : NixBlock;
  sections : gmap path NixSection;
  journal : list Mutation
}.

Definition M (A : Type) : Type := Store → result (A * Store).

Definition ret {A} (a : A) : M A := λ s, Ok (a, s).

Definition bind {A B} (m : M A) (k : A → M B) : M B :=
  λ s, match m s with
       | Ok (a, s') => k a s'
       | Raise e => Raise e
       end.

Definition raise {A} (e : exn) : M A := λ _, Raise e.

Definition lift {A} (r : result A) : M A :=
  λ s, match r with Ok a => Ok (a, s) | Raise e => Raise e end.

Definition gets {A} (f : Store → A) : M A := λ s, Ok (f s, s).

Definition modify (f : Store → Store) : M unit := λ s, Ok (tt, f s).

Notation "x <- m ;; k" := (bind m (λ x, k))
  (at level 100, m at next level, k at level 200, right associativity).
Notation "'run' m ;; k" := (bind m (λ _, k))
  (at level 100, m at next level, k at level 200, right associativity).

(** [for x in xs: body(x)] *)
Fixpoint for_each {A} (xs : list A) (body : A → M unit) : M unit :=
  match xs with
  | [] => ret tt
  | x :: xs' => run body x ;; for_each xs' body
  end.

Definition set_block (f : NixBlock → NixBlock) : M unit :=
  modify (λ s, {| nix_block := f (nix_block s); sections := sections s;
                  journal := journal s |}).

Definition set_sections (f : gmap path NixSection → gmap path NixSection) : M unit :=
  modify (λ s, {| nix_block := nix_block s; sections := f (sections s);
                  journal := journal s |}).

Definition log (m : Mutation) : M unit :=
  modify (λ s, {| nix_block := nix_block s; sections := sections s;
                  journal := (journal s ++ [m])%list |}).

(** *** Metadata sections *)

(** The section a handle (a path) stands for. *)
Definition get_section (sp : path) : M NixSection :=
  secs <- gets sections ;;
  match secs !! sp with
  | Some sec => ret sec
  | None => raise (AttributeError "section")
  end.

Definition with_props (sec : NixSection) (props : gmap string (list Scalar))
  : NixSection :=
  {| sec_type := sec_type sec; sec_props := props |}.

(** [p.values = values] on the property [name] of a section *)
Definition assign_values (sp : path) (name : string) (values : list Scalar) : M unit :=
  run set_sections
        (alter (λ sec, with_props sec (<[name := values]> (sec_props sec))) sp) ;;
  log (AssignValues sp name values).

(** [nix_section.create_property(name, values)] *)
Definition create_property (sp : path) (name : string) (values : list Scalar) : M unit :=
  run set_sections
        (alter (λ sec, with_props sec (<[name := values]> (sec_props sec))) sp) ;;
  log (CreateProperty sp name values).

(** [nix_section[key]]: a property with one value gives the value, any
    other property gives the list of its values; a missing key raises
    [KeyError]. *)
Definition section_getitem (sec : NixSection) (key : string) : result PyValue :=
  match sec_props sec !! key with
  | None => Raise (KeyError key)
  | Some [x] => Ok (PScalar x)
  | Some xs => Ok (PList xs)
  end.

(** [key in nix_section] *)
Definition section_contains (sec : NixSection) (key : string) : bool :=
  bool_decide (is_Some (sec_props sec !! key)).

(** *** Reader.Help *)

Definition read_attributes (nix_section : NixSection) (obj_type : string)
  : result (gmap string PyValue) :=
  match attr_names obj_type with
  | Raise e => Raise e
  | Ok names =>
      Ok (foldl (λ result attr_name,
                   if section_contains nix_section attr_name then
                     match section_getitem nix_section attr_name with
                     | Ok v => <[attr_name := v]> result
                     | Raise _ => result
                     end
                   else result) ∅ names)
  end.

Definition read_annotations (nix_section : NixSection) (obj_type : string)
  : result (gmap string PyValue) :=
  match attr_names obj_type with
  | Raise e => Raise e
  | Ok exclude_attrs =>
      Ok (foldl (λ result key,
                   match section_getitem nix_section key with
                   | Ok value =>
                       if bool_decide (key ∈ exclude_attrs) then result
                       else <[key := value]> result
                   | Raise _ => result
                   end) ∅ (map fst (map_to_list (sec_props nix_section))))
  end.

Definition read_quantity {env : Env} (nix_section : NixSection) (qname : string)
  : result Quantity :=
  match section_getitem nix_section qname with
  | Raise e => Raise e
  | Ok value =>
      match section_getitem nix_section (qname +:+ "__unit") with
      | Raise e => Raise e
      | Ok unit =>
          match value, unit with
          | PScalar x, PScalar (SStr u) =>
              match py_float x with
              | Ok f => Ok {| q_item := f; q_units := u |}
              | Raise e => Raise e
              end
          | PScalar _, _ => Raise (TypeError "units")
          | _, _ => Raise (TypeError "float")
          end
      end
  end.

(** *** Writer.Help *)

Section WriterHelp.
Context {env : Env}.

(** [str(hash(...))] of the payload for the data objects, the name of the
    object for the others. *)
Definition get_obj_nix_name {A} `{NeoObject A} (neo_obj : A) : result string :=
  match hashed_bytes neo_obj with
  | Some bytes => Ok (pretty (py_hash bytes))
  | None => name_of (neo_base neo_obj)
  end.

End WriterHelp.

Definition extract_metadata {A} `{NeoObject A} (neo_obj : A)
  : result (gmap string PyValue) :=
  match attr_names (get_classname neo_obj) with
  | Raise e => Raise e
  | Ok names =>
      Ok (foldl (λ metadata attr_name,
                   match getattr (neo_base neo_obj) attr_name with
                   | PNone => metadata
                   | v => <[attr_name := v]> metadata
                   end) (annotations (neo_base neo_obj)) names)
  end.

(** [make_nix_values]: one [nix.Value] for a scalar, one per item for a list
    or a tuple. *)
Definition make_nix_values (value : PyValue) : result (list Scalar) :=
  match value with
  | PNone => Raise (TypeError "nix.Value")
  | PScalar x => Ok [x]
  | PList xs => Ok xs
  | PTuple xs => Ok xs
  end.

(** The body of the loop of [write_metadata] for one item of [to_store]. *)
Definition write_property (nix_section : path) (item : string * PyValue) : M unit :=
  let '(attr_name, value) := item in
  values <- lift (make_nix_values value) ;;
  sec <- get_section nix_section ;;
  match sec_props sec !! attr_name with
  | Some p_values =>
      if bool_decide (p_values = values) then ret tt
      else assign_values nix_section attr_name values
  | None => create_property nix_section attr_name values
  end.

Definition to_store (dict_to_store : gmap string PyValue) : gmap string PyValue :=
  filter (λ kv, kv.2 ≠ PNone) dict_to_store.

Definition write_metadata (nix_section : path) (dict_to_store : gmap string PyValue)
  : M unit :=
  for_each (map_to_list (to_store dict_to_store)) (write_property nix_section).

(** *** Accessors of the block being written *)

(** The name of a source is the last component of its path. *)
Definition path_name (p : path) : string := default "" (last p).

Definition with_data_arrays (b : NixBlock) (das : gmap string NixDataArray)
  : NixBlock :=
  {| blk_name := blk_name b; blk_type := blk_type b; blk_metadata := blk_metadata b;
     blk_tags := blk_tags b; blk_sources := blk_sources b; blk_data_arrays := das |}.

Definition with_tags (b : NixBlock) (tags : gmap string NixTag) : NixBlock :=
  {| blk_name := blk_name b; blk_type := blk_type b; blk_metadata := blk_metadata b;
     blk_tags := tags; blk_sources := blk_sources b;
     blk_data_arrays := blk_data_arrays b |}.

Definition with_sources (b : NixBlock) (srcs : gmap string NixSource) : NixBlock :=
  {| blk_name := blk_name b; blk_type := blk_type b; blk_metadata := blk_metadata b;
     blk_tags := blk_tags b; blk_sources := srcs;
     blk_data_arrays := blk_data_arrays b |}.


(** [container[name]]: a missing name raises [KeyError]. *)
Definition getitem {V} (container : gmap string V) (name : string) : result V :=
  match container !! name with
  | Some x => Ok x
  | None => Raise (KeyError name)
  end.

(** [nix_block.data_arrays[name]] *)
Definition get_data_array (name : string) : M NixDataArray :=
  b <- gets nix_block ;; lift (getitem (blk_data_arrays b) name).

Definition alter_data_array (name : string) (f : NixDataArray → NixDataArray) : M unit :=
  set_block (λ b, with_data_arrays b (alter f name (blk_data_arrays b))).

(** [nix_block.tags[name]] *)
Definition get_tag (name : string) : M NixTag :=
  b <- gets nix_block ;; lift (getitem (blk_tags b) name).

Definition alter_tag (name : string) (f : NixTag → NixTag) : M unit :=
  set_block (λ b, with_tags b (alter f name (blk_tags b))).

(** [nix_block.sources[name]] *)
Definition get_source (name : string) : M NixSource :=
  b <- gets nix_block ;; lift (getitem (blk_sources b) name).

Definition alter_source (name : string) (f : NixSource → NixSource) : M unit :=
  set_block (λ b, with_sources b (alter f name (blk_sources b))).

Definition set_da_data (data : list (list byte)) (da : NixDataArray) : NixDataArray :=
  {| da_type := da_type da; da_dtype := da_dtype da;
     da_data := data; da_unit := da_unit da; da_dimensions := da_dimensions da;
     da_sources := da_sources da; da_metadata := da_metadata da |}.

Definition set_da_unit (u : option string) (da : NixDataArray) : NixDataArray :=
  {| da_type := da_type da; da_dtype := da_dtype da;
     da_data := da_data da; da_unit := u; da_dimensions := da_dimensions da;
     da_sources := da_sources da; da_metadata := da_metadata da |}.

Definition set_da_dimensions (dims : list Dimension) (da : NixDataArray) : NixDataArray :=
  {| da_type := da_type da; da_dtype := da_dtype da;
     da_data := da_data da; da_unit := da_unit da; da_dimensions := dims;
     da_sources := da_sources da; da_metadata := da_metadata da |}.

Definition set_da_sources (srcs : gset path) (da : NixDataArray) : NixDataArray :=
  {| da_type := da_type da; da_dtype := da_dtype da;
     da_data := da_data da; da_unit := da_unit da; da_dimensions := da_dimensions da;
     da_sources := srcs; da_metadata := da_metadata da |}.

Definition set_da_metadata (sp : option path) (da : NixDataArray) : NixDataArray :=
  {| da_type := da_type da; da_dtype := da_dtype da;
     da_data := da_data da; da_unit := da_unit da; da_dimensions := da_dimensions da;
     da_sources := da_sources da; da_metadata := sp |}.

Definition set_tag_references (refs : gset string) (t : NixTag) : NixTag :=
  {| tag_type := tag_type t; tag_position := tag_position t;
     tag_references := refs; tag_metadata := tag_metadata t |}.

Definition set_tag_metadata (sp : option path) (t : NixTag) : NixTag :=
  {| tag_type := tag_type t; tag_position := tag_position t;
     tag_references := tag_references t; tag_metadata := sp |}.

Definition set_src_sources (subs : gmap string NixSubSource) (src : NixSource)
  : NixSource :=
  {| src_type := src_type src; src_sources := subs; src_metadata := src_metadata src |}.

Definition set_src_metadata (sp : option path) (src : NixSource) : NixSource :=
  {| src_type := src_type src; src_sources := src_sources src; src_metadata := sp |}.

Definition set_sub_metadata (sp : option path) (sub : NixSubSource) : NixSubSource :=
  {| sub_type := sub_type sub; sub_metadata := sp |}.

Definition DuplicateName (name : string) : exn := Exn "DuplicateName" name.

(** [nix_block.create_data_array(name, type, dtype, shape)], or with
    [data=...]. *)
Definition create_data_array (name type dtype : string) (data : list (list byte))
  : M unit :=
  b <- gets nix_block ;;
  match blk_data_arrays b !! name with
  | Some _ => raise (DuplicateName name)
  | None =>
      run set_block (λ b, with_data_arrays b
        (<[name := {| da_type := type; da_dtype := dtype; da_data := data;
                      da_unit := None; da_dimensions := []; da_sources := ∅;
                      da_metadata := None |}]> (blk_data_arrays b))) ;;
      log (CreateNode DataArrays name)
  end.

(** [nix_array.append(data)] *)
Definition data_array_append (name : string) (row : list byte) : M unit :=
  alter_data_array name (λ da, set_da_data (da_data da ++ [row])%list da).

(** [nix_block.create_tag(name, type, position)] *)
Definition create_tag (name type : string) (position : list float) : M unit :=
  b <- gets nix_block ;;
  match blk_tags b !! name with
  | Some _ => raise (DuplicateName name)
  | None =>
      run set_block (λ b, with_tags b
        (<[name := {| tag_type := type; tag_position := position;
                      tag_references := ∅; tag_metadata := None |}]> (blk_tags b))) ;;
      log (CreateNode Tags name)
  end.

(** [nix_block.create_source(name, type)] *)
Definition create_source (name type : string) : M unit :=
  b <- gets nix_block ;;
  match blk_sources b !! name with
  | Some _ => raise (DuplicateName name)
  | None =>
      run set_block (λ b, with_sources b
        (<[name := {| src_type := type; src_sources := ∅; src_metadata := None |}]>
           (blk_sources b))) ;;
      log (CreateNode Sources name)
  end.

(** [nix_rcg_source.create_source(name, type)] on the source [rcg] of the
    block *)
Definition create_sub_source (rcg name type : string) : M unit :=
  src <- get_source rcg ;;
  match src_sources src !! name with
  | Some _ => raise (DuplicateName name)
  | None =>
      run alter_source rcg (λ src, set_src_sources
        (<[name := {| sub_type := type; sub_metadata := None |}]> (src_sources src))
        src) ;;
      log (CreateNode (SubSources rcg) name)
  end.

(** [nix_array.dimensions[0].unit = unit]: only sampled and range
    dimensions have a unit. *)
Definition set_first_dimension_unit (name : string) (unit_name : string) : M unit :=
  da <- get_data_array name ;;
  match da_dimensions da with
  | SampledDimension i _ :: dims =>
      alter_data_array name
        (set_da_dimensions (SampledDimension i (Some unit_name) :: dims))
  | RangeDimension t _ :: dims =>
      alter_data_array name
        (set_da_dimensions (RangeDimension t (Some unit_name) :: dims))
  | SetDimension _ :: _ => raise (AttributeError "unit")
  | [] => raise (Exn "IndexError" "dimensions")
  end.

(** [nix_array.dimensions[0].labels = labels]: only a set dimension has
    labels. *)
Definition set_first_dimension_labels (name : string) (labels : list string) : M unit :=
  da <- get_data_array name ;;
  match da_dimensions da with
  | SetDimension _ :: dims =>
      alter_data_array name (set_da_dimensions (SetDimension labels :: dims))
  | _ :: _ => raise (AttributeError "labels")
  | [] => raise (Exn "IndexError" "dimensions")
  end.

(** [nix_array.append_sampled_dimension(...)] and its siblings *)
Definition append_dimension (name : string) (dim : Dimension) : M unit :=
  alter_data_array name (λ da, set_da_dimensions (da_dimensions da ++ [dim])%list da).

(** *** Writer.Help, continued *)

(** What [get_or_create_section] is given as [root_section]: the file (the
    root of the sections of blocks), a section, or [None] when the metadata
    of the block was never set. *)
Inductive SectionRoot :=
| TheFile
| ASection (sp : path)
| NoSection.

Definition metadata_root (b : NixBlock) : SectionRoot :=
  match blk_metadata b with
  | Some sp => ASection sp
  | None => NoSection
  end.

(** [parent.create_section(name, type)] at the path [sp] *)
Definition create_section (sp : path) (type : string) : M unit :=
  set_sections (<[sp := {| sec_type := type; sec_props := ∅ |}]>).

(** [parent.sections[name]], or the section created when the lookup fails *)
Definition section_or_create (sp : path) (type : string) : M path :=
  secs <- gets sections ;;
  match secs !! sp with
  | Some _ => ret sp
  | None => run create_section sp type ;; ret sp
  end.

Definition get_or_create_section (root_section : SectionRoot)
    (group_name name : string) : M path :=
  match root_section with
  | NoSection => raise (AttributeError "sections")
  | TheFile => section_or_create [name] group_name
  | ASection sp =>
      group_sec <- section_or_create (sp ++ [group_name +:+ "s"])%list group_name ;;
      section_or_create (group_sec ++ [name])%list group_name
  end.

(** The parent handed to [write_many]: the block itself, a tag of the block
    (by name) or a source of the block (by path). *)
Inductive Parent :=
| ParentBlock
| ParentTag (name : string)
| ParentSource (p : path).

(** [parent.name] *)
Definition parent_name (b : NixBlock) (parent : Parent) : string :=
  match parent with
  | ParentBlock => blk_name b
  | ParentTag n => n
  | ParentSource p => path_name p
  end.

Definition NotModelled (what : string) : exn := Exn "NotModelled" what.

Definition containers (obj_type : string) (parent : Parent) : Container :=
  if decide (obj_type = "segment") then Tags
  else if decide (obj_type = "recordingchannelgroup") then Sources
  else if decide (obj_type = "unit") then
    match parent with
    | ParentBlock => Sources
    | ParentSource [rcg] => SubSources rcg
    | _ => NoContainer
    end
  else DataArrays.

(** A node of a container as [write_many] looks at it: [x.type], and for a
    data array [x.sources]. *)
Record Entity := {
  ent_type : string;
  ent_sources : gset path;
  ent_is_array : bool
}.

Definition entities (c : Container) (b : NixBlock) : result (gmap string Entity) :=
  match c with
  | Tags =>
      Ok ((λ t, {| ent_type := tag_type t; ent_sources := ∅;
                   ent_is_array := false |}) <$> blk_tags b)
  | Sources =>
      Ok ((λ s, {| ent_type := src_type s; ent_sources := ∅;
                   ent_is_array := false |}) <$> blk_sources b)
  | SubSources rcg =>
      match getitem (blk_sources b) rcg with
      | Ok s =>
          Ok ((λ u, {| ent_type := sub_type u; ent_sources := ∅;
                       ent_is_array := false |}) <$> src_sources s)
      | Raise e => Raise e
      end
  | DataArrays =>
      Ok ((λ da, {| ent_type := da_type da; ent_sources := da_sources da;
                    ent_is_array := true |}) <$> blk_data_arrays b)
  | NoContainer => Raise (NotModelled "container")
  end.

(** [nix_objs[name]] as a check that the node is there *)
Definition container_has (c : Container) (name : string) : M unit :=
  b <- gets nix_block ;;
  ents <- lift (entities c b) ;;
  _ <- lift (getitem ents name) ;;
  ret tt.

(** [del nix_objs[name]] *)
Definition container_delete (c : Container) (name : string) : M unit :=
  run container_has c name ;;
  run (match c with
       | Tags => set_block (λ b, with_tags b (delete name (blk_tags b)))
       | Sources => set_block (λ b, with_sources b (delete name (blk_sources b)))
       | SubSources rcg =>
           alter_source rcg (λ s, set_src_sources (delete name (src_sources s)) s)
       | DataArrays =>
           set_block (λ b, with_data_arrays b (delete name (blk_data_arrays b)))
       | NoContainer => raise (NotModelled "container")
       end) ;;
  log (DeleteNode c name).

(** The names of the existing children of the parent: the nodes of the
    container with the type of the objects, kept when linked to the parent.
    Only data arrays are linked to a tag or to a source; the Writer gives
    such a parent nothing else (units apart). *)
Definition existing_names (b : NixBlock) (nix_objs : Container)
    (obj_type : string) (parent : Parent) : result (gset string) :=
  match entities nix_objs b with
  | Raise e => Raise e
  | Ok ents =>
      let existing := filter (λ kv, ent_type kv.2 = obj_type) ents in
      match parent with
      | ParentSource p =>
          if decide (obj_type = "unit") then Ok (dom existing)
          else
            match nix_objs with
            | DataArrays => Ok (dom (filter (λ kv, p ∈ ent_sources kv.2) existing))
            | _ => Raise (NotModelled "sources")
            end
      | ParentTag t =>
          match getitem (blk_tags b) t, nix_objs with
          | Raise e, _ => Raise e
          | Ok tag, DataArrays =>
              Ok (dom (filter (λ kv, kv.1 ∈ tag_references tag) existing))
          | Ok _, _ => Raise (NotModelled "references")
          end
      | ParentBlock => Ok (dom existing)
      end
  end.

(** [update_references]: unlink the removed names from the tag, then
    reference the appended ones. *)
Definition update_references (nix_objs : Container) (tag : string)
    (to_remove to_append : gset string) : M unit :=
  run for_each (elements to_remove) (λ name,
        t <- get_tag tag ;;
        if bool_decide (name ∈ tag_references t) then
          alter_tag tag (λ t, set_tag_references (tag_references t ∖ {[name]}) t)
        else raise (KeyError name)) ;;
  for_each (elements to_append) (λ name,
    run container_has nix_objs name ;;
    match nix_objs with
    | DataArrays =>
        alter_tag tag (λ t, set_tag_references (tag_references t ∪ {[name]}) t)
    | _ => raise (NotModelled "references")
    end).

(** [update_sources]: take the parent off the sources of the removed
    arrays ([del ... .sources[parent.name]], by name), then add it to the
    sources of the appended ones. *)
Definition update_sources (nix_objs : Container) (parent : path)
    (to_remove to_append : gset string) : M unit :=
  run for_each (elements to_remove) (λ name,
        run container_has nix_objs name ;;
        match nix_objs with
        | DataArrays =>
            da <- get_data_array name ;;
            if bool_decide (path_name parent ∈
                              (set_map path_name (da_sources da) : gset string)) then
              alter_data_array name (λ da, set_da_sources
                (filter (λ q, path_name q ≠ path_name parent) (da_sources da)) da)
            else raise (KeyError (path_name parent))
        | _ => raise (NotModelled "sources")
        end) ;;
  for_each (elements to_append) (λ name,
    run container_has nix_objs name ;;
    match nix_objs with
    | DataArrays =>
        alter_data_array name (λ da, set_da_sources (da_sources da ∪ {[parent]}) da)
    | _ => raise (NotModelled "sources")
    end).

Section Writer.
Context {env : Env}.

(** [[conv(x) for x in neo_objs]] *)
Fixpoint conv_all {A} `{NeoObject A} (neo_objs : list A) : result (list string) :=
  match neo_objs with
  | [] => Ok []
  | x :: xs =>
      match get_obj_nix_name x, conv_all xs with
      | Ok n, Ok ns => Ok (n :: ns)
      | Raise e, _ => Raise e
      | _, Raise e => Raise e
      end
  end.

(** [write_many].  [write_func] is the function that
    [getattr(Writer, 'write_' + obj_type)] names; it is passed by the
    caller, and receives [parent.name], which only [write_unit] uses. *)
Definition write_many {A} `{NeoObject A} (write_func : string → A → M unit)
    (parent : Parent) (neo_objs : list A) : M unit :=
  match neo_objs with
  | [] => ret tt
  | first :: _ =>
      let obj_type := get_classname first in
      let nix_objs := containers obj_type parent in
      b <- gets nix_block ;;
      existing <- lift (existing_names b nix_objs obj_type parent) ;;
      desired <- lift (conv_all neo_objs) ;;
      let to_remove : gset string := existing ∖ list_to_set desired in
      let to_append : gset string := list_to_set desired ∖ existing in
      run for_each neo_objs (write_func (parent_name b parent)) ;;
      match parent with
      | ParentSource p =>
          if decide (obj_type = "unit") then
            for_each (elements to_remove) (container_delete nix_objs)
          else update_sources nix_objs p to_remove to_append
      | ParentTag t => update_references nix_objs t to_remove to_append
      | ParentBlock => for_each (elements to_remove) (container_delete nix_objs)
      end
  end.

(** [clean]: delete every data array that no tag references and that has
    no source. *)
Definition has_references (b : NixBlock) (name : string) : bool :=
  bool_decide (0 < size (filter (λ kv, name ∈ tag_references kv.2) (blk_tags b))).

Definition has_sources (nix_array : NixDataArray) : bool :=
  bool_decide (0 < size (da_sources nix_array)).

Definition clean : M unit :=
  run log Sweep ;;
  b <- gets nix_block ;;
  for_each (map fst (map_to_list (blk_data_arrays b))) (λ name,
    da <- get_data_array name ;;
    b <- gets nix_block ;;
    if negb (has_references b name) && negb (has_sources da) then
      container_delete DataArrays name
    else ret tt).

(** The section of an object, under the metadata of the block. *)
Definition object_section (group_name name : string) : M path :=
  b <- gets nix_block ;;
  get_or_create_section (metadata_root b) group_name name.

Definition quantity_item (q : Quantity) : PyValue := PScalar (SFloat (q_item q)).
Definition quantity_units (q : Quantity) : PyValue := PScalar (SStr (q_units q)).

(** [try: nix_block.data_arrays[obj_name] except KeyError: create, append] *)
Definition array_or_create (obj_name type dtype : string) (rows : list (list byte))
  : M unit :=
  b <- gets nix_block ;;
  match blk_data_arrays b !! obj_name with
  | Some _ => ret tt
  | None =>
      run create_data_array obj_name type dtype [] ;;
      for_each rows (data_array_append obj_name)
  end.

(** [if not nix_array.dimensions: nix_array.append_..._dimension(...)] *)
Definition dimension_if_none (obj_name : string) (dim : Dimension) : M unit :=
  nix_array <- get_data_array obj_name ;;
  match da_dimensions nix_array with
  | [] => append_dimension obj_name dim
  | _ => ret tt
  end.

Definition write_analogsignal (signal : AnalogSignal) : M unit :=
  obj_name <- lift (get_obj_nix_name signal) ;;
  run array_or_create obj_name "analogsignal" (nd_dtype (as_signal signal))
        [nd_bytes (as_signal signal)] ;;
  run alter_data_array obj_name (set_da_unit (Some (as_units signal))) ;;
  run dimension_if_none obj_name
        (SampledDimension (q_item (as_sampling_rate signal)) None) ;;
  run set_first_dimension_unit obj_name (q_units (as_sampling_rate signal)) ;;
  metadata <- lift (extract_metadata signal) ;;
  let metadata := <["t_start" := quantity_item (as_t_start signal)]> metadata in
  let metadata := <["t_start__unit" := quantity_units (as_t_start signal)]> metadata in
  sec <- object_section "analogsignal" obj_name ;;
  run alter_data_array obj_name (set_da_metadata (Some sec)) ;;
  write_metadata sec metadata.

Definition write_irregularlysampledsignal (signal : IrregularlySampledSignal) : M unit :=
  obj_name <- lift (get_obj_nix_name signal) ;;
  run array_or_create obj_name "irregularlysampledsignal" (nd_dtype (irr_signal signal))
        [nd_bytes (irr_signal signal)] ;;
  run alter_data_array obj_name (set_da_unit (Some (irr_units signal))) ;;
  run dimension_if_none obj_name (RangeDimension (irr_times signal) None) ;;
  run set_first_dimension_unit obj_name (irr_time_units signal) ;;
  metadata <- lift (extract_metadata signal) ;;
  sec <- object_section "irregularlysampledsignal" obj_name ;;
  run alter_data_array obj_name (set_da_metadata (Some sec)) ;;
  write_metadata sec metadata.

Definition write_spiketrain (st : SpikeTrain) : M unit :=
  obj_name <- lift (get_obj_nix_name st) ;;
  run array_or_create obj_name "spiketrain" (nd_dtype (st_times st))
        [nd_bytes (st_times st)] ;;
  run alter_data_array obj_name (set_da_unit (Some (st_units st))) ;;
  run (match st_sampling_rate st with
       | Some rate =>
           run dimension_if_none obj_name (SampledDimension (q_item rate) None) ;;
           set_first_dimension_unit obj_name (q_units rate)
       | None => ret tt
       end) ;;
  metadata <- lift (extract_metadata st) ;;
  let metadata := <["t_start" := quantity_item (st_t_start st)]> metadata in
  let metadata := <["t_start__unit" := quantity_units (st_t_start st)]> metadata in
  let metadata := <["t_stop" := quantity_item (st_t_stop st)]> metadata in
  let metadata := <["t_stop__unit" := quantity_units (st_t_stop st)]> metadata in
  let metadata :=
    match st_left_sweep st with
    | Some ls =>
        if float_is_zero (q_item ls) then metadata
        else <["left_sweep__unit" := quantity_units ls]>
               (<["left_sweep" := quantity_item ls]> metadata)
    | None => metadata
    end in
  sec <- object_section "spiketrain" obj_name ;;
  run alter_data_array obj_name (set_da_metadata (Some sec)) ;;
  write_metadata sec metadata.

Definition write_event (event : Event) : M unit :=
  obj_name <- lift (get_obj_nix_name event) ;;
  run array_or_create obj_name "event" (nd_dtype (ev_times event))
        [nd_bytes (ev_times event)] ;;
  run dimension_if_none obj_name (SetDimension []) ;;
  run set_first_dimension_labels obj_name (ev_labels event) ;;
  metadata <- lift (extract_metadata event) ;;
  sec <- object_section "event" obj_name ;;
  run alter_data_array obj_name (set_da_metadata (Some sec)) ;;
  write_metadata sec metadata.

Definition write_epoch (epoch : Epoch) : M unit :=
  obj_name <- lift (get_obj_nix_name epoch) ;;
  b <- gets nix_block ;;
  run (match blk_data_arrays b !! obj_name with
       | Some _ => ret tt
       | None =>
           create_data_array obj_name "epoch" (nd_dtype (ep_times epoch))
             [nd_bytes (ep_times epoch); nd_bytes (ep_durations epoch)]
       end) ;;
  run dimension_if_none obj_name (SetDimension []) ;;
  run set_first_dimension_labels obj_name (ep_labels epoch) ;;
  metadata <- lift (extract_metadata epoch) ;;
  sec <- object_section "epoch" obj_name ;;
  run alter_data_array obj_name (set_da_metadata (Some sec)) ;;
  write_metadata sec metadata.

Definition write_unit (source_id : string) (neo_unit : Unit list) (recursive : bool)
  : M unit :=
  nix_rcg_source <- get_source source_id ;;
  unit_name <- lift (name_of (u_base neo_unit)) ;;
  run (match src_sources nix_rcg_source !! unit_name with
       | Some _ => ret tt
       | None => create_sub_source source_id unit_name "unit"
       end) ;;
  sec <- object_section "unit" unit_name ;;
  run alter_source source_id (λ s, set_src_sources
        (alter (set_sub_metadata (Some sec)) unit_name (src_sources s)) s) ;;
  metadata <- lift (extract_metadata neo_unit) ;;
  run write_metadata sec metadata ;;
  run (if recursive then
         write_many (λ _, write_spiketrain)
           (ParentSource [source_id; unit_name]) (u_spiketrains neo_unit)
       else ret tt) ;;
  clean.

Definition write_recordingchannelgroup (rcg : RecordingChannelGroup list)
    (recursive : bool) : M unit :=
  rcg_name <- lift (name_of (rcg_base rcg)) ;;
  b <- gets nix_block ;;
  run (match blk_sources b !! rcg_name with
       | Some _ => ret tt
       | None => create_source rcg_name "recordingchannelgroup"
       end) ;;
  sec <- object_section "recordingchannelgroup" rcg_name ;;
  run alter_source rcg_name (set_src_metadata (Some sec)) ;;
  metadata <- lift (extract_metadata rcg) ;;
  run write_metadata sec metadata ;;
  run (if recursive then
         run write_many (λ parent_name u, write_unit parent_name u true)
               (ParentSource [rcg_name]) (rcg_units rcg) ;;
         run write_many (λ _, write_analogsignal)
               (ParentSource [rcg_name]) (rcg_analogsignals rcg) ;;
         write_many (λ _, write_irregularlysampledsignal)
           (ParentSource [rcg_name]) (rcg_irregularlysampledsignals rcg)
       else ret tt) ;;
  clean.

Definition write_segment (segment : Segment list) (recursive : bool) : M unit :=
  seg_name <- lift (name_of (seg_base segment)) ;;
  b <- gets nix_block ;;
  run (match blk_tags b !! seg_name with
       | Some _ => ret tt
       | None => create_tag seg_name "segment" [FBits 0]
       end) ;;
  sec <- object_section "segment" seg_name ;;
  run alter_tag seg_name (set_tag_metadata (Some sec)) ;;
  metadata <- lift (extract_metadata segment) ;;
  run write_metadata sec metadata ;;
  run (if recursive then
         run write_many (λ _, write_analogsignal)
               (ParentTag seg_name) (seg_analogsignals segment) ;;
         run write_many (λ _, write_irregularlysampledsignal)
               (ParentTag seg_name) (seg_irregularlysampledsignals segment) ;;
         run write_many (λ _, write_spiketrain)
               (ParentTag seg_name) (seg_spiketrains segment) ;;
         run write_many (λ _, write_event)
               (ParentTag seg_name) (seg_events segment) ;;
         write_many (λ _, write_epoch) (ParentTag seg_name) (seg_epochs segment)
       else ret tt) ;;
  clean.


Definition new_block (name type : string) : NixBlock :=
  {| blk_name := name; blk_type := type; blk_metadata := None;
     blk_tags := ∅; blk_sources := ∅; blk_data_arrays := ∅ |}.


End Writer.

(** ** Reader *)

Notation "'let?' x := m 'in' k" :=
  (match m with Ok x => k | Raise e => Raise e end)
  (at level 10, x name, m at level 100, k at level 200, only parsing).

(** [[f(x) for x in xs]] *)
Fixpoint map_result {A B} (f : A → result B) (xs : list A) : result (list B) :=
  match xs with
  | [] => Ok []
  | x :: xs' =>
      let? y := f x in
      let? ys := map_result f xs' in
      Ok (y :: ys)
  end.

(** [c.lower()] and [s.lower()], on ASCII. *)
Definition lower_ascii (c : Ascii.ascii) : Ascii.ascii :=
  let n := Ascii.N_of_ascii c in
  if bool_decide (65 ≤ n ≤ 90)%N then Ascii.ascii_of_N (n + 32) else c.

Fixpoint lower (s : string) : string :=
  match s with
  | EmptyString => EmptyString
  | String c s' => String (lower_ascii c) (lower s')
  end.

Fixpoint starts_with (sub s : string) : bool :=
  match sub, s with
  | EmptyString, _ => true
  | String a sub', String b s' => bool_decide (a = b) && starts_with sub' s'
  | String _ _, EmptyString => false
  end.

(** [sub in s] *)
Fixpoint contains (sub s : string) : bool :=
  starts_with sub s ||
  match s with
  | EmptyString => false
  | String _ s' => contains sub s'
  end.

(** The section that the [metadata] of a node refers to. *)
Definition metadata_of (nix_file : NixFile) (md : option path) : result NixSection :=
  match md with
  | None => Raise (TypeError "NoneType")
  | Some sp =>
      match f_sections nix_file !! sp with
      | Some sec => Ok sec
      | None => Raise (AttributeError "metadata")
      end
  end.

(** The object a constructor of [neo] builds from a name, with the
    attributes and the annotations the reader sets on it afterwards
    ([for key, value in ...items(): setattr(obj, key, value)]). *)
Definition read_base (name : PyValue) (read_attrs read_annots : gmap string PyValue)
  : NeoBase :=
  {| attrs := read_attrs ∪ {["name" := name]}; annotations := read_annots |}.

(** [nix_da[:]] *)
Definition read_all (nix_da : NixDataArray) : ndarray :=
  {| nd_dtype := da_dtype nix_da; nd_bytes := concat (da_data nix_da) |}.

(** [nix_da[i]] *)
Definition read_row (nix_da : NixDataArray) (i : nat) : result ndarray :=
  match da_data nix_da !! i with
  | Some row => Ok {| nd_dtype := da_dtype nix_da; nd_bytes := row |}
  | None => Raise (Exn "IndexError" "data")
  end.

Definition IndexError (what : string) : exn := Exn "IndexError" what.

Section Reader.
Context {env : Env}.

Definition get_obj_neo_name (nix_file : NixFile) (name : string)
    (nix_obj : NixDataArray) : result PyValue :=
  if bool_decide (da_type nix_obj ∈ ["analogsignal"; "spiketrain"; "event"; "epoch"])
  then
    let? sec := metadata_of nix_file (da_metadata nix_obj) in
    match section_getitem sec "name" with
    | Ok v => Ok v
    | Raise _ => Ok PNone
    end
  else Ok (PScalar (SStr name)).

(** [s_dim.sampling_interval * getattr(pq, s_dim.unit)] for the first
    dimension of an array *)
Definition read_sampling (nix_da : NixDataArray) : result (Quantity * string) :=
  match da_dimensions nix_da with
  | [] => Raise (IndexError "dimensions")
  | SampledDimension interval unit_name :: _ =>
      match unit_name with
      | None => Raise (TypeError "getattr")
      | Some u =>
          match pq_getattr u with
          | Some u' => Ok ({| q_item := interval; q_units := u' |}, u)
          | None => Raise (AttributeError u)
          end
      end
  | _ :: _ => Raise (AttributeError "sampling_interval")
  end.

(** [nix_da.dimensions[0].labels] *)
Definition read_labels (nix_da : NixDataArray) : result (list string) :=
  match da_dimensions nix_da with
  | [] => Raise (IndexError "dimensions")
  | SetDimension labels :: _ => Ok labels
  | _ :: _ => Raise (AttributeError "labels")
  end.

(** The unit that the constructors of [neo] require. *)
Definition required_units (u : option string) : result string :=
  match u with
  | Some u => Ok u
  | None => Raise (ValueError "units")
  end.

Definition read_analogsignal (nix_file : NixFile) (block_id array_id : string)
  : result AnalogSignal :=
  let? nix_block := getitem (f_blocks nix_file) block_id in
  let? nix_da := getitem (blk_data_arrays nix_block) array_id in
  let? name := get_obj_neo_name nix_file array_id nix_da in
  let? sampling := read_sampling nix_da in
  let rate :=
    if contains "hz" (lower sampling.2) then sampling.1
    else rate_of_period sampling.1 in
  let? units := required_units (da_unit nix_da) in
  let? sec := metadata_of nix_file (da_metadata nix_da) in
  let? t_start := read_quantity sec "t_start" in
  let? read_attrs := read_attributes sec "analogsignal" in
  let? read_annots := read_annotations sec "analogsignal" in
  Ok {| as_base := read_base name read_attrs read_annots;
        as_signal := read_all nix_da;
        as_units := units;
        as_sampling_rate := rate;
        as_t_start := t_start |}.

Definition read_irregularlysampledsignal (nix_file : NixFile)
    (block_id array_id : string) : result IrregularlySampledSignal :=
  let? nix_block := getitem (f_blocks nix_file) block_id in
  let? nix_da := getitem (blk_data_arrays nix_block) array_id in
  let? name := get_obj_neo_name nix_file array_id nix_da in
  let? times :=
    match da_dimensions nix_da with
    | [] => Raise (IndexError "dimensions")
    | RangeDimension ticks unit_name :: _ => Ok (ticks, unit_name)
    | _ :: _ => Raise (AttributeError "ticks")
    end in
  let? units := required_units (da_unit nix_da) in
  let? time_units := required_units times.2 in
  let? sec := metadata_of nix_file (da_metadata nix_da) in
  let? read_attrs := read_attributes sec "irregularlysampledsignal" in
  let? read_annots := read_annotations sec "irregularlysampledsignal" in
  Ok {| irr_base := read_base name read_attrs read_annots;
        irr_signal := read_all nix_da;
        irr_units := units;
        irr_times := times.1;
        irr_time_units := time_units |}.

(** [name = ...; if name: params['name'] = name] *)
Definition name_if_any (name : PyValue) : PyValue :=
  if py_truthy name then name else PNone.

Definition read_spiketrain (nix_file : NixFile) (block_id array_id : string)
  : result SpikeTrain :=
  let? nix_block := getitem (f_blocks nix_file) block_id in
  let? nix_da := getitem (blk_data_arrays nix_block) array_id in
  let? sec := metadata_of nix_file (da_metadata nix_da) in
  let? t_start := read_quantity sec "t_start" in
  let? t_stop := read_quantity sec "t_stop" in
  let? name := get_obj_neo_name nix_file array_id nix_da in
  let? left_sweep :=
    if section_contains sec "left_sweep" then
      let? q := read_quantity sec "left_sweep" in Ok (Some q)
    else Ok None in
  let? sampling_rate :=
    match da_dimensions nix_da with
    | [] => Ok None
    | _ :: _ => let? sampling := read_sampling nix_da in Ok (Some sampling.1)
    end in
  let? units :=
    match da_unit nix_da with
    | Some u => if bool_decide (u = "") then Raise (ValueError "units") else Ok u
    | None => Raise (ValueError "units")
    end in
  let? read_attrs := read_attributes sec "spiketrain" in
  let? read_annots := read_annotations sec "spiketrain" in
  Ok {| st_base := read_base (name_if_any name) read_attrs read_annots;
        st_times := read_all nix_da;
        st_units := units;
        st_sampling_rate := sampling_rate;
        st_t_start := t_start;
        st_t_stop := t_stop;
        st_left_sweep := left_sweep |}.

Definition read_event (nix_file : NixFile) (block_id array_id : string)
  : result Event :=
  let? nix_block := getitem (f_blocks nix_file) block_id in
  let? nix_da := getitem (blk_data_arrays nix_block) array_id in
  let? labels := read_labels nix_da in
  let? name := get_obj_neo_name nix_file array_id nix_da in
  let? sec := metadata_of nix_file (da_metadata nix_da) in
  let? read_attrs := read_attributes sec "event" in
  let? read_annots := read_annotations sec "event" in
  Ok {| ev_base := read_base (name_if_any name) read_attrs read_annots;
        ev_times := read_all nix_da;
        ev_units := None;
        ev_labels := labels |}.

Definition read_epoch (nix_file : NixFile) (block_id array_id : string)
  : result Epoch :=
  let? nix_block := getitem (f_blocks nix_file) block_id in
  let? nix_da := getitem (blk_data_arrays nix_block) array_id in
  let? times := read_row nix_da 0 in
  let? durations := read_row nix_da 1 in
  let? labels := read_labels nix_da in
  let? name := get_obj_neo_name nix_file array_id nix_da in
  let? sec := metadata_of nix_file (da_metadata nix_da) in
  let? read_attrs := read_attributes sec "epoch" in
  let? read_annots := read_annotations sec "epoch" in
  Ok {| ep_base := read_base (name_if_any name) read_attrs read_annots;
        ep_times := times;
        ep_durations := durations;
        ep_units := None;
        ep_labels := labels |}.

(** The names of the data arrays of a block that have a type and that a
    test on the name and the array keeps, in the order of the container. *)
Definition arrays_of_type (nix_block : NixBlock) (obj_type : string)
    (keep : string → NixDataArray → bool) : list string :=
  map fst (filter (λ kv, da_type kv.2 = obj_type ∧ keep kv.1 kv.2 = true)
                  (map_to_list (blk_data_arrays nix_block))).

(** [nsn in [y.name for y in x.sources]] *)
Definition has_source_named (nsn : string) (x : NixDataArray) : bool :=
  bool_decide (nsn ∈ (set_map path_name (da_sources x) : gset string)).

Definition read_unit (nix_file : NixFile) (block_id rcg_source_id unit_id : string)
  : result (Unit ProxyList) :=
  let read_spiketrains : Handle → result (list SpikeTrain) := λ h,
    let? nix_block := getitem (f_blocks (h_file h)) block_id in
    map_result (read_spiketrain (h_file h) block_id)
      (arrays_of_type nix_block "spiketrain" (λ _, has_source_named unit_id)) in
  let? nix_block := getitem (f_blocks nix_file) block_id in
  let? nix_rcg_source := getitem (blk_sources nix_block) rcg_source_id in
  let? nix_source := getitem (src_sources nix_rcg_source) unit_id in
  let? sec := metadata_of nix_file (sub_metadata nix_source) in
  let? read_attrs := read_attributes sec "unit" in
  let? read_annots := read_annotations sec "unit" in
  Ok {| u_base := read_base (PScalar (SStr unit_id)) read_attrs read_annots;
        u_spiketrains := ProxyList_init read_spiketrains |}.

Definition read_RCG (nix_file : NixFile) (block_id rcg_id : string)
  : result (RecordingChannelGroup ProxyList) :=
  let read_multiple {A} (read_func : NixFile → string → string → result A)
      (obj_type : string) : Handle → result (list A) := λ h,
    let? nix_block := getitem (f_blocks (h_file h)) block_id in
    map_result (read_func (h_file h) block_id)
      (arrays_of_type nix_block obj_type (λ _, has_source_named rcg_id)) in
  let read_units : Handle → result (list (Unit ProxyList)) := λ h,
    let? nix_block := getitem (f_blocks (h_file h)) block_id in
    let? nix_source := getitem (blk_sources nix_block) rcg_id in
    map_result (read_unit (h_file h) block_id rcg_id)
      (map fst (filter (λ kv, sub_type kv.2 = "unit")
                       (map_to_list (src_sources nix_source)))) in
  let? nix_block := getitem (f_blocks nix_file) block_id in
  let? nix_source := getitem (blk_sources nix_block) rcg_id in
  let? sec := metadata_of nix_file (src_metadata nix_source) in
  let? channel_indexes := section_getitem sec "channel_indexes" in
  let? read_attrs := read_attributes sec "recordingchannelgroup" in
  let? read_annots := read_annotations sec "recordingchannelgroup" in
  Ok {| rcg_base :=
          {| attrs := read_attrs ∪ {["name" := PScalar (SStr rcg_id);
                                     "channel_indexes" := channel_indexes]};
             annotations := read_annots |};
        rcg_units := ProxyList_init read_units;
        rcg_analogsignals :=
          ProxyList_init (read_multiple read_analogsignal "analogsignal");
        rcg_irregularlysampledsignals :=
          ProxyList_init (read_multiple read_irregularlysampledsignal
                            "irregularlysampledsignal") |}.

Definition read_segment (nix_file : NixFile) (block_id seg_id : string)
  : result (Segment ProxyList) :=
  let read_multiple {A} (read_func : NixFile → string → string → result A)
      (obj_type : string) : Handle → result (list A) := λ h,
    let? nix_block := getitem (f_blocks (h_file h)) block_id in
    let? nix_tag := getitem (blk_tags nix_block) seg_id in
    map_result (read_func (h_file h) block_id)
      (arrays_of_type nix_block obj_type
         (λ name _, bool_decide (name ∈ tag_references nix_tag))) in
  let? nix_block := getitem (f_blocks nix_file) block_id in
  let? nix_tag := getitem (blk_tags nix_block) seg_id in
  let? sec := metadata_of nix_file (tag_metadata nix_tag) in
  let? read_attrs := read_attributes sec "segment" in
  let? read_annots := read_annotations sec "segment" in
  Ok {| seg_base := read_base (PScalar (SStr seg_id)) read_attrs read_annots;
        seg_analogsignals :=
          ProxyList_init (read_multiple read_analogsignal "analogsignal");
        seg_irregularlysampledsignals :=
          ProxyList_init (read_multiple read_irregularlysampledsignal
                            "irregularlysampledsignal");
        seg_spiketrains := ProxyList_init (read_multiple read_spiketrain "spiketrain");
        seg_events := ProxyList_init (read_multiple read_event "event");
        seg_epochs := ProxyList_init (read_multiple read_epoch "epoch") |}.

Definition read_block (nix_file : NixFile) (block_id : string)
  : result (Block ProxyList) :=
  let read_segments : Handle → result (list (Segment ProxyList)) := λ h,
    let? nix_block := getitem (f_blocks (h_file h)) block_id in
    map_result (read_segment (h_file h) block_id)
      (map fst (filter (λ kv, tag_type kv.2 = "segment")
                       (map_to_list (blk_tags nix_block)))) in
  let read_recordingchannelgroups
      : Handle → result (list (RecordingChannelGroup ProxyList)) := λ h,
    let? nix_block := getitem (f_blocks (h_file h)) block_id in
    map_result (read_RCG (h_file h) block_id)
      (map fst (filter (λ kv, src_type kv.2 = "recordingchannelgroup")
                       (map_to_list (blk_sources nix_block)))) in
  let? nix_block := getitem (f_blocks nix_file) block_id in
  let? sec := metadata_of nix_file (blk_metadata nix_block) in
  let? read_attrs := read_attributes sec "block" in
  let? read_annots := read_annotations sec "block" in
  Ok {| b_base := read_base (PScalar (SStr (blk_name nix_block))) read_attrs
                    read_annots;
        b_segments := ProxyList_init read_segments;
        b_recordingchannelgroups := ProxyList_init read_recordingchannelgroups |}.

End Reader.

(** ** Specification functions

    What [write_metadata] leaves in the properties of a section, and the
    mutations it journals, as functions of the items it stores. *)

Definition property_mutation (sp : path) (name : string) (values : list Scalar)
    (props : gmap string (list Scalar)) : list Mutation :=
  match props !! name with
  | Some p_values =>
      if bool_decide (p_values = values) then [] else [AssignValues sp name values]
  | None => [CreateProperty sp name values]
  end.

Fixpoint props_after (items : list (string * PyValue))
    (props : gmap string (list Scalar)) : gmap string (list Scalar) :=
  match items with
  | [] => props
  | (name, value) :: rest =>
      match make_nix_values value with
      | Ok values => props_after rest (<[name := values]> props)
      | Raise _ => props
      end
  end.

Fixpoint mutations_of (sp : path) (items : list (string * PyValue))
    (props : gmap string (list Scalar)) : list Mutation :=
  match items with
  | [] => []
  | (name, value) :: rest =>
      match make_nix_values value with
      | Ok values =>
          (property_mutation sp name values props
             ++ mutations_of sp rest (<[name := values]> props))%list
      | Raise _ => []
      end
  end.

(** A journal entry that creates or re-assigns the property [name] of the
    section [sp]. *)
Definition mutates (sp : path) (name : string) (m : Mutation) : Prop :=
  match m with
  | CreateProperty sp' name' _ | AssignValues sp' name' _ => sp' = sp ∧ name' = name
  | _ => False
  end.

(** The properties that [write_metadata] leaves in the section. *)
Definition stored_props (d : gmap string PyValue) (props : gmap string (list Scalar))
  : gmap string (list Scalar) :=
  props_after (map_to_list (to_store d)) props.

Definition stored_mutations (sp : path) (d : gmap string PyValue)
    (props : gmap string (list Scalar)) : list Mutation :=
  mutations_of sp (map_to_list (to_store d)) props.


Global Instance Mutation_eq_dec : EqDecision Mutation.
Proof. solve_decision. Defined.

(** The number of runs of the orphan sweep that a journal records. *)
Definition count_sweeps (j : list Mutation) : nat :=
  length (filter (λ m, m = Sweep) j).

(** A computation keeps a relation between the store before and the store
    after, whenever it returns. *)
Definition preserves {A} (R : relation Store) (m : M A) : Prop :=
  ∀ s a s', m s = Ok (a, s') → R s s'.

(** Relations on stores that look at the block only, or at the number of
    sweeps only. *)
Definition on_block (Rb : relation NixBlock) : relation Store :=
  λ s s', Rb (nix_block s) (nix_block s').

Definition same_sweeps : relation Store :=
  λ s s', count_sweeps (journal s') = count_sweeps (journal s).




(** A projection of the block is the same before and after. *)
Definition same {B} (f : NixBlock → B) : relation NixBlock := λ b b', f b' = f b.

Definition keeps {B} (f : NixBlock → B) : relation Store := on_block (same f).

(** The data arrays of a block that are linked to the source [p]. *)
Definition linked_arrays (p : path) (b : NixBlock) : gset string :=
  dom (filter (λ kv, p ∈ da_sources kv.2) (blk_data_arrays b)).

(** The references of the tag [t] of a block. *)
Definition references_of (t : string) (b : NixBlock) : gset string :=
  default ∅ (tag_references <$> blk_tags b !! t).

(** The units of the source [rcg] of a block. *)
Definition units_of (rcg : string) (b : NixBlock) : gset string :=
  default ∅ ((λ s, dom (src_sources s)) <$> blk_sources b !! rcg).

(** The names of the nodes of a container. *)
Definition container_names (c : Container) (b : NixBlock) : gset string :=
  match c with
  | Tags => dom (blk_tags b)
  | Sources => dom (blk_sources b)
  | SubSources rcg => units_of rcg b
  | DataArrays => dom (blk_data_arrays b)
  | NoContainer => ∅
  end.

(** The children of a parent, by the linkage that [write_many] maintains
    for it: the references of a tag, the data arrays that have a source
    among their sources, the nodes of the container for a block and for the
    units of a source. *)
Definition linked (parent : Parent) (obj_type : string) (b : NixBlock) : gset string :=
  match parent with
  | ParentTag t => references_of t b
  | ParentSource p =>
      if decide (obj_type = "unit") then container_names (containers obj_type parent) b
      else linked_arrays p b
  | ParentBlock => container_names (containers obj_type parent) b
  end.

(** *** What the writer of a data object leaves in the store

    The writers of the five kinds of data objects have one shape: find or
    create the array named by the identity of the object, set its unit and
    its first dimension, find or create the section of the object, and
    write the metadata there.  The functions below give the array and the
    store that result, as functions of the array found and of the store
    before. *)

Definition new_array (type dtype : string) (data : list (list byte)) : NixDataArray :=
  {| da_type := type; da_dtype := dtype; da_data := data; da_unit := None;
     da_dimensions := []; da_sources := ∅; da_metadata := None |}.

Definition with_dimension_if_none (dim : Dimension) (da : NixDataArray)
  : NixDataArray :=
  match da_dimensions da with
  | [] => set_da_dimensions [dim] da
  | _ :: _ => da
  end.

Definition with_first_dimension_unit (unit_name : string) (da : NixDataArray)
  : result NixDataArray :=
  match da_dimensions da with
  | SampledDimension i _ :: dims =>
      Ok (set_da_dimensions (SampledDimension i (Some unit_name) :: dims) da)
  | RangeDimension t _ :: dims =>
      Ok (set_da_dimensions (RangeDimension t (Some unit_name) :: dims) da)
  | SetDimension _ :: _ => Raise (AttributeError "unit")
  | [] => Raise (Exn "IndexError" "dimensions")
  end.

Definition with_first_dimension_labels (labels : list string) (da : NixDataArray)
  : result NixDataArray :=
  match da_dimensions da with
  | SetDimension _ :: dims => Ok (set_da_dimensions (SetDimension labels :: dims) da)
  | _ :: _ => Raise (AttributeError "labels")
  | [] => Raise (Exn "IndexError" "dimensions")
  end.

Definition analogsignal_array (signal : AnalogSignal) (found : option NixDataArray)
  : result NixDataArray :=
  with_first_dimension_unit (q_units (as_sampling_rate signal))
    (with_dimension_if_none (SampledDimension (q_item (as_sampling_rate signal)) None)
       (set_da_unit (Some (as_units signal))
          (default (new_array "analogsignal" (nd_dtype (as_signal signal))
                      [nd_bytes (as_signal signal)]) found))).

Definition irregularlysampledsignal_array (signal : IrregularlySampledSignal)
    (found : option NixDataArray) : result NixDataArray :=
  with_first_dimension_unit (irr_time_units signal)
    (with_dimension_if_none (RangeDimension (irr_times signal) None)
       (set_da_unit (Some (irr_units signal))
          (default (new_array "irregularlysampledsignal" (nd_dtype (irr_signal signal))
                      [nd_bytes (irr_signal signal)]) found))).

Definition spiketrain_array (st : SpikeTrain) (found : option NixDataArray)
  : result NixDataArray :=
  let da := set_da_unit (Some (st_units st))
              (default (new_array "spiketrain" (nd_dtype (st_times st))
                          [nd_bytes (st_times st)]) found) in
  match st_sampling_rate st with
  | Some rate =>
      with_first_dimension_unit (q_units rate)
        (with_dimension_if_none (SampledDimension (q_item rate) None) da)
  | None => Ok da
  end.

Definition event_array (event : Event) (found : option NixDataArray)
  : result NixDataArray :=
  with_first_dimension_labels (ev_labels event)
    (with_dimension_if_none (SetDimension [])
       (default (new_array "event" (nd_dtype (ev_times event))
                   [nd_bytes (ev_times event)]) found)).

Definition epoch_array (epoch : Epoch) (found : option NixDataArray)
  : result NixDataArray :=
  with_first_dimension_labels (ep_labels epoch)
    (with_dimension_if_none (SetDimension [])
       (default (new_array "epoch" (nd_dtype (ep_times epoch))
                   [nd_bytes (ep_times epoch); nd_bytes (ep_durations epoch)]) found)).

(** The dictionaries handed to [write_metadata]. *)
Definition analogsignal_metadata (signal : AnalogSignal) : result (gmap string PyValue) :=
  match extract_metadata signal with
  | Ok metadata =>
      Ok (<["t_start__unit" := quantity_units (as_t_start signal)]>
            (<["t_start" := quantity_item (as_t_start signal)]> metadata))
  | Raise e => Raise e
  end.

Definition spiketrain_metadata (st : SpikeTrain) : result (gmap string PyValue) :=
  match extract_metadata st with
  | Ok metadata =>
      let metadata := <["t_start" := quantity_item (st_t_start st)]> metadata in
      let metadata := <["t_start__unit" := quantity_units (st_t_start st)]> metadata in
      let metadata := <["t_stop" := quantity_item (st_t_stop st)]> metadata in
      let metadata := <["t_stop__unit" := quantity_units (st_t_stop st)]> metadata in
      Ok match st_left_sweep st with
         | Some ls =>
             if float_is_zero (q_item ls) then metadata
             else <["left_sweep__unit" := quantity_units ls]>
                    (<["left_sweep" := quantity_item ls]> metadata)
         | None => metadata
         end
  | Raise e => Raise e
  end.

(** The store with the array [da] under [id], and [new] journalled. *)
Definition with_array (id : string) (da : NixDataArray) (new : list Mutation)
    (s : Store) : Store :=
  {| nix_block := with_data_arrays (nix_block s)
                    (<[id := da]> (blk_data_arrays (nix_block s)));
     sections := sections s;
     journal := (journal s ++ new)%list |}.

Definition ensure_section (sp : path) (type : string)
    (secs : gmap path NixSection) : gmap path NixSection :=
  match secs !! sp with
  | Some _ => secs
  | None => <[sp := {| sec_type := type; sec_props := ∅ |}]> secs
  end.

(** The path of the section of an object of a kind, under the metadata
    of the block at [bsp]. *)
Definition section_path (bsp : path) (kind id : string) : path :=
  ((bsp ++ [kind +:+ "s"]) ++ [id])%list.

(** The journal entry of the creation of the array, if none was found. *)
Definition created (id : string) (found : option NixDataArray) : list Mutation :=
  match found with
  | Some _ => []
  | None => [CreateNode DataArrays id]
  end.

Definition written (kind id : string)
    (array : option NixDataArray → result NixDataArray)
    (metadata : result (gmap string PyValue)) (s : Store) : result Store :=
  let found := blk_data_arrays (nix_block s) !! id in
  match array found, metadata, blk_metadata (nix_block s) with
  | Ok da, Ok metadata, Some bsp =>
      let sp := section_path bsp kind id in
      let secs := ensure_section sp kind
                    (ensure_section (bsp ++ [kind +:+ "s"])%list kind (sections s)) in
      let sec := default {| sec_type := kind; sec_props := ∅ |} (secs !! sp) in
      Ok {| nix_block := with_data_arrays (nix_block s)
                           (<[id := set_da_metadata (Some sp) da]>
                              (blk_data_arrays (nix_block s)));
            sections := <[sp := with_props sec (stored_props metadata (sec_props sec))]>
                          secs;
            journal := ((journal s ++ created id found)
                          ++ stored_mutations sp metadata (sec_props sec))%list |}
  | Raise e, _, _ => Raise e
  | _, Raise e, _ => Raise e
  | _, _, None => Raise (AttributeError "sections")
  end.

(** A computation and a function on stores agree: both return, and the
    same store, or both raise. *)
Definition agrees (r : result (unit * Store)) (r' : result Store) : Prop :=
  match r, r' with
  | Ok (_, s), Ok s' => s = s'
  | Raise _, Raise _ => True
  | _, _ => False
  end.

(** The data objects, as [getattr(Writer, 'write_' + obj_type)] tells them
    apart. *)
Inductive DataObject :=
| AnAnalogSignal (signal : AnalogSignal)
| AnIrregularlySampledSignal (signal : IrregularlySampledSignal)
| ASpikeTrain (st : SpikeTrain)
| AnEvent (event : Event)
| AnEpoch (epoch : Epoch).

Global Instance DataObject_obj : NeoObject DataObject :=
  {| get_classname := λ o,
       match o with
       | AnAnalogSignal x => get_classname x
       | AnIrregularlySampledSignal x => get_classname x
       | ASpikeTrain x => get_classname x
       | AnEvent x => get_classname x
       | AnEpoch x => get_classname x
       end;
     neo_base := λ o,
       match o with
       | AnAnalogSignal x => neo_base x
       | AnIrregularlySampledSignal x => neo_base x
       | ASpikeTrain x => neo_base x
       | AnEvent x => neo_base x
       | AnEpoch x => neo_base x
       end;
     hashed_bytes := λ o,
       match o with
       | AnAnalogSignal x => hashed_bytes x
       | AnIrregularlySampledSignal x => hashed_bytes x
       | ASpikeTrain x => hashed_bytes x
       | AnEvent x => hashed_bytes x
       | AnEpoch x => hashed_bytes x
       end |}.

(** The bytes that the identity of a data object is the hash of. *)
Definition payload (o : DataObject) : list byte :=
  default [] (hashed_bytes o).

Section DataObjects.
Context {env : Env}.

(** [getattr(Writer, 'write_' + obj_type)(nix_block, obj)] *)
Definition write_data_object (o : DataObject) : M unit :=
  match o with
  | AnAnalogSignal x => write_analogsignal x
  | AnIrregularlySampledSignal x => write_irregularlysampledsignal x
  | ASpikeTrain x => write_spiketrain x
  | AnEvent x => write_event x
  | AnEpoch x => write_epoch x
  end.

(** What the writer of a data object leaves in the store. *)
Definition data_object_written (o : DataObject) (s : Store) : result Store :=
  match get_obj_nix_name o with
  | Raise e => Raise e
  | Ok id =>
      match o with
      | AnAnalogSignal x =>
          written "analogsignal" id (analogsignal_array x) (analogsignal_metadata x) s
      | AnIrregularlySampledSignal x =>
          written "irregularlysampledsignal" id (irregularlysampledsignal_array x)
            (extract_metadata x) s
      | ASpikeTrain x =>
          written "spiketrain" id (spiketrain_array x) (spiketrain_metadata x) s
      | AnEvent x => written "event" id (event_array x) (extract_metadata x) s
      | AnEpoch x => written "epoch" id (epoch_array x) (extract_metadata x) s
      end
  end.

End DataObjects.

Section Reconciliation.
Context {env : Env}.

(** What the reconciliation of a non-empty collection does to the children
    of the parent: with [existing] the names of the linked children of the
    kind of the collection and [desired] the identities of the collection,
    the children afterwards are the children before, less
    [existing - desired], plus [desired - existing]. *)
Definition reconciles {A} `{NeoObject A} (write_func : string → A → M unit)
    (parent : Parent) : Prop :=
  ∀ (first : A) (rest : list A) (s s' : Store),
    let neo_objs := first :: rest in
    let obj_type := get_classname first in
    write_many write_func parent neo_objs s = Ok (tt, s') →
    ∃ (existing : gset string) (desired : list string),
      existing_names (nix_block s) (containers obj_type parent) obj_type parent
        = Ok existing ∧
      conv_all neo_objs = Ok desired ∧
      linked parent obj_type (nix_block s')
      = (linked parent obj_type (nix_block s) ∖ (existing ∖ list_to_set desired))
          ∪ (list_to_set desired ∖ existing).

(** A journal entry that creates or deletes the node [n] of the
    container [c]. *)
Definition node_event (c : Container) (n : string) (m : Mutation) : Prop :=
  m = CreateNode c n ∨ m = DeleteNode c n.

(** The nodes of a container are settled between two stores: those of the
    first are nodes of the second, and the journal in between creates and
    deletes none of them. *)
Definition settled (c : Container) : relation Store := λ s s',
  container_names c (nix_block s) ⊆ container_names c (nix_block s') ∧
  ∃ new, journal s' = (journal s ++ new)%list ∧
         ∀ n m, n ∈ container_names c (nix_block s) → m ∈ new → ¬ node_event c n m.

(** A projection of the store is the same before and after. *)
Definition unchanged {B} (f : Store → B) : relation Store := λ s s', f s' = f s.

(** The scenario of a parent that has the children A, B and C of a kind,
    among others or not, and is written again with the children B, C and D:
    A is no child afterwards, and its node is deleted when the children of
    the parent are the nodes of a container; D is a child and has its
    node; B and C are children and have their nodes, and the journal of
    the write creates and deletes no node of theirs. *)
Definition rewrite_spares {A} `{NeoObject A} (write_func : string → A → M unit)
    (parent : Parent) : Prop :=
  ∀ (B C D : A) (idA idB idC idD : string) (existing : gset string) (s1 s2 : Store),
    let obj_type := get_classname B in
    let nix_objs := containers obj_type parent in
    existing_names (nix_block s1) nix_objs obj_type parent = Ok existing →
    idA ∈ existing → idB ∈ existing → idC ∈ existing → idD ∉ existing →
    idA ≠ idB → idA ≠ idC →
    conv_all [B; C; D] = Ok [idB; idC; idD] →
    write_many write_func parent [B; C; D] s1 = Ok (tt, s2) →
    (idA ∉ linked parent obj_type (nix_block s2)) ∧
    (match parent with
     | ParentBlock => idA ∉ container_names nix_objs (nix_block s2)
     | ParentSource _ =>
         obj_type = "unit" → idA ∉ container_names nix_objs (nix_block s2)
     | ParentTag _ => True
     end) ∧
    idD ∈ linked parent obj_type (nix_block s2) ∧
    idD ∈ container_names nix_objs (nix_block s2) ∧
    ∃ new,
      journal s2 = (journal s1 ++ new)%list ∧
      ∀ id, id ∈ [idB; idC] →
        id ∈ linked parent obj_type (nix_block s2) ∧
        id ∈ container_names nix_objs (nix_block s2) ∧
        ∀ m, m ∈ new → ¬ node_event nix_objs id m.

(** The same scenario for data objects, when the store holds B and C as
    they are written (the write of either alone returns the store as it
    is): the arrays and the sections of B and of C are the same afterwards,
    and the journal of the write mutates no property of theirs. *)
Definition rewrite_keeps_content {A} `{NeoObject A}
    (write_func : string → A → M unit) (parent : Parent) : Prop :=
  ∀ (B C D : A) (idB idC idD : string) (existing : gset string) (bsp : path)
    (s1 s2 : Store),
    let obj_type := get_classname B in
    let pn := parent_name (nix_block s1) parent in
    existing_names (nix_block s1) (containers obj_type parent) obj_type parent
      = Ok existing →
    idB ∈ existing → idC ∈ existing → idD ∉ existing →
    conv_all [B; C; D] = Ok [idB; idC; idD] →
    blk_metadata (nix_block s1) = Some bsp →
    write_func pn B s1 = Ok (tt, s1) →
    write_func pn C s1 = Ok (tt, s1) →
    write_many write_func parent [B; C; D] s1 = Ok (tt, s2) →
    ∃ new,
      journal s2 = (journal s1 ++ new)%list ∧
      ∀ id, id ∈ [idB; idC] →
        is_Some (blk_data_arrays (nix_block s1) !! id) ∧
        blk_data_arrays (nix_block s2) !! id = blk_data_arrays (nix_block s1) !! id ∧
        sections s2 !! section_path bsp obj_type id
        = sections s1 !! section_path bsp obj_type id ∧
        ∀ m k, m ∈ new → ¬ mutates (section_path bsp obj_type id) k m.

End Reconciliation.

(** ** Sample data

    A small environment and a few objects on which the theorems are
    instantiated and the definitions evaluated. *)

Definition sample_hash (bs : list byte) : Z :=
  foldl (λ h b, (h * 31 + Z.of_N (Byte.to_N b)) `mod` 2 ^ 61)%Z 7%Z bs.

Definition sample_env : Env :=
  {| py_hash := sample_hash;
     float_of_int := λ z, FBits z;
     float_of_str := λ _, None;
     pq_getattr := λ u, if decide (u ∈ ["Hz"; "kHz"; "s"; "ms"; "mV"]) then Some u
                        else None;
     rate_of_period := λ q, q |}.

Definition sample_base (name : string) : NeoBase :=
  {| attrs := {["name" := PScalar (SStr name)]}; annotations := ∅ |}.

Definition sample_signal (name : string) (b : byte) : AnalogSignal :=
  {| as_base := sample_base name;
     as_signal := {| nd_dtype := "float64"; nd_bytes := [b; b; b] |};
     as_units := "mV";
     as_sampling_rate := {| q_item := FBits 1000; q_units := "Hz" |};
     as_t_start := {| q_item := FBits 0; q_units := "s" |} |}.

Definition sample_segment (name : string) (signals : list AnalogSignal)
  : Segment list :=
  {| seg_base := sample_base name;
     seg_analogsignals := signals;
     seg_irregularlysampledsignals := [];
     seg_spiketrains := [];
     seg_events := [];
     seg_epochs := [] |}.


Definition sig_A := sample_signal "a" x01.
Definition sig_B := sample_signal "b" x02.
Definition sig_C := sample_signal "c" x03.
Definition sig_D := sample_signal "d" x04.

(** The store of a block after a computation, or the store before if it
    raised. *)
Definition store_after {A} (m : M A) (s : Store) : Store :=
  match m s with
  | Ok (_, s') => s'
  | Raise _ => s
  end.

Definition sample_store0 : Store :=
  {| nix_block := {| blk_name := "foo"; blk_type := "block";
                     blk_metadata := Some ["foo"];
                     blk_tags := ∅; blk_sources := ∅; blk_data_arrays := ∅ |};
     sections := {[ ["foo"] := {| sec_type := "block"; sec_props := ∅ |} ]};
     journal := [] |}.

(** The block after the segment [s1] was written with the signals A, B
    and C. *)
Definition sample_store1 : Store :=
  Eval vm_compute in
    store_after (A := unit) (write_segment (env := sample_env)
                   (sample_segment "s1" [sig_A; sig_B; sig_C]) true) sample_store0.

(** ... and after it was written again with B, C and D. *)
Definition sample_store2 : Store :=
  Eval vm_compute in
    store_after (A := unit)
      (write_many (env := sample_env) (λ _, write_analogsignal (env := sample_env))
         (ParentTag "s1") [sig_B; sig_C; sig_D]) sample_store1.

(** A section that holds the magnitude of a quantity and not its unit. *)
Definition sample_section_no_unit : NixSection :=
  {| sec_type := "analogsignal";
     sec_props := {["t_start" := [SFloat (FBits 0)]]} |}.

Definition sample_section : NixSection :=
  {| sec_type := "block";
     sec_props := {["description" := [SStr "a test block"]]} |}.

Definition sample_section_store : Store :=
  {| nix_block := nix_block sample_store0;
     sections := {[ ["foo"] := sample_section ]};
     journal := [] |}.

Definition sample_proxy : ProxyList nat :=
  ProxyList_init (λ _, Ok [1; 2; 3]).

Definition sample_io_closed : IOState :=
  {| io_fh := FileHandler_init "foo.h5" false; io_disk := ∅ |}.

(** A block with a description and one annotation, [note]. *)
Definition sample_annotated (description note : PyValue) : Block list :=
  {| b_base := {| attrs := {["name" := PScalar (SStr "foo");
                              "description" := description]};
                  annotations := {["note" := note]} |};
     b_segments := [];
     b_recordingchannelgroups := [] |}.

Definition sample_block_names : list string :=
  ["description"; "file_origin"; "file_datetime"; "rec_datetime"; "index"].

(** Two signals with the same samples and different names, and the stores
    after the first and after both were written. *)
Definition sig_A' : AnalogSignal := sample_signal "another name" x01.

Definition sample_store_A : Store :=
  Eval vm_compute in
    store_after (A := unit)
      (write_data_object (env := sample_env) (AnAnalogSignal sig_A)) sample_store0.

Definition sample_store_AA : Store :=
  Eval vm_compute in
    store_after (A := unit)
      (write_data_object (env := sample_env) (AnAnalogSignal sig_A')) sample_store_A.

(** A file on disk, and a dictionary with a scalar, a list of one item, a
    tuple and a quantity, written to the section of the block. *)
Definition sample_io_existing : IOState :=
  {| io_fh := FileHandler_init "foo.h5" true;
     io_disk := {["foo.h5" := empty_file]} |}.

Definition sample_dict : gmap string PyValue :=
  {[ "note" := PScalar (SInt 1);
     "one" := PList [SStr "a"];
     "pair" := PTuple [SInt 1; SInt 2];
     "t_start" := PScalar (SFloat (FBits 5));
     "t_start__unit" := PScalar (SStr "ms") ]}.

Definition sample_dict_store : Store :=
  Eval vm_compute in
    store_after (A := unit) (write_metadata ["foo"] sample_dict) sample_store0.

(** A block whose metadata were never set. *)
Definition sample_store_bare : Store :=
  {| nix_block := new_block "foo" "block"; sections := ∅; journal := [] |}.

(** A recording channel group with one unit and one signal, and the store
    after it was written; the unit has one spike train. *)
Definition sample_spiketrain : SpikeTrain :=
  {| st_base := sample_base "st";
     st_times := {| nd_dtype := "float64"; nd_bytes := [x05; x06] |};
     st_units := "ms";
     st_sampling_rate := None;
     st_t_start := {| q_item := FBits 0; q_units := "ms" |};
     st_t_stop := {| q_item := FBits 9; q_units := "ms" |};
     st_left_sweep := None |}.

Definition sample_unit : Unit list :=
  {| u_base := sample_base "u1"; u_spiketrains := [sample_spiketrain] |}.

Definition sample_rcg : RecordingChannelGroup list :=
  {| rcg_base :=
       {| attrs := {["name" := PScalar (SStr "r1");
                     "channel_indexes" := PList [SInt 0; SInt 1]]};
          annotations := ∅ |};
     rcg_units := [sample_unit];
     rcg_analogsignals := [sig_A];
     rcg_irregularlysampledsignals := [] |}.

Definition sample_store_rcg : Store :=
  Eval vm_compute in
    store_after (A := unit)
      (write_recordingchannelgroup (env := sample_env) sample_rcg true)
      sample_store0.

(** The stores after the signal A is unlinked from the tag [s1], and from
    the source [r1]. *)
Definition sample_store_unref : Store :=
  Eval vm_compute in
    store_after (A := unit)
      (update_references DataArrays "s1" {["209530"]} ∅) sample_store1.

Definition sample_store_unlinked : Store :=
  Eval vm_compute in
    store_after (A := unit)
      (update_sources DataArrays ["r1"] {["209530"]} ∅) sample_store_rcg.

(** The file that holds the block of [sample_store1], and the lazy list of
    the segments of that block as [read_block] builds it. *)
Definition sample_file1 : NixFile :=
  {| f_blocks := {["foo" := nix_block sample_store1]};
     f_sections := sections sample_store1 |}.

Definition sample_segments : ProxyList (Segment ProxyList) :=
  match read_block (env := sample_env) sample_file1 "foo" with
  | Ok b => b_segments b
  | Raise _ => ProxyList_init (λ _, Ok [])
  end.

(** The file that holds the block after the signal A was written. *)
Definition sample_file_A : NixFile :=
  {| f_blocks := {["foo" := nix_block sample_store_A]};
     f_sections := sections sample_store_A |}.
(** ** File handling: [NixIO], [FileHandler] and [ProxyList] *)

Section FileHandling.

Lemma FileHandler_open_handle (st : IOState) :
  ∃ h, handle (io_fh (FileHandler_open st)) = Some h ∧ h_is_open h = true.
Proof.
  unfold FileHandler_open, nix_File_open.
  destruct (open_filemode (io_fh st) (io_disk st)); simpl; eauto.
Qed.

Lemma FileHandler_open_is_open (st : IOState) :
  handle_is_open (io_fh (FileHandler_open st)) = true.
Proof.
  destruct (FileHandler_open_handle st) as (h & Hh & Ho).
  unfold handle_is_open. by rewrite Hh.
Qed.

Lemma FileHandler_close_closed (st st' : IOState) :
  FileHandler_close st = Ok st' → handle_is_open (io_fh st') = false.
Proof.
  unfold FileHandler_close. destruct (handle (io_fh st)) as [h|]; [|done].
  intros [= <-]. done.
Qed.

Lemma handle_is_open_Some (fh : FileHandler) :
  handle_is_open fh = true → ∃ h, handle fh = Some h ∧ h_is_open h = true.
Proof.
  unfold handle_is_open. destruct (handle fh) as [h|]; [eauto|done].
Qed.

(** C9: a [NixIO] built with any [readonly] argument keeps it on the
    instance only: its file handler has [readonly = False], and opening a
    file that exists uses the read-write mode. *)
Theorem NixIO_readonly_not_passed (fname : string) (ro : bool) (d : Disk)
    (Hexists : is_Some (d !! fname)) :
  let io := NixIO_init fname ro in
  nio_readonly io = ro ∧
  readonly (nio_f io) = false ∧
  open_filemode (nio_f io) d = ReadWrite ∧
  h_mode <$> handle (io_fh (FileHandler_open {| io_fh := nio_f io; io_disk := d |}))
    = Some ReadWrite.
Proof.
  intros io. split; [done|]. split; [done|].
  assert (Hm : open_filemode (nio_f io) d = ReadWrite).
  { unfold open_filemode, path_exists. simpl.
    by rewrite bool_decide_eq_true_2. }
  split; [done|].
  unfold FileHandler_open. cbn [io_fh io_disk]. rewrite Hm. done.
Qed.

(** C8: the first access to a proxy list (empty cache).  When the handle
    is not open the handler is opened, and the fetch function runs on an
    open handle.  When the fetch function returns, the handler is closed
    again if the access opened it and is left as it is if the handle was
    open: the handle is as open or closed afterwards as it was before.  When
    the fetch function raises, the exception leaves the access before the
    close and before the cache is set: the cache is still empty, and a
    handle that the access opened stays open. *)
Theorem ProxyList_first_access {A} (p : ProxyList A) (st : IOState) :
  _cache p = None →
  let st1 := if handle_is_open (io_fh st) then st else FileHandler_open st in
  ∃ h,
    handle (io_fh st1) = Some h ∧ h_is_open h = true ∧
    match _fetch_func p h with
    | Ok c =>
        ∃ st',
          ProxyList_data p st
          = (Ok c, {| _fetch_func := _fetch_func p; _cache := Some c |}, st') ∧
          handle_is_open (io_fh st') = handle_is_open (io_fh st) ∧
          (if handle_is_open (io_fh st) then st' = st
           else FileHandler_close (FileHandler_open st) = Ok st')
    | Raise e =>
        ProxyList_data p st = (Raise e, p, st1) ∧
        handle_is_open (io_fh st1) = true
    end.
Proof.
  intros Hcache st1.
  assert (Hopen1 : ∃ h, handle (io_fh st1) = Some h ∧ h_is_open h = true).
  { subst st1. destruct (handle_is_open (io_fh st)) eqn:Ho.
    - by apply handle_is_open_Some.
    - apply FileHandler_open_handle. }
  destruct Hopen1 as (h & Hh & Hho).
  exists h. split; [done|]. split; [done|].
  unfold ProxyList_data. rewrite Hcache.
  subst st1. destruct (handle_is_open (io_fh st)) eqn:Ho; cbn [negb] in *;
    rewrite Hh; destruct (_fetch_func p h) as [c|e].
  - eauto.
  - done.
  - unfold FileHandler_close. rewrite Hh.
    eexists. split; [reflexivity|]. split; reflexivity.
  - split; [done|]. apply FileHandler_open_is_open.
Qed.

End FileHandling.
(** ** The attribute codec *)

Section AttributeCodec.

Lemma simple_attrs_default :
  simple_attrs !! "default" = Some ["description"; "file_origin"].
Proof. reflexivity. Qed.

Lemma with_props_id (sec : NixSection) : with_props sec (sec_props sec) = sec.
Proof. by destruct sec. Qed.

Lemma make_nix_values_ok (v : PyValue) :
  v ≠ PNone → ∃ values, make_nix_values v = Ok values.
Proof. destruct v; simpl; eauto. done. Qed.

Lemma make_nix_values_not_None (v : PyValue) (values : list Scalar) :
  make_nix_values v = Ok values → v ≠ PNone.
Proof. by destruct v. Qed.

(** One item of [to_store]: the property holds [values] afterwards, and the
    journal grows by [property_mutation]. *)
Lemma write_property_spec (sp : path) (k : string) (v : PyValue) (s : Store)
    (sec : NixSection) (values : list Scalar) :
  sections s !! sp = Some sec →
  make_nix_values v = Ok values →
  write_property sp (k, v) s
  = Ok (tt, {| nix_block := nix_block s;
               sections := <[sp := with_props sec (<[k := values]> (sec_props sec))]>
                             (sections s);
               journal := (journal s ++ property_mutation sp k values (sec_props sec))%list |}).
Proof.
  intros Hsec Hval.
  unfold write_property, get_section, bind, lift, gets. rewrite Hval, Hsec.
  unfold ret at 1.
  unfold property_mutation.
  destruct (sec_props sec !! k) as [pv|] eqn:Hk.
  - case_bool_decide as Heq.
    + subst pv. unfold ret. destruct s as [b secs j]. simpl in *.
      rewrite app_nil_r. rewrite (insert_id (sec_props sec)) by done.
      rewrite with_props_id. by rewrite insert_id.
    + unfold assign_values, bind, set_sections, log, modify. simpl.
      do 3 f_equal.
      apply map_eq. intros i. rewrite lookup_alter.
      destruct (decide (sp = i)) as [<-|Hne].
      * rewrite lookup_insert_eq, Hsec. by destruct (decide (sp = sp)).
      * rewrite lookup_insert_ne by done. by destruct (decide (sp = i)).
  - unfold create_property, bind, set_sections, log, modify. simpl.
    do 3 f_equal.
    apply map_eq. intros i. rewrite lookup_alter.
    destruct (decide (sp = i)) as [<-|Hne].
    * rewrite lookup_insert_eq, Hsec. by destruct (decide (sp = sp)).
    * rewrite lookup_insert_ne by done. by destruct (decide (sp = i)).
Qed.

Lemma for_each_write_property (sp : path) (items : list (string * PyValue)) :
  Forall (λ kv, kv.2 ≠ PNone) items →
  ∀ (s : Store) (sec : NixSection),
    sections s !! sp = Some sec →
    for_each items (write_property sp) s
    = Ok (tt, {| nix_block := nix_block s;
                 sections := <[sp := with_props sec (props_after items (sec_props sec))]>
                               (sections s);
                 journal := (journal s ++ mutations_of sp items (sec_props sec))%list |}).
Proof.
  induction 1 as [|[k v] items Hv _ IH]; intros s sec Hsec.
  - simpl. unfold ret. destruct s as [b secs j]. simpl in *.
    by rewrite app_nil_r, with_props_id, insert_id.
  - simpl in Hv. destruct (make_nix_values_ok v Hv) as [values Hval].
    cbn [for_each props_after mutations_of]. rewrite Hval.
    unfold bind at 1. rewrite (write_property_spec sp k v s sec values) by done.
    erewrite IH; [|cbn [sections]; apply lookup_insert_eq].
    cbn [nix_block sections journal sec_props with_props].
    rewrite insert_insert_eq. by rewrite <- app_assoc.
Qed.

Lemma props_after_notin (items : list (string * PyValue)) (k : string) :
  k ∉ items.*1 →
  ∀ props, props_after items props !! k = props !! k.
Proof.
  induction items as [|[k' v'] items IH]; intros Hk props; [done|].
  rewrite fmap_cons, not_elem_of_cons in Hk. destruct Hk as [Hne Hk].
  simpl. destruct (make_nix_values v'); [|done].
  rewrite IH by done. by rewrite lookup_insert_ne.
Qed.

Lemma props_after_in (items : list (string * PyValue)) (k : string) (v : PyValue)
    (values : list Scalar) :
  Forall (λ kv, kv.2 ≠ PNone) items →
  NoDup items.*1 →
  (k, v) ∈ items →
  make_nix_values v = Ok values →
  ∀ props, props_after items props !! k = Some values.
Proof.
  induction 1 as [|[k' v'] items Hv' Hall IH]; intros Hnd Hin Hval props.
  - by apply elem_of_nil in Hin.
  - rewrite fmap_cons in Hnd. apply NoDup_cons in Hnd as [Hk' Hnd].
    simpl in Hv'. destruct (make_nix_values_ok v' Hv') as [values' Hval'].
    simpl. rewrite Hval'.
    apply elem_of_cons in Hin as [[= -> ->]|Hin].
    + rewrite props_after_notin by done. rewrite lookup_insert_eq. congruence.
    + by apply IH.
Qed.

Lemma mutations_of_elem (sp : path) (items : list (string * PyValue)) (m : Mutation) :
  NoDup items.*1 →
  ∀ props,
    m ∈ mutations_of sp items props →
    ∃ k v values,
      (k, v) ∈ items ∧ make_nix_values v = Ok values ∧
      props !! k ≠ Some values ∧
      (m = CreateProperty sp k values ∨ m = AssignValues sp k values).
Proof.
  induction items as [|[k' v'] items IH]; intros Hnd props Hm.
  - by apply elem_of_nil in Hm.
  - rewrite fmap_cons in Hnd. apply NoDup_cons in Hnd as [Hk' Hnd].
    simpl in Hm. destruct (make_nix_values v') as [values'|] eqn:Hval';
      [|by apply elem_of_nil in Hm].
    apply elem_of_app in Hm as [Hm|Hm].
    + exists k', v', values'. split; [left|]. split; [done|].
      unfold property_mutation in Hm.
      destruct (props !! k') as [pv|] eqn:Hp.
      * case_bool_decide; [by apply elem_of_nil in Hm|].
        apply list_elem_of_singleton in Hm. split; [congruence|by right].
      * apply list_elem_of_singleton in Hm. split; [done|by left].
    + destruct (IH Hnd _ Hm) as (k & v & values & Hin & Hval & Hne & Hmk).
      exists k, v, values. split; [by right|]. split; [done|].
      split; [|done].
      rewrite lookup_insert_ne in Hne; [done|].
      intros ->. apply Hk'. apply list_elem_of_fmap. by exists (k, v).
Qed.

Lemma to_store_lookup (d : gmap string PyValue) (k : string) (v : PyValue) :
  to_store d !! k = Some v ↔ d !! k = Some v ∧ v ≠ PNone.
Proof. unfold to_store. by rewrite map_lookup_filter_Some. Qed.

Lemma to_store_lookup_None (d : gmap string PyValue) (k : string) :
  to_store d !! k = None ↔ d !! k = None ∨ d !! k = Some PNone.
Proof.
  unfold to_store. rewrite map_lookup_filter_None. split.
  - intros [H|H]; [by left|].
    destruct (d !! k) as [v|] eqn:Hv; [|by left]. right.
    destruct (decide (v = PNone)) as [->|Hne]; [done|].
    by destruct (H v eq_refl).
  - intros [H|H]; [by left|]. right. intros v Hv. simpl. intros Hne. congruence.
Qed.

Lemma to_store_items_not_None (d : gmap string PyValue) :
  Forall (λ kv, kv.2 ≠ PNone) (map_to_list (to_store d)).
Proof.
  apply Forall_forall. intros [k v] Hin.
  apply elem_of_map_to_list in Hin. by apply to_store_lookup in Hin as [_ ?].
Qed.

Lemma write_metadata_spec (sp : path) (d : gmap string PyValue) (s : Store)
    (sec : NixSection) :
  sections s !! sp = Some sec →
  write_metadata sp d s
  = Ok (tt, {| nix_block := nix_block s;
               sections := <[sp := with_props sec (stored_props d (sec_props sec))]>
                             (sections s);
               journal := (journal s ++ stored_mutations sp d (sec_props sec))%list |}).
Proof.
  intros Hsec. unfold write_metadata.
  by apply for_each_write_property; [apply to_store_items_not_None|].
Qed.

Lemma stored_props_lookup_Some (d : gmap string PyValue) (props : gmap string (list Scalar))
    (k : string) (v : PyValue) (values : list Scalar) :
  d !! k = Some v → make_nix_values v = Ok values →
  stored_props d props !! k = Some values.
Proof.
  intros Hd Hval. unfold stored_props.
  eapply props_after_in; [apply to_store_items_not_None|apply NoDup_fst_map_to_list| |done].
  apply elem_of_map_to_list, to_store_lookup. split; [done|].
  by eapply make_nix_values_not_None.
Qed.

Lemma stored_props_lookup_None (d : gmap string PyValue) (props : gmap string (list Scalar))
    (k : string) :
  d !! k = None ∨ d !! k = Some PNone →
  stored_props d props !! k = props !! k.
Proof.
  intros Hd. unfold stored_props. apply props_after_notin.
  intros Hin. apply list_elem_of_fmap in Hin as ([k' v] & -> & Hin).
  apply elem_of_map_to_list in Hin. simpl in Hd.
  apply to_store_lookup_None in Hd. congruence.
Qed.

Lemma stored_mutations_elem (sp : path) (d : gmap string PyValue)
    (props : gmap string (list Scalar)) (m : Mutation) :
  m ∈ stored_mutations sp d props →
  ∃ k v values,
    d !! k = Some v ∧ make_nix_values v = Ok values ∧
    props !! k ≠ Some values ∧
    (m = CreateProperty sp k values ∨ m = AssignValues sp k values).
Proof.
  intros Hm. apply mutations_of_elem in Hm; [|apply NoDup_fst_map_to_list].
  destruct Hm as (k & v & values & Hin & Hval & Hne & Hm).
  exists k, v, values. split; [|done].
  apply elem_of_map_to_list in Hin. by apply to_store_lookup in Hin as [? _].
Qed.

(** C6: when the property of an attribute already holds the values the
    attribute encodes to, [write_metadata] leaves the property as it is and
    journals no mutation of it, whatever else the dictionary holds. *)
Theorem write_metadata_same_value_no_mutation (sp : path)
    (d : gmap string PyValue) (s : Store) (sec : NixSection)
    (k : string) (v : PyValue) (values : list Scalar) :
  sections s !! sp = Some sec →
  d !! k = Some v →
  make_nix_values v = Ok values →
  sec_props sec !! k = Some values →
  ∃ s' sec' new,
    write_metadata sp d s = Ok (tt, s') ∧
    sections s' !! sp = Some sec' ∧
    sec_props sec' !! k = Some values ∧
    journal s' = (journal s ++ new)%list ∧
    ∀ m, m ∈ new → ¬ mutates sp k m.
Proof.
  intros Hsec Hd Hval Hprop.
  eexists _, _, _. split; [by apply write_metadata_spec|].
  cbn [sections journal]. split; [apply lookup_insert_eq|].
  cbn [sec_props with_props]. split; [by eapply stored_props_lookup_Some|].
  split; [done|].
  intros m Hm Hmut.
  apply stored_mutations_elem in Hm as (k' & v' & values' & Hd' & Hval' & Hne & Hm).
  destruct Hm as [-> | ->]; simpl in Hmut; destruct Hmut as [_ ->];
    congruence.
Qed.

(** When every attribute is already stored, the write changes nothing at
    all: the store afterwards is the store before. *)
Lemma write_metadata_noop (sp : path) (d : gmap string PyValue) (s : Store)
    (sec : NixSection) :
  sections s !! sp = Some sec →
  (∀ k v values, d !! k = Some v → make_nix_values v = Ok values →
                 sec_props sec !! k = Some values) →
  write_metadata sp d s = Ok (tt, s).
Proof.
  intros Hsec Hall. rewrite (write_metadata_spec sp d s sec Hsec).
  assert (Hp : stored_props d (sec_props sec) = sec_props sec).
  { apply map_eq. intros k.
    destruct (to_store d !! k) as [v|] eqn:Hk.
    - apply to_store_lookup in Hk as [Hk Hv].
      destruct (make_nix_values_ok v Hv) as [values Hval].
      rewrite (stored_props_lookup_Some d _ k v values) by done.
      symmetry. by eapply Hall.
    - apply to_store_lookup_None in Hk. by apply stored_props_lookup_None. }
  assert (Hm : stored_mutations sp d (sec_props sec) = []).
  { destruct (stored_mutations sp d (sec_props sec)) as [|m l] eqn:Hl; [done|].
    assert (Hin : m ∈ stored_mutations sp d (sec_props sec)) by (rewrite Hl; left).
    apply stored_mutations_elem in Hin as (k & v & values & Hd & Hval & Hne & _).
    by destruct Hne; eapply Hall. }
  rewrite Hp, Hm, app_nil_r, with_props_id, insert_id by done.
  by destruct s.
Qed.

(** Writing the same dictionary a second time changes nothing. *)
Lemma write_metadata_twice (sp : path) (d : gmap string PyValue) (s s' : Store) :
  write_metadata sp d s = Ok (tt, s') →
  write_metadata sp d s' = Ok (tt, s').
Proof.
  intros Hw.
  destruct (sections s !! sp) as [sec|] eqn:Hsec.
  - rewrite (write_metadata_spec sp d s sec Hsec) in Hw. injection Hw as <-.
    eapply write_metadata_noop; [cbn [sections]; apply lookup_insert_eq|].
    intros k v values Hd Hval. cbn [sec_props with_props].
    by eapply stored_props_lookup_Some.
  - unfold write_metadata in *.
    destruct (map_to_list (to_store d)) as [|[k v] items] eqn:Hitems.
    + simpl in *. unfold ret in *. congruence.
    + exfalso. simpl in Hw. unfold bind at 1 in Hw.
      unfold write_property, get_section in Hw. unfold bind, lift, gets in Hw.
      destruct (make_nix_values v); [|done]. by rewrite Hsec in Hw.
Qed.

End AttributeCodec.

Section QuantityCodec.
Context {env : Env}.

(** C7 (as amended): when the companion unit of a quantity is absent from
    the section, [read_quantity] raises the [KeyError] of the failed lookup,
    for the unit if the magnitude is there and for the magnitude otherwise. *)
Theorem read_quantity_missing_unit (sec : NixSection) (qname : string) :
  sec_props sec !! (qname +:+ "__unit") = None →
  read_quantity sec qname
  = Raise (KeyError (if section_contains sec qname then qname +:+ "__unit" else qname)).
Proof.
  intros Hunit. unfold read_quantity, section_contains.
  unfold section_getitem at 1.
  destruct (sec_props sec !! qname) as [vs|] eqn:Hq.
  - rewrite bool_decide_eq_true_2 by eauto.
    unfold section_getitem. rewrite Hunit. by destruct vs as [|? [|]].
  - rewrite bool_decide_eq_false_2; [done|]. by intros [? ?].
Qed.

End QuantityCodec.
(** ** Reasoning about the state monad *)

Section Monad.

Lemma bind_Ok {A B} (m : M A) (k : A → M B) (s : Store) (b : B) (s' : Store) :
  bind m k s = Ok (b, s') ↔ ∃ a s1, m s = Ok (a, s1) ∧ k a s1 = Ok (b, s').
Proof.
  unfold bind. split.
  - destruct (m s) as [[a s1]|e]; [eauto|done].
  - intros (a & s1 & -> & Hk). done.
Qed.

Lemma ret_Ok {A} (a a' : A) (s s' : Store) :
  ret a s = Ok (a', s') ↔ a' = a ∧ s' = s.
Proof. unfold ret. split; [by intros [= <- <-]|by intros [-> ->]]. Qed.

Lemma lift_Ok {A} (r : result A) (a : A) (s s' : Store) :
  lift r s = Ok (a, s') ↔ r = Ok a ∧ s' = s.
Proof.
  unfold lift. destruct r; split; try done.
  - by intros [= <- <-].
  - by intros [[= ->] ->].
  - by intros [? _].
Qed.

Lemma gets_Ok {A} (f : Store → A) (a : A) (s s' : Store) :
  gets f s = Ok (a, s') ↔ a = f s ∧ s' = s.
Proof. unfold gets. split; [by intros [= <- <-]|by intros [-> ->]]. Qed.

Lemma modify_Ok (f : Store → Store) (u : unit) (s s' : Store) :
  modify f s = Ok (u, s') ↔ s' = f s.
Proof. unfold modify. destruct u. split; [by intros [= <-]|by intros ->]. Qed.

Lemma for_each_cons_Ok {A} (x : A) (xs : list A) (body : A → M unit)
    (s s' : Store) (u : unit) :
  for_each (x :: xs) body s = Ok (u, s') ↔
  ∃ s1, body x s = Ok (tt, s1) ∧ for_each xs body s1 = Ok (u, s').
Proof.
  cbn [for_each]. rewrite bind_Ok. split.
  - intros ([] & s1 & ? & ?). eauto.
  - intros (s1 & ? & ?). eauto.
Qed.

Context (R : relation Store) `{!PreOrder R}.

Lemma preserves_ret {A} (a : A) : preserves R (ret a).
Proof. intros s a' s' [_ ->]%ret_Ok. reflexivity. Qed.

Lemma preserves_raise {A} (e : exn) : preserves R (@raise A e).
Proof. by intros s a s'. Qed.

Lemma preserves_lift {A} (r : result A) : preserves R (lift r).
Proof. intros s a s' [_ ->]%lift_Ok. reflexivity. Qed.

Lemma preserves_gets {A} (f : Store → A) : preserves R (gets f).
Proof. intros s a s' [_ ->]%gets_Ok. reflexivity. Qed.

Lemma preserves_bind {A B} (m : M A) (k : A → M B) :
  preserves R m → (∀ a, preserves R (k a)) → preserves R (bind m k).
Proof.
  intros Hm Hk s b s' (a & s1 & H1 & H2)%bind_Ok.
  transitivity s1; [by eapply Hm|by eapply Hk].
Qed.

Lemma preserves_for_each {A} (xs : list A) (body : A → M unit) :
  (∀ x, x ∈ xs → preserves R (body x)) → preserves R (for_each xs body).
Proof.
  induction xs as [|x xs IH]; intros Hbody.
  - apply preserves_ret.
  - cbn [for_each]. apply preserves_bind.
    + apply Hbody. left.
    + intros _. apply IH. intros y Hy. apply Hbody. by right.
Qed.

End Monad.

Global Instance on_block_preorder (Rb : relation NixBlock) `{!PreOrder Rb} :
  PreOrder (on_block Rb).
Proof.
  split.
  - intros s. unfold on_block. reflexivity.
  - intros s1 s2 s3. unfold on_block. intros H1 H2. by etransitivity.
Qed.

Global Instance same_sweeps_preorder : PreOrder same_sweeps.
Proof.
  split.
  - by intros s.
  - intros s1 s2 s3. unfold same_sweeps. congruence.
Qed.

(** The three primitive mutations. *)
Lemma on_block_set_block (Rb : relation NixBlock) (g : NixBlock → NixBlock) :
  (∀ b, Rb b (g b)) → preserves (on_block Rb) (set_block g).
Proof. intros Hg s [] s' ->%modify_Ok. apply Hg. Qed.

Lemma on_block_set_sections (Rb : relation NixBlock) `{!Reflexive Rb}
    (g : gmap path NixSection → gmap path NixSection) :
  preserves (on_block Rb) (set_sections g).
Proof. intros s [] s' ->%modify_Ok. unfold on_block. simpl. reflexivity. Qed.

Lemma on_block_log (Rb : relation NixBlock) `{!Reflexive Rb} (m : Mutation) :
  preserves (on_block Rb) (log m).
Proof. intros s [] s' ->%modify_Ok. unfold on_block. simpl. reflexivity. Qed.

Lemma same_sweeps_set_block (g : NixBlock → NixBlock) :
  preserves same_sweeps (set_block g).
Proof. by intros s [] s' ->%modify_Ok. Qed.

Lemma same_sweeps_set_sections (g : gmap path NixSection → gmap path NixSection) :
  preserves same_sweeps (set_sections g).
Proof. by intros s [] s' ->%modify_Ok. Qed.

Lemma same_sweeps_log (m : Mutation) :
  m ≠ Sweep → preserves same_sweeps (log m).
Proof.
  intros Hm s [] s' ->%modify_Ok. unfold same_sweeps, count_sweeps. simpl.
  rewrite filter_app, length_app. cbn. rewrite decide_False by done. simpl. lia.
Qed.

(** A tactic that walks through a computation and leaves the primitive
    mutations to the hints of the database [preserves]. *)
Create HintDb preserves.
#[export] Hint Resolve on_block_set_sections on_block_log
  same_sweeps_set_block same_sweeps_set_sections : preserves.
#[export] Hint Extern 1 (preserves same_sweeps (log _)) =>
  apply same_sweeps_log; discriminate : preserves.

Ltac preserves_step :=
  lazymatch goal with
  | |- preserves _ (ret _) => apply preserves_ret; tc_solve
  | |- preserves _ (raise _) => apply preserves_raise
  | |- preserves _ (lift _) => apply preserves_lift; tc_solve
  | |- preserves _ (gets _) => apply preserves_gets; tc_solve
  | |- preserves _ (bind _ _) => apply preserves_bind; [tc_solve| |intros ?]
  | |- preserves _ (for_each _ _) => apply preserves_for_each; [tc_solve|intros ? _]
  | |- preserves _ (match ?x with _ => _ end) => destruct x
  | |- preserves _ _ => solve [eauto with preserves]
  end.

Ltac unfold_ops :=
  unfold write_metadata, write_property, assign_values, create_property, get_section,
    get_data_array, alter_data_array, get_tag, alter_tag, get_source, alter_source,
    create_data_array, data_array_append, create_tag, create_source,
    create_sub_source, set_first_dimension_unit, set_first_dimension_labels,
    append_dimension, create_section, section_or_create, get_or_create_section,
    container_has, container_delete, update_references, update_sources,
    object_section, array_or_create, dimension_if_none.


Section Sweeps.
Context {env : Env}.







End Sweeps.
(** ** The orphan sweep: how often it runs *)

Section SweepCount.
Context {env : Env}.















End SweepCount.
(** ** The reconciler *)

Global Instance same_preorder {B} (f : NixBlock → B) : PreOrder (same f).
Proof.
  split.
  - by intros b.
  - intros b1 b2 b3. unfold same. congruence.
Qed.

Lemma getitem_Ok {V} (m : gmap string V) (n : string) (x : V) :
  getitem m n = Ok x ↔ m !! n = Some x.
Proof. unfold getitem. destruct (m !! n); naive_solver. Qed.

Ltac inv_step :=
  match goal with
  | H : bind _ _ _ = Ok _ |- _ =>
      let H1 := fresh "Hm" in
      let H2 := fresh "Hk" in
      destruct (proj1 (bind_Ok _ _ _ _ _) H) as (? & ? & H1 & H2); clear H
  | H : ret _ _ = Ok _ |- _ =>
      destruct (proj1 (ret_Ok _ _ _ _) H) as [? ?]; clear H; simplify_eq
  | H : lift _ _ = Ok _ |- _ =>
      let E := fresh "Hlift" in
      destruct (proj1 (lift_Ok _ _ _ _) H) as [E ?]; clear H;
      cbn [entities] in E; simplify_eq
  | H : gets _ _ = Ok _ |- _ =>
      destruct (proj1 (gets_Ok _ _ _ _) H) as [? ?]; clear H; simplify_eq
  | H : modify _ _ = Ok _ |- _ =>
      let H' := fresh in
      pose proof (proj1 (modify_Ok _ _ _ _) H) as H'; clear H; simplify_eq
  | H : raise _ _ = Ok _ |- _ => discriminate H
  | H : Raise _ = Ok _ |- _ => discriminate H
  | H : Ok _ = Ok _ |- _ => injection H as H; try subst
  | H : getitem _ _ = Ok _ |- _ =>
      let E := fresh "Hget" in
      pose proof (proj1 (getitem_Ok _ _ _) H) as E; clear H
  | H : (if bool_decide ?P then _ else _) _ = Ok _ |- _ =>
      let E := fresh "Hdec" in
      destruct (decide P) as [E|E];
      [rewrite (bool_decide_eq_true_2 P E) in H
      |rewrite (bool_decide_eq_false_2 P E) in H]
  | H : (match ?x with _ => _ end) _ = Ok _ |- _ =>
      let E := fresh "Hcase" in destruct x eqn:E
  | H : ?m _ = Ok _ |- _ =>
      lazymatch m with for_each _ _ => fail | _ => idtac end;
      progress unfold set_block, set_sections, log, get_section,
        get_data_array, alter_data_array, get_tag, alter_tag, get_source,
        alter_source, create_data_array, data_array_append, create_tag,
        create_source, create_sub_source, set_first_dimension_unit,
        set_first_dimension_labels, append_dimension, create_section,
        section_or_create, container_has, object_section, array_or_create,
        dimension_if_none in H
  end.

Ltac inv_monad := repeat inv_step.

Section Loops.

Lemma units_of_alter (rcg r : string) (f : NixSource → NixSource) (b : NixBlock) :
  (∀ s, dom (src_sources (f s)) = dom (src_sources s)) →
  units_of rcg (with_sources b (alter f r (blk_sources b))) = units_of rcg b.
Proof.
  intros Hf. unfold units_of. simpl. rewrite lookup_alter.
  case_decide; [subst|done].
  destruct (blk_sources b !! rcg); simpl; [by rewrite Hf|done].
Qed.

(** [del nix_objs[name]] takes the name, and only the name, out of the
    container. *)
Lemma container_delete_names (c : Container) (n : string) (s s' : Store) :
  container_delete c n s = Ok (tt, s') →
  container_names c (nix_block s') = container_names c (nix_block s) ∖ {[n]}.
Proof.
  unfold container_delete. intros H. inv_monad; simpl in *;
    try apply dom_delete_L.
  unfold units_of. simpl. rewrite lookup_alter, decide_True by done.
  destruct (blk_sources (nix_block s) !! rcg); simpl.
  - apply dom_delete_L.
  - set_solver.
Qed.

Lemma for_each_delete_names (c : Container) (l : list string) (s s' : Store) :
  for_each l (container_delete c) s = Ok (tt, s') →
  container_names c (nix_block s') = container_names c (nix_block s) ∖ list_to_set l.
Proof.
  revert s. induction l as [|n l IH]; intros s H.
  - simpl in H. inv_monad. set_solver.
  - apply for_each_cons_Ok in H as (s1 & H1 & H).
    rewrite (IH _ H), (container_delete_names _ _ _ _ H1). set_solver.
Qed.

(** The write loop of [write_many], for a write function that adds the node
    of its object to the container and no other name. *)
Lemma for_each_write_names {A} `{Env} `{NeoObject A} (c : Container)
    (write_func : A → M unit) (neo_objs : list A) (desired : list string) :
  (∀ x n s s1, get_obj_nix_name x = Ok n → write_func x s = Ok (tt, s1) →
     container_names c (nix_block s1) = container_names c (nix_block s) ∪ {[n]}) →
  conv_all neo_objs = Ok desired →
  ∀ s s', for_each neo_objs write_func s = Ok (tt, s') →
    container_names c (nix_block s')
    = container_names c (nix_block s) ∪ list_to_set desired.
Proof.
  intros Hw. revert desired.
  induction neo_objs as [|x xs IH]; intros desired Hconv s s' Hf.
  - simpl in *. inv_monad. simplify_eq. set_solver.
  - simpl in Hconv. destruct (get_obj_nix_name x) as [n|] eqn:Hn; [|done].
    destruct (conv_all xs) as [ns|] eqn:Hns; [|done]. simplify_eq.
    apply for_each_cons_Ok in Hf as (s1 & H1 & Hf).
    rewrite (IH ns eq_refl _ _ Hf), (Hw _ _ _ _ Hn H1). set_solver.
Qed.

Lemma references_of_alter (t : string) (f : NixTag → NixTag) (b : NixBlock)
    (tag : NixTag) :
  blk_tags b !! t = Some tag →
  references_of t (with_tags b (alter f t (blk_tags b))) = tag_references (f tag).
Proof.
  intros Ht. unfold references_of. simpl.
  rewrite lookup_alter, decide_True by done. by rewrite Ht.
Qed.

Lemma update_references_remove (t : string) (l : list string) (s s' : Store) :
  for_each l (λ name,
    tg <- get_tag t ;;
    if bool_decide (name ∈ tag_references tg) then
      alter_tag t (λ tg, set_tag_references (tag_references tg ∖ {[name]}) tg)
    else raise (KeyError name)) s = Ok (tt, s') →
  references_of t (nix_block s') = references_of t (nix_block s) ∖ list_to_set l.
Proof.
  revert s. induction l as [|n l IH]; intros s H.
  - simpl in H. inv_monad. set_solver.
  - apply for_each_cons_Ok in H as (s1 & H1 & H).
    rewrite (IH _ H). clear IH H.
    inv_monad. simpl.
    erewrite references_of_alter by done. simpl.
    unfold references_of. rewrite Hget. simpl. set_solver.
Qed.

Lemma update_references_append (t : string) (l : list string) (s s' : Store) :
  is_Some (blk_tags (nix_block s) !! t) →
  for_each l (λ name,
    run container_has DataArrays name ;;
    alter_tag t (λ tg, set_tag_references (tag_references tg ∪ {[name]}) tg))
    s = Ok (tt, s') →
  references_of t (nix_block s') = references_of t (nix_block s) ∪ list_to_set l.
Proof.
  revert s. induction l as [|n l IH]; intros s [tag Htag] H.
  - simpl in H. inv_monad. set_solver.
  - apply for_each_cons_Ok in H as (s1 & H1 & H).
    inv_monad. apply IH in H.
    + rewrite H. cbn [nix_block]. erewrite references_of_alter by done. simpl.
      unfold references_of. rewrite Htag. simpl. set_solver.
    + cbn [nix_block with_tags blk_tags].
      rewrite lookup_alter, decide_True by done. rewrite Htag. by eexists.
Qed.

Lemma update_references_spec (t : string) (to_remove to_append : gset string)
    (s s' : Store) :
  is_Some (blk_tags (nix_block s) !! t) →
  update_references DataArrays t to_remove to_append s = Ok (tt, s') →
  references_of t (nix_block s')
  = (references_of t (nix_block s) ∖ to_remove) ∪ to_append.
Proof.
  intros Htag H. unfold update_references in H.
  apply bind_Ok in H as ([] & s1 & H1 & H2).
  assert (Htag1 : is_Some (blk_tags (nix_block s1) !! t)).
  { clear H2. revert s Htag H1.
    induction (elements to_remove) as [|n l IH]; intros s Htag H1.
    - simpl in H1. by inv_monad.
    - apply for_each_cons_Ok in H1 as (s2 & H1 & H1').
      apply (IH s2); [|done]. clear IH H1'.
      inv_monad. simpl.
      rewrite lookup_alter, decide_True by done. rewrite Hget. by eexists. }
  rewrite (update_references_append _ _ _ _ Htag1 H2).
  rewrite (update_references_remove _ _ _ _ H1).
  by rewrite !list_to_set_elements_L.
Qed.

Lemma linked_arrays_alter_ne (p : path) (n : string)
    (f : NixDataArray → NixDataArray) (b : NixBlock) :
  (∀ da, p ∈ da_sources (f da) ↔ p ∈ da_sources da) →
  linked_arrays p (with_data_arrays b (alter f n (blk_data_arrays b)))
  = linked_arrays p b.
Proof.
  intros Hf. unfold linked_arrays. simpl. apply set_eq. intros k.
  rewrite !elem_of_dom. unfold is_Some.
  setoid_rewrite map_lookup_filter_Some. simpl.
  rewrite lookup_alter. case_decide; [subst|done].
  destruct (blk_data_arrays b !! k) as [da|]; simpl; [|naive_solver].
  split; intros (x & Hx & Hp); simplify_eq; eexists; (split; [done|]);
    by apply Hf.
Qed.

Lemma linked_arrays_unlink (p : path) (n : string) (b : NixBlock) :
  linked_arrays p (with_data_arrays b
    (alter (λ da, set_da_sources
              (filter (λ q, path_name q ≠ path_name p) (da_sources da)) da)
       n (blk_data_arrays b)))
  = linked_arrays p b ∖ {[n]}.
Proof.
  unfold linked_arrays. simpl. apply set_eq. intros k.
  rewrite elem_of_difference, !elem_of_dom. unfold is_Some.
  setoid_rewrite map_lookup_filter_Some. simpl.
  rewrite lookup_alter, elem_of_singleton. case_decide; [subst|naive_solver].
  destruct (blk_data_arrays b !! k) as [da|]; simpl; [|naive_solver].
  split.
  - intros (x & Hx & Hp). simplify_eq. simpl in Hp.
    apply elem_of_filter in Hp as [Hp _]. done.
  - intros [_ []]. done.
Qed.

Lemma linked_arrays_link (p : path) (n : string) (b : NixBlock) :
  is_Some (blk_data_arrays b !! n) →
  linked_arrays p (with_data_arrays b
    (alter (λ da, set_da_sources (da_sources da ∪ {[p]}) da) n (blk_data_arrays b)))
  = linked_arrays p b ∪ {[n]}.
Proof.
  intros [da0 Hda0]. unfold linked_arrays. simpl. apply set_eq. intros k.
  rewrite elem_of_union, !elem_of_dom. unfold is_Some.
  setoid_rewrite map_lookup_filter_Some. simpl.
  rewrite lookup_alter, elem_of_singleton. case_decide; [subst|naive_solver].
  rewrite Hda0. simpl. split.
  - intros _. by right.
  - intros _. eexists. split; [done|]. simpl. set_solver.
Qed.

Lemma update_sources_remove (p : path) (l : list string) (s s' : Store) :
  for_each l (λ name,
    run container_has DataArrays name ;;
    da <- get_data_array name ;;
    if bool_decide (path_name p ∈ (set_map path_name (da_sources da) : gset string))
    then alter_data_array name (λ da, set_da_sources
           (filter (λ q, path_name q ≠ path_name p) (da_sources da)) da)
    else raise (KeyError (path_name p))) s = Ok (tt, s') →
  linked_arrays p (nix_block s') = linked_arrays p (nix_block s) ∖ list_to_set l.
Proof.
  revert s. induction l as [|n l IH]; intros s H.
  - simpl in H. inv_monad. set_solver.
  - apply for_each_cons_Ok in H as (s1 & H1 & H).
    rewrite (IH _ H). clear IH H.
    inv_monad. simpl.
    rewrite linked_arrays_unlink. set_solver.
Qed.

Lemma update_sources_append (p : path) (l : list string) (s s' : Store) :
  for_each l (λ name,
    run container_has DataArrays name ;;
    alter_data_array name (λ da, set_da_sources (da_sources da ∪ {[p]}) da))
    s = Ok (tt, s') →
  linked_arrays p (nix_block s') = linked_arrays p (nix_block s) ∪ list_to_set l.
Proof.
  revert s. induction l as [|n l IH]; intros s H.
  - simpl in H. inv_monad. set_solver.
  - apply for_each_cons_Ok in H as (s1 & H1 & H).
    rewrite (IH _ H). clear IH H.
    inv_monad. simpl in *.
    rewrite lookup_fmap in Hget.
    destruct (blk_data_arrays (nix_block s) !! n) as [da|] eqn:Hda; [|done].
    rewrite linked_arrays_link by eauto. set_solver.
Qed.

Lemma update_sources_spec (p : path) (to_remove to_append : gset string)
    (s s' : Store) :
  update_sources DataArrays p to_remove to_append s = Ok (tt, s') →
  linked_arrays p (nix_block s')
  = (linked_arrays p (nix_block s) ∖ to_remove) ∪ to_append.
Proof.
  intros H. unfold update_sources in H.
  apply bind_Ok in H as ([] & s1 & H1 & H2).
  rewrite (update_sources_append _ _ _ _ H2).
  rewrite (update_sources_remove _ _ _ _ H1).
  by rewrite !list_to_set_elements_L.
Qed.

End Loops.

(** *** What the writers leave alone *)

Lemma keeps_set_block {B} (f : NixBlock → B) (g : NixBlock → NixBlock) :
  (∀ b, f (g b) = f b) → preserves (keeps f) (set_block g).
Proof. intros Hg. apply on_block_set_block. intros b. apply Hg. Qed.

Lemma units_of_with_data_arrays (r : string) (b : NixBlock) das :
  units_of r (with_data_arrays b das) = units_of r b.
Proof. done. Qed.

Lemma units_of_with_tags (r : string) (b : NixBlock) tags :
  units_of r (with_tags b tags) = units_of r b.
Proof. done. Qed.

Lemma linked_arrays_with_tags (p : path) (b : NixBlock) tags :
  linked_arrays p (with_tags b tags) = linked_arrays p b.
Proof. done. Qed.

Lemma linked_arrays_with_sources (p : path) (b : NixBlock) srcs :
  linked_arrays p (with_sources b srcs) = linked_arrays p b.
Proof. done. Qed.

Lemma linked_arrays_insert_fresh (p : path) (n : string) (da : NixDataArray)
    (b : NixBlock) :
  blk_data_arrays b !! n = None → p ∉ da_sources da →
  linked_arrays p (with_data_arrays b (<[n := da]> (blk_data_arrays b)))
  = linked_arrays p b.
Proof.
  intros Hn Hp. unfold linked_arrays. simpl.
  rewrite map_filter_insert_False by done.
  by rewrite delete_id.
Qed.

Lemma linked_arrays_delete_unlinked (p : path) (n : string) (da : NixDataArray)
    (b : NixBlock) :
  blk_data_arrays b !! n = Some da → p ∉ da_sources da →
  linked_arrays p (with_data_arrays b (delete n (blk_data_arrays b)))
  = linked_arrays p b.
Proof.
  intros Hn Hp. unfold linked_arrays. simpl.
  rewrite map_filter_delete. rewrite delete_id; [done|].
  apply map_lookup_filter_None. right. intros x Hx. simplify_eq. done.
Qed.

Ltac keeps_side :=
  intros ?; simpl;
  rewrite ?units_of_with_data_arrays, ?units_of_with_tags,
    ?linked_arrays_with_tags, ?linked_arrays_with_sources;
  first
    [ reflexivity
    | apply dom_alter_L
    | apply units_of_alter; intros ?; simpl; first [reflexivity | apply dom_alter_L]
    | apply linked_arrays_alter_ne; intros ?; reflexivity ].

#[export] Hint Extern 2 (preserves (keeps _) (set_block _)) =>
  apply keeps_set_block; keeps_side : preserves.
#[export] Hint Extern 2 (preserves (on_block (same _)) (set_block _)) =>
  apply keeps_set_block; keeps_side : preserves.
#[export] Hint Extern 1 (preserves (keeps _) (set_sections _)) =>
  apply on_block_set_sections; tc_solve : preserves.
#[export] Hint Extern 1 (preserves (keeps _) (log _)) =>
  apply on_block_log; tc_solve : preserves.

Global Instance keeps_preorder {B} (f : NixBlock → B) : PreOrder (keeps f).
Proof. unfold keeps. tc_solve. Qed.

Section Frames.
Context {env : Env}.

Lemma create_data_array_keeps_links (p : path) (n type dtype : string) data :
  preserves (keeps (linked_arrays p)) (create_data_array n type dtype data).
Proof.
  intros s [] s' H. unfold create_data_array in H. inv_monad.
  unfold keeps, on_block, same. simpl.
  by apply linked_arrays_insert_fresh.
Qed.

(** The sweep deletes arrays that have no source, so it keeps the arrays
    linked to any source. *)
Lemma clean_keeps_links (p : path) : preserves (keeps (linked_arrays p)) clean.
Proof.
  unfold clean. do 3 preserves_step.
  intros s [] s' H. unfold container_delete in H. inv_monad;
    unfold keeps, on_block, same; simpl; [|done].
  rename select (negb _ && negb _ = true) into Hc.
  apply andb_true_iff in Hc as [_ Hc]. apply negb_true_iff in Hc.
  unfold has_sources in Hc. apply bool_decide_eq_false in Hc.
  eapply linked_arrays_delete_unlinked; [done|].
  intros Hp. apply Hc.
  rename select NixDataArray into da.
  assert (size (da_sources da) ≠ 0); [|lia].
  intros Hz. apply size_empty_inv in Hz. set_solver.
Qed.

End Frames.

#[export] Hint Resolve create_data_array_keeps_links clean_keeps_links : preserves.

Ltac unfold_writers :=
  unfold write_analogsignal, write_irregularlysampledsignal, write_spiketrain,
    write_event, write_epoch.

Ltac pbind := apply preserves_bind; [tc_solve| |intros ?].

Ltac frame_tac :=
  repeat (first [progress preserves_step | progress cbv beta
                | progress unfold_ops | progress unfold_writers]).

Section WriteMany.
Context {env : Env}.

(** The data writers touch the data arrays and the sections only. *)
Lemma data_writers_keep {B} (f : NixBlock → B) :
  (∀ b das, f (with_data_arrays b das) = f b) →
  (∀ o, preserves (keeps f) (write_analogsignal o)) ∧
  (∀ o, preserves (keeps f) (write_irregularlysampledsignal o)) ∧
  (∀ o, preserves (keeps f) (write_spiketrain o)) ∧
  (∀ o, preserves (keeps f) (write_event o)) ∧
  (∀ o, preserves (keeps f) (write_epoch o)).
Proof.
  intros Hf.
  assert (Hset : ∀ g, preserves (keeps f)
                        (set_block (λ b, with_data_arrays b (g b)))).
  { intros g. apply keeps_set_block. intros b. apply Hf. }
  repeat split; intros o; frame_tac; apply Hset.
Qed.

(** They keep the links of the arrays to their sources. *)
Lemma data_writers_keep_links (p : path) :
  (∀ o, preserves (keeps (linked_arrays p)) (write_analogsignal o)) ∧
  (∀ o, preserves (keeps (linked_arrays p)) (write_irregularlysampledsignal o)) ∧
  (∀ o, preserves (keeps (linked_arrays p)) (write_spiketrain o)) ∧
  (∀ o, preserves (keeps (linked_arrays p)) (write_event o)) ∧
  (∀ o, preserves (keeps (linked_arrays p)) (write_epoch o)).
Proof. repeat split; intros o; frame_tac. Qed.

Lemma existing_names_subseteq (b : NixBlock) (c : Container) (obj_type : string)
    (parent : Parent) (existing : gset string) :
  existing_names b c obj_type parent = Ok existing →
  existing ⊆ container_names c b.
Proof.
  unfold existing_names. intros H.
  destruct (entities c b) as [ents|] eqn:He; [|done].
  assert (Hdom : dom ents = container_names c b).
  { destruct c; simpl in *; simplify_eq; try by rewrite dom_fmap_L.
    unfold units_of. destruct (getitem (blk_sources b) rcg) as [src|] eqn:Hs; [|done].
    apply getitem_Ok in Hs. rewrite Hs. simplify_eq. simpl. by rewrite dom_fmap_L. }
  rewrite <- Hdom.
  assert (Hsub : dom (filter (λ kv : string * Entity, ent_type kv.2 = obj_type) ents)
                 ⊆ dom ents) by apply dom_filter_subseteq.
  destruct parent as [|t|p].
  - by injection H as <-.
  - destruct (getitem (blk_tags b) t); [|done].
    destruct c; try done. injection H as <-.
    etransitivity; [apply dom_filter_subseteq|done].
  - case_decide; [by injection H as <-|].
    destruct c; try done. injection H as <-.
    etransitivity; [apply dom_filter_subseteq|done].
Qed.

(** Reconciliation in a container: the parent is the block, or the objects
    are units.  The write function adds the node of its object. *)
Lemma reconciles_container {A} `{NeoObject A} (write_func : string → A → M unit)
    (parent : Parent) :
  match parent with
  | ParentBlock => True
  | ParentSource _ => ∀ x : A, get_classname x = "unit"
  | ParentTag _ => False
  end →
  (∀ (first x : A) b n s s1,
     get_obj_nix_name x = Ok n →
     write_func (parent_name b parent) x s = Ok (tt, s1) →
     container_names (containers (get_classname first) parent) (nix_block s1)
     = container_names (containers (get_classname first) parent) (nix_block s) ∪ {[n]}) →
  reconciles write_func parent.
Proof.
  intros Hparent Hw first rest s s' neo_objs obj_type Hwm.
  unfold write_many in Hwm. fold neo_objs obj_type in Hwm.
  apply bind_Ok in Hwm as (b & s0 & [-> ->]%gets_Ok & Hwm).
  apply bind_Ok in Hwm as (existing & s0 & [Hex ->]%lift_Ok & Hwm).
  apply bind_Ok in Hwm as (desired & s0 & [Hde ->]%lift_Ok & Hwm).
  apply bind_Ok in Hwm as ([] & s1 & Hloop & Hwm).
  exists existing, desired. split; [done|]. split; [done|].
  set (c := containers obj_type parent) in *.
  assert (Hsub : existing ⊆ container_names c (nix_block s)).
  { by eapply existing_names_subseteq. }
  assert (Hdel : for_each (elements (existing ∖ list_to_set desired))
                   (container_delete c) s1 = Ok (tt, s')).
  { destruct parent as [|t|p]; [done|done|].
    unfold obj_type in Hwm. rewrite decide_True in Hwm by apply Hparent. done. }
  assert (Hlinked : ∀ b', linked parent obj_type b' = container_names c b').
  { intros b'. unfold linked. destruct parent as [|t|p]; [done|done|].
    unfold obj_type. by rewrite decide_True by apply Hparent. }
  rewrite !Hlinked.
  rewrite (for_each_delete_names _ _ _ _ Hdel), list_to_set_elements_L.
  rewrite (for_each_write_names c _ neo_objs desired
             (λ x n s2 s3, Hw first x (nix_block s) n s2 s3) Hde _ _ Hloop).
  apply set_eq. intros k. set_unfold.
  destruct (decide (k ∈ existing)); naive_solver.
Qed.

(** Reconciliation of the references of a tag. *)
Lemma reconciles_references {A} `{NeoObject A} (write_func : string → A → M unit)
    (t : string) :
  (∀ pn x, preserves (keeps blk_tags) (write_func pn x)) →
  reconciles write_func (ParentTag t).
Proof.
  intros Hw first rest s s' neo_objs obj_type Hwm.
  unfold write_many in Hwm. fold neo_objs obj_type in Hwm.
  apply bind_Ok in Hwm as (b & s0 & [-> ->]%gets_Ok & Hwm).
  apply bind_Ok in Hwm as (existing & s0 & [Hex ->]%lift_Ok & Hwm).
  apply bind_Ok in Hwm as (desired & s0 & [Hde ->]%lift_Ok & Hwm).
  apply bind_Ok in Hwm as ([] & s1 & Hloop & Hwm).
  exists existing, desired. split; [done|]. split; [done|].
  assert (Htags : blk_tags (nix_block s1) = blk_tags (nix_block s)).
  { eapply (preserves_for_each (keeps blk_tags)); [|exact Hloop].
    intros x _. apply Hw. }
  unfold existing_names in Hex.
  destruct (entities _ _) as [ents|]; [|done].
  destruct (getitem (blk_tags (nix_block s)) t) as [tag|] eqn:Htag; [|done].
  apply getitem_Ok in Htag.
  unfold obj_type in *.
  destruct (containers (get_classname first) (ParentTag t)) eqn:Hc; try done.
  unfold linked.
  erewrite (update_references_spec t _ _ s1 s'); [|by rewrite Htags; eexists|done].
  unfold references_of. by rewrite Htags.
Qed.

(** Reconciliation of the arrays linked to a source. *)
Lemma reconciles_sources {A} `{NeoObject A} (write_func : string → A → M unit)
    (p : path) :
  (∀ x : A, get_classname x ≠ "unit") →
  (∀ pn x, preserves (keeps (linked_arrays p)) (write_func pn x)) →
  reconciles write_func (ParentSource p).
Proof.
  intros Hnu Hw first rest s s' neo_objs obj_type Hwm.
  unfold write_many in Hwm. fold neo_objs obj_type in Hwm.
  apply bind_Ok in Hwm as (b & s0 & [-> ->]%gets_Ok & Hwm).
  apply bind_Ok in Hwm as (existing & s0 & [Hex ->]%lift_Ok & Hwm).
  apply bind_Ok in Hwm as (desired & s0 & [Hde ->]%lift_Ok & Hwm).
  apply bind_Ok in Hwm as ([] & s1 & Hloop & Hwm).
  exists existing, desired. split; [done|]. split; [done|].
  assert (Hl : linked_arrays p (nix_block s1) = linked_arrays p (nix_block s)).
  { eapply (preserves_for_each (keeps (linked_arrays p))); [|exact Hloop].
    intros x _. apply Hw. }
  unfold existing_names in Hex.
  destruct (entities _ _) as [ents|]; [|done].
  unfold obj_type in *. cbv zeta in Hex.
  rewrite decide_False in Hex by apply Hnu.
  rewrite decide_False in Hwm by apply Hnu.
  unfold linked. rewrite !decide_False by apply Hnu.
  destruct (containers (get_classname first) (ParentSource p)) eqn:Hc; try done.
  by erewrite (update_sources_spec p _ _ s1 s'), Hl.
Qed.

End WriteMany.

Section Structural.
Context {env : Env}.

(** [write_many] keeps what its write function, the link updates and the
    deletions in its container keep. *)
Lemma write_many_preserves {A} `{NeoObject A} (R : relation Store) `{!PreOrder R}
    (write_func : string → A → M unit) (parent : Parent) (neo_objs : list A) :
  (∀ pn x, preserves R (write_func pn x)) →
  (∀ c X Y, match parent with
            | ParentTag t => preserves R (update_references c t X Y)
            | ParentSource p => preserves R (update_sources c p X Y)
            | ParentBlock => True
            end) →
  (∀ first n, match parent with
              | ParentTag t => True
              | ParentSource _ =>
                  get_classname first = "unit" →
                  preserves R (container_delete (containers "unit" parent) n)
              | ParentBlock =>
                  preserves R (container_delete
                                 (containers (get_classname first) parent) n)
              end) →
  preserves R (write_many write_func parent neo_objs).
Proof.
  intros Hw Hup Hdel. unfold write_many.
  destruct neo_objs as [|first rest]; [apply preserves_ret; tc_solve|].
  apply preserves_bind; [tc_solve|apply preserves_gets; tc_solve|intros b].
  apply preserves_bind; [tc_solve|apply preserves_lift; tc_solve|intros ex].
  apply preserves_bind; [tc_solve|apply preserves_lift; tc_solve|intros de].
  apply preserves_bind; [tc_solve| |intros _].
  { apply preserves_for_each; [tc_solve|]. intros x _. apply Hw. }
  destruct parent as [|t|p].
  - apply preserves_for_each; [tc_solve|]. intros n _. apply (Hdel first).
  - apply (Hup _ _ _).
  - case_decide as Hu.
    + apply preserves_for_each; [tc_solve|]. intros n _.
      rewrite Hu. by apply (Hdel first).
    + apply (Hup _ _ _).
Qed.

Lemma update_references_keeps {B} (f : NixBlock → B) c t X Y :
  (∀ b g, f (with_tags b (alter g t (blk_tags b))) = f b) →
  preserves (keeps f) (update_references c t X Y).
Proof.
  intros Hf.
  assert (Hset : ∀ g, preserves (keeps f)
            (set_block (λ b, with_tags b (alter g t (blk_tags b))))).
  { intros g. apply keeps_set_block. intros b. apply Hf. }
  unfold update_references, container_has, get_tag, alter_tag.
  repeat (first [progress preserves_step | progress cbv beta | apply Hset]).
Qed.

Lemma update_sources_keeps {B} (f : NixBlock → B) c p X Y :
  (∀ b das, f (with_data_arrays b das) = f b) →
  preserves (keeps f) (update_sources c p X Y).
Proof.
  intros Hf.
  assert (Hset : ∀ g, preserves (keeps f)
                        (set_block (λ b, with_data_arrays b (g b)))).
  { intros g. apply keeps_set_block. intros b. apply Hf. }
  unfold update_sources, container_has, get_data_array, alter_data_array.
  repeat (first [progress preserves_step | progress cbv beta | apply Hset]).
Qed.

Lemma clean_keeps {B} (f : NixBlock → B) :
  (∀ b das, f (with_data_arrays b das) = f b) →
  preserves (keeps f) clean.
Proof.
  intros Hf.
  assert (Hset : ∀ g, preserves (keeps f)
                        (set_block (λ b, with_data_arrays b (g b)))).
  { intros g. apply keeps_set_block. intros b. apply Hf. }
  unfold clean, container_delete, container_has, get_data_array.
  repeat (first [progress preserves_step | progress cbv beta | apply Hset]).
Qed.

(** A write of data objects under a tag or a source keeps every projection
    of the block that does not look at the data arrays or at the tag. *)
Lemma write_many_data_keeps {A B} `{NeoObject A} (f : NixBlock → B)
    (write_func : string → A → M unit) (parent : Parent) (neo_objs : list A) :
  (∀ b das, f (with_data_arrays b das) = f b) →
  (∀ b t g, parent = ParentTag t → f (with_tags b (alter g t (blk_tags b))) = f b) →
  (∀ x : A, get_classname x ≠ "unit") →
  parent ≠ ParentBlock →
  (∀ pn x, preserves (keeps f) (write_func pn x)) →
  preserves (keeps f) (write_many write_func parent neo_objs).
Proof.
  intros Hda Htag Hnu Hnb Hw. apply write_many_preserves; [tc_solve|done| |].
  - intros c X Y. destruct parent as [|t|p]; [done| |].
    + apply update_references_keeps. intros b g. by apply Htag.
    + by apply update_sources_keeps.
  - intros first n. destruct parent as [|t|p]; [done|done|].
    intros Hu. by destruct (Hnu first).
Qed.

Lemma containers_segment (parent : Parent) : containers "segment" parent = Tags.
Proof. done. Qed.

Lemma containers_rcg (parent : Parent) :
  containers "recordingchannelgroup" parent = Sources.
Proof. done. Qed.

Lemma containers_unit (rcg : string) :
  containers "unit" (ParentSource [rcg]) = SubSources rcg.
Proof. done. Qed.

(** [write_segment] adds the tag of the segment, and no other tag. *)
Lemma write_segment_tags (sg : Segment list) (recursive : bool) (n : string)
    (s s1 : Store) :
  name_of (seg_base sg) = Ok n →
  write_segment sg recursive s = Ok (tt, s1) →
  dom (blk_tags (nix_block s1)) = dom (blk_tags (nix_block s)) ∪ {[n]}.
Proof.
  intros Hn H. unfold write_segment in H.
  apply bind_Ok in H as (n' & s0 & [Hn' ->]%lift_Ok & H).
  rewrite Hn in Hn'. injection Hn' as <-.
  apply bind_Ok in H as (b & s0 & [-> ->]%gets_Ok & H).
  apply bind_Ok in H as ([] & sa & Hcreate & H).
  assert (Hrest : dom (blk_tags (nix_block s1)) = dom (blk_tags (nix_block sa))).
  { revert H.
    match goal with |- ?m _ = _ → _ =>
      assert (Hp : preserves (keeps (λ b, dom (blk_tags b))) m) end;
      [|apply Hp].
    destruct (data_writers_keep (λ b, dom (blk_tags b))) as (? & ? & ? & ? & ?);
      [done|].
    pbind; [frame_tac|]. pbind; [frame_tac|]. pbind; [frame_tac|].
    pbind; [frame_tac|]. pbind; [|by apply clean_keeps].
    destruct recursive; [|frame_tac].
    repeat (first [pbind|apply write_many_data_keeps]);
      first [done | intros; simpl; apply dom_alter_L]. }
  rewrite Hrest. clear Hrest H.
  destruct (blk_tags (nix_block s) !! n) as [tag|] eqn:Htag.
  - inv_monad. apply (elem_of_dom_2 (D := gset string)) in Htag. set_solver.
  - inv_monad; simplify_eq. simpl. rewrite dom_insert_L. set_solver.
Qed.


Lemma units_of_insert (rcg n : string) (sub : NixSubSource) (b : NixBlock) :
  is_Some (blk_sources b !! rcg) →
  units_of rcg (with_sources b
    (alter (λ src, set_src_sources (<[n := sub]> (src_sources src)) src)
       rcg (blk_sources b)))
  = units_of rcg b ∪ {[n]}.
Proof.
  intros [src Hsrc]. unfold units_of. simpl.
  rewrite lookup_alter, decide_True by done. rewrite Hsrc. simpl.
  rewrite dom_insert_L. set_solver.
Qed.

Lemma not_unit_spiketrain (x : SpikeTrain) : get_classname x ≠ "unit".
Proof. done. Qed.

Lemma not_unit_analogsignal (x : AnalogSignal) : get_classname x ≠ "unit".
Proof. done. Qed.

Lemma not_unit_irregular (x : IrregularlySampledSignal) : get_classname x ≠ "unit".
Proof. done. Qed.

Lemma not_unit_event (x : Event) : get_classname x ≠ "unit".
Proof. done. Qed.

Lemma not_unit_epoch (x : Epoch) : get_classname x ≠ "unit".
Proof. done. Qed.

(** What follows the lookup or the creation of the source of a unit keeps
    every projection of the block that the data arrays and the metadata
    link of the unit do not change. *)
Lemma write_unit_keeps {B} (f : NixBlock → B) (source_id : string)
    (u : Unit list) (recursive : bool) :
  (∀ b das, f (with_data_arrays b das) = f b) →
  (∀ b g, f (with_sources b (alter g source_id (blk_sources b))) = f b) →
  preserves (keeps f) (write_unit source_id u recursive).
Proof.
  intros Hda Hsrc.
  assert (Hset : ∀ g, preserves (keeps f)
            (set_block (λ b, with_sources b (alter g source_id (blk_sources b))))).
  { intros g. apply keeps_set_block. intros b. apply Hsrc. }
  destruct (data_writers_keep f Hda) as (_ & _ & Hst & _ & _).
  unfold write_unit.
  pbind; [frame_tac|]. pbind; [frame_tac|].
  pbind. { destruct (_ !! _); [frame_tac|].
           unfold create_sub_source, alter_source, get_source.
           repeat (first [progress preserves_step | apply Hset]). }
  pbind; [frame_tac|]. pbind; [apply Hset|]. pbind; [frame_tac|].
  pbind; [frame_tac|]. pbind; [|by apply clean_keeps].
  destruct recursive; [|frame_tac].
  apply write_many_data_keeps; first [done|apply not_unit_spiketrain].
Qed.

(** [write_unit] adds the source of the unit to its recording channel
    group, and no other. *)
Lemma write_unit_units (source_id : string) (u : Unit list) (recursive : bool)
    (n : string) (s s1 : Store) :
  name_of (u_base u) = Ok n →
  write_unit source_id u recursive s = Ok (tt, s1) →
  units_of source_id (nix_block s1) = units_of source_id (nix_block s) ∪ {[n]}.
Proof.
  intros Hn H. unfold write_unit in H.
  apply bind_Ok in H as (src & s0 & Hsrc & H).
  unfold get_source in Hsrc.
  apply bind_Ok in Hsrc as (b0 & s0' & [-> ->]%gets_Ok & [Hsrc ->]%lift_Ok).
  apply getitem_Ok in Hsrc.
  apply bind_Ok in H as (n' & s0 & [Hn' ->]%lift_Ok & H).
  rewrite Hn in Hn'. injection Hn' as <-.
  apply bind_Ok in H as ([] & sa & Hcreate & H).
  assert (Hrest : units_of source_id (nix_block s1)
                  = units_of source_id (nix_block sa)).
  { revert H.
    match goal with |- ?m _ = _ → _ =>
      assert (Hp : preserves (keeps (units_of source_id)) m) end; [|apply Hp].
    destruct (data_writers_keep (units_of source_id)) as (_ & _ & Hst & _ & _);
      [done|].
    pbind; [frame_tac|].
    pbind. { apply keeps_set_block. intros b. apply units_of_alter.
             intros src'. simpl. apply dom_alter_L. }
    pbind; [frame_tac|]. pbind; [frame_tac|].
    pbind; [|by apply clean_keeps].
    destruct recursive; [|frame_tac].
    apply write_many_data_keeps; first [done|apply not_unit_spiketrain]. }
  rewrite Hrest. clear Hrest H.
  destruct (src_sources src !! n) as [sub|] eqn:Hsub.
  - inv_monad. unfold units_of. rewrite Hsrc. simpl.
    apply (elem_of_dom_2 (D := gset string)) in Hsub. set_solver.
  - unfold create_sub_source in Hcreate. inv_monad; simplify_eq. simpl.
    rewrite units_of_insert by eauto. done.
Qed.

(** [write_recordingchannelgroup] adds the source of the group to the
    block, and no other. *)
Lemma write_recordingchannelgroup_sources (r : RecordingChannelGroup list)
    (recursive : bool) (n : string) (s s1 : Store) :
  name_of (rcg_base r) = Ok n →
  write_recordingchannelgroup r recursive s = Ok (tt, s1) →
  dom (blk_sources (nix_block s1)) = dom (blk_sources (nix_block s)) ∪ {[n]}.
Proof.
  intros Hn H. unfold write_recordingchannelgroup in H.
  apply bind_Ok in H as (n' & s0 & [Hn' ->]%lift_Ok & H).
  rewrite Hn in Hn'. injection Hn' as <-.
  apply bind_Ok in H as (b & s0 & [-> ->]%gets_Ok & H).
  apply bind_Ok in H as ([] & sa & Hcreate & H).
  assert (Hrest : dom (blk_sources (nix_block s1)) = dom (blk_sources (nix_block sa))).
  { revert H.
    match goal with |- ?m _ = _ → _ =>
      assert (Hp : preserves (keeps (λ b, dom (blk_sources b))) m) end;
      [|apply Hp].
    destruct (data_writers_keep (λ b, dom (blk_sources b))) as (? & ? & _);
      [done|].
    pbind; [frame_tac|]. pbind; [frame_tac|]. pbind; [frame_tac|].
    pbind; [frame_tac|]. pbind; [|by apply clean_keeps].
    destruct recursive; [|frame_tac].
    pbind; [|pbind].
    - apply write_many_preserves; [tc_solve| | |].
      + intros pn u. apply write_unit_keeps; [done|].
        intros b g. simpl. apply dom_alter_L.
      + intros c X Y. by apply update_sources_keeps.
      + intros first k _. rewrite containers_unit. unfold container_delete. frame_tac.
    - apply write_many_data_keeps; first [done|apply not_unit_analogsignal].
    - apply write_many_data_keeps; first [done|apply not_unit_irregular]. }
  rewrite Hrest. clear Hrest H.
  destruct (blk_sources (nix_block s) !! n) as [src|] eqn:Hsrc.
  - inv_monad. apply (elem_of_dom_2 (D := gset string)) in Hsrc. set_solver.
  - inv_monad; simplify_eq. simpl. rewrite dom_insert_L. set_solver.
Qed.

Lemma reconciles_segments :
  reconciles (λ _ sg, write_segment sg true) ParentBlock.
Proof.
  apply reconciles_container; [done|].
  intros first x b n s s1 Hn Hw. by apply (write_segment_tags x true).
Qed.

Lemma reconciles_recordingchannelgroups :
  reconciles (λ _ r, write_recordingchannelgroup r true) ParentBlock.
Proof.
  apply reconciles_container; [done|].
  intros first x b n s s1 Hn Hw.
  by apply (write_recordingchannelgroup_sources x true).
Qed.

Lemma reconciles_units (rcg : string) :
  reconciles (λ source_id u, write_unit source_id u true) (ParentSource [rcg]).
Proof.
  apply reconciles_container; [done|].
  intros first x b n s s1 Hn Hw. by apply (write_unit_units rcg x true).
Qed.

(** The five writers of data objects, under a tag. *)
Lemma reconciles_tag (t : string) :
  reconciles (λ _, write_analogsignal) (ParentTag t) ∧
  reconciles (λ _, write_irregularlysampledsignal) (ParentTag t) ∧
  reconciles (λ _, write_spiketrain) (ParentTag t) ∧
  reconciles (λ _, write_event) (ParentTag t) ∧
  reconciles (λ _, write_epoch) (ParentTag t).
Proof.
  destruct (data_writers_keep blk_tags) as (Ht1 & Ht2 & Ht3 & Ht4 & Ht5); [done|].
  repeat split; by apply reconciles_references.
Qed.

(** The writers of the signals and of the spike trains, under a source. *)
Lemma reconciles_source (p : path) :
  reconciles (λ _, write_analogsignal) (ParentSource p) ∧
  reconciles (λ _, write_irregularlysampledsignal) (ParentSource p) ∧
  reconciles (λ _, write_spiketrain) (ParentSource p).
Proof.
  repeat split.
  - apply reconciles_sources; [apply not_unit_analogsignal|].
    intros _ x. apply data_writers_keep_links.
  - apply reconciles_sources; [apply not_unit_irregular|].
    intros _ x. apply data_writers_keep_links.
  - apply reconciles_sources; [apply not_unit_spiketrain|].
    intros _ x. apply data_writers_keep_links.
Qed.

(** C1 (as amended): for every call of the reconciler in the Writer (the
    segments and the recording channel groups of a block, the five data
    collections of a segment, the units and the signals of a recording
    channel group, the spike trains of a unit) with a collection that is
    not empty, the children of the parent afterwards are the children
    before, less the existing children of the kind whose identity is not
    desired ([existing - desired]), plus the desired identities that were
    not linked ([desired - existing]). *)
Theorem write_many_reconciles :
  reconciles (λ _ sg, write_segment sg true) ParentBlock ∧
  reconciles (λ _ r, write_recordingchannelgroup r true) ParentBlock ∧
  (∀ t, reconciles (λ _, write_analogsignal) (ParentTag t)) ∧
  (∀ t, reconciles (λ _, write_irregularlysampledsignal) (ParentTag t)) ∧
  (∀ t, reconciles (λ _, write_spiketrain) (ParentTag t)) ∧
  (∀ t, reconciles (λ _, write_event) (ParentTag t)) ∧
  (∀ t, reconciles (λ _, write_epoch) (ParentTag t)) ∧
  (∀ rcg, reconciles (λ source_id u, write_unit source_id u true)
            (ParentSource [rcg])) ∧
  (∀ p, reconciles (λ _, write_analogsignal) (ParentSource p)) ∧
  (∀ p, reconciles (λ _, write_irregularlysampledsignal) (ParentSource p)) ∧
  (∀ p, reconciles (λ _, write_spiketrain) (ParentSource p)).
Proof.
  split; [apply reconciles_segments|].
  split; [apply reconciles_recordingchannelgroups|].
  split; [intros t; apply (reconciles_tag t)|].
  split; [intros t; apply (reconciles_tag t)|].
  split; [intros t; apply (reconciles_tag t)|].
  split; [intros t; apply (reconciles_tag t)|].
  split; [intros t; apply (reconciles_tag t)|].
  split; [apply reconciles_units|].
  split; [intros p; apply (reconciles_source p)|].
  split; [intros p; apply (reconciles_source p)|].
  intros p; apply (reconciles_source p).
Qed.

End Structural.
(** ** What is stored of an object, and what is read back of it *)

Section Lookups.

(** A left fold that inserts the value [f a], if any, for each name [a]. *)
Lemma foldl_insert_lookup {V} (f : string → option V) (names : list string)
    (r0 : gmap string V) (k : string) :
  foldl (λ r a, match f a with Some v => <[a := v]> r | None => r end) r0 names !! k
  = if decide (k ∈ names) then
      match f k with Some v => Some v | None => r0 !! k end
    else r0 !! k.
Proof.
  revert r0. induction names as [|a names IH]; intros r0; cbn [foldl].
  - by rewrite decide_False by set_solver.
  - rewrite IH. destruct (decide (k = a)) as [->|Hne].
    + rewrite (decide_True (P := a ∈ a :: names)) by set_solver.
      destruct (f a) as [v|] eqn:Hf.
      * rewrite lookup_insert_eq. by destruct (decide (a ∈ names)).
      * by destruct (decide (a ∈ names)).
    + destruct (decide (k ∈ names)) as [Hin|Hnin].
      * rewrite (decide_True (P := k ∈ a :: names)) by set_solver.
        destruct (f k); [done|].
        destruct (f a); [by rewrite lookup_insert_ne|done].
      * rewrite (decide_False (P := k ∈ a :: names)) by set_solver.
        destruct (f a); [by rewrite lookup_insert_ne|done].
Qed.

Lemma foldl_ext_eq {A B} (f g : A → B → A) (l : list B) (a : A) :
  (∀ a b, f a b = g a b) → foldl f a l = foldl g a l.
Proof. intros Hfg. revert a. induction l as [|b l IH]; intros a; simpl; [done|]. by rewrite Hfg, IH. Qed.

(** What [extract_metadata] holds for a name: the attribute of that name if
    it is a simple attribute with a value, the annotation otherwise. *)
Lemma extract_metadata_lookup {A} `{NeoObject A} (obj : A)
    (names : list string) (metadata : gmap string PyValue) (k : string) :
  attr_names (get_classname obj) = Ok names →
  extract_metadata obj = Ok metadata →
  metadata !! k
  = if decide (k ∈ names ∧ getattr (neo_base obj) k ≠ PNone)
    then Some (getattr (neo_base obj) k)
    else annotations (neo_base obj) !! k.
Proof.
  intros Hnames Hex. unfold extract_metadata in Hex. rewrite Hnames in Hex.
  injection Hex as <-.
  rewrite (foldl_ext_eq _
    (λ r a, match (match getattr (neo_base obj) a with
                   | PNone => None
                   | v => Some v
                   end) with
            | Some v => <[a := v]> r
            | None => r
            end)).
  2:{ intros r a. by destruct (getattr (neo_base obj) a). }
  rewrite foldl_insert_lookup.
  destruct (decide (k ∈ names)) as [Hin|Hnin].
  - destruct (getattr (neo_base obj) k) eqn:Hg.
    + rewrite decide_False; [done|]. intros [_ ?]. done.
    + rewrite decide_True; [done|]. done.
    + rewrite decide_True; [done|]. done.
    + rewrite decide_True; [done|]. done.
  - rewrite decide_False; [done|]. by intros [? _].
Qed.

Lemma section_contains_getitem (sec : NixSection) (k : string) :
  section_contains sec k = true ↔ ∃ v, section_getitem sec k = Ok v.
Proof.
  unfold section_contains, section_getitem.
  rewrite bool_decide_eq_true.
  destruct (sec_props sec !! k) as [[|x [|y l]]|]; split;
    try (intros _; eauto; fail); try (intros [? ?]; done).
Qed.

Lemma section_getitem_None (sec : NixSection) (k : string) :
  sec_props sec !! k = None → section_getitem sec k = Raise (KeyError k).
Proof. intros Hk. unfold section_getitem. by rewrite Hk. Qed.

(** What [read_attributes] holds for a name: the stored value of a simple
    attribute. *)
Lemma read_attributes_lookup (sec : NixSection) (obj_type : string)
    (names : list string) (read_attrs : gmap string PyValue) (k : string) :
  attr_names obj_type = Ok names →
  read_attributes sec obj_type = Ok read_attrs →
  read_attrs !! k
  = if decide (k ∈ names) then
      match section_getitem sec k with Ok v => Some v | Raise _ => None end
    else None.
Proof.
  intros Hnames Hr. unfold read_attributes in Hr. rewrite Hnames in Hr.
  injection Hr as <-.
  rewrite (foldl_ext_eq _
    (λ r a, match (match section_getitem sec a with
                   | Ok v => Some v
                   | Raise _ => None
                   end) with
            | Some v => <[a := v]> r
            | None => r
            end)).
  2:{ intros r a. destruct (section_contains sec a) eqn:Hc.
      - by destruct (section_getitem sec a).
      - destruct (section_getitem sec a) eqn:Hg; [|done].
        assert (section_contains sec a = true) by (apply section_contains_getitem; eauto).
        congruence. }
  rewrite foldl_insert_lookup, lookup_empty.
  destruct (decide (k ∈ names)); [|done].
  by destruct (section_getitem sec k).
Qed.

(** What [read_annotations] holds for a name: the stored value of a
    property that is not a simple attribute. *)
Lemma read_annotations_lookup (sec : NixSection) (obj_type : string)
    (names : list string) (read_annots : gmap string PyValue) (k : string) :
  attr_names obj_type = Ok names →
  read_annotations sec obj_type = Ok read_annots →
  read_annots !! k
  = if decide (k ∈ names) then None
    else match section_getitem sec k with Ok v => Some v | Raise _ => None end.
Proof.
  intros Hnames Hr. unfold read_annotations in Hr. rewrite Hnames in Hr.
  injection Hr as <-.
  rewrite (foldl_ext_eq _
    (λ r a, match (match section_getitem sec a with
                   | Ok v => if bool_decide (a ∈ names) then None else Some v
                   | Raise _ => None
                   end) with
            | Some v => <[a := v]> r
            | None => r
            end)).
  2:{ intros r a. destruct (section_getitem sec a); [|done].
      by destruct (bool_decide (a ∈ names)). }
  rewrite foldl_insert_lookup, lookup_empty.
  destruct (decide (k ∈ map fst (map_to_list (sec_props sec)))) as [Hin|Hnin].
  - destruct (section_getitem sec k); [|by destruct (decide (k ∈ names))].
    case_bool_decide; by destruct (decide (k ∈ names)).
  - assert (sec_props sec !! k = None) as Hk.
    { apply eq_None_not_Some. intros [vs Hvs]. apply Hnin.
      apply list_elem_of_fmap. exists (k, vs). split; [done|].
      by apply elem_of_map_to_list. }
    rewrite (section_getitem_None _ _ Hk). by destruct (decide (k ∈ names)).
Qed.

End Lookups.

Section NoneValued.


End NoneValued.
(** ** The writers of the data objects, as functions on stores *)

Section ArraySteps.

Lemma bind_eq {A B} (m : M A) (k : A → M B) (s : Store) :
  bind m k s = match m s with Ok (a, s') => k a s' | Raise e => Raise e end.
Proof. done. Qed.

Lemma with_data_arrays_id (b : NixBlock) : with_data_arrays b (blk_data_arrays b) = b.
Proof. by destruct b. Qed.

Lemma with_array_found (id : string) (da : NixDataArray) (s : Store) :
  blk_data_arrays (nix_block s) !! id = Some da → with_array id da [] s = s.
Proof.
  intros Hda. unfold with_array. rewrite insert_id by done.
  rewrite with_data_arrays_id, app_nil_r. by destruct s.
Qed.

Lemma with_array_lookup (id : string) (da : NixDataArray) (new : list Mutation)
    (s : Store) :
  blk_data_arrays (nix_block (with_array id da new s)) !! id = Some da.
Proof. simpl. apply lookup_insert_eq. Qed.

Lemma alter_data_array_with_array (id : string) (f : NixDataArray → NixDataArray)
    (da : NixDataArray) (new : list Mutation) (s : Store) :
  alter_data_array id f (with_array id da new s) = Ok (tt, with_array id (f da) new s).
Proof.
  unfold alter_data_array, set_block, modify, with_array. simpl.
  by rewrite alter_insert_eq.
Qed.

Lemma get_data_array_with_array (id : string) (da : NixDataArray)
    (new : list Mutation) (s : Store) :
  get_data_array id (with_array id da new s) = Ok (da, with_array id da new s).
Proof.
  unfold get_data_array. rewrite bind_eq. unfold gets, lift, getitem.
  by rewrite with_array_lookup.
Qed.

Lemma array_or_create_spec (id type dtype : string) (row : list byte) (s : Store) :
  let found := blk_data_arrays (nix_block s) !! id in
  array_or_create id type dtype [row] s
  = Ok (tt, with_array id (default (new_array type dtype [row]) found)
              (created id found) s).
Proof.
  intros found. subst found.
  unfold array_or_create, create_data_array, bind, gets. cbv beta iota.
  destruct (blk_data_arrays (nix_block s) !! id) as [da|] eqn:Hda.
  - unfold ret. simpl. by rewrite with_array_found.
  - cbv beta iota. rewrite Hda.
    unfold set_block, modify, log. cbv beta iota.
    cbn [for_each]. unfold bind, data_array_append, alter_data_array, set_block,
      modify, ret. cbv beta iota.
    cbn [nix_block sections journal blk_data_arrays with_data_arrays].
    rewrite alter_insert_eq. reflexivity.
Qed.

Lemma find_or_create_spec (id type dtype : string) (data : list (list byte))
    (s : Store) :
  let found := blk_data_arrays (nix_block s) !! id in
  match found with
  | Some _ => ret tt
  | None => create_data_array id type dtype data
  end s
  = Ok (tt, with_array id (default (new_array type dtype data) found)
              (created id found) s).
Proof.
  intros found. subst found.
  destruct (blk_data_arrays (nix_block s) !! id) as [da|] eqn:Hda.
  - unfold ret. simpl. by rewrite with_array_found.
  - unfold create_data_array, bind, gets. cbv beta iota. rewrite Hda.
    reflexivity.
Qed.

Lemma dimension_if_none_with_array (id : string) (dim : Dimension)
    (da : NixDataArray) (new : list Mutation) (s : Store) :
  dimension_if_none id dim (with_array id da new s)
  = Ok (tt, with_array id (with_dimension_if_none dim da) new s).
Proof.
  unfold dimension_if_none. rewrite bind_eq, get_data_array_with_array.
  unfold with_dimension_if_none. destruct (da_dimensions da) as [|d dims] eqn:Hd.
  - unfold append_dimension. rewrite alter_data_array_with_array. by rewrite Hd.
  - done.
Qed.

Lemma set_first_dimension_unit_with_array (id unit_name : string)
    (da : NixDataArray) (new : list Mutation) (s : Store) :
  set_first_dimension_unit id unit_name (with_array id da new s)
  = match with_first_dimension_unit unit_name da with
    | Ok da' => Ok (tt, with_array id da' new s)
    | Raise e => Raise e
    end.
Proof.
  unfold set_first_dimension_unit. rewrite bind_eq, get_data_array_with_array.
  unfold with_first_dimension_unit.
  destruct (da_dimensions da) as [|[]]; try done;
    by rewrite alter_data_array_with_array.
Qed.

Lemma set_first_dimension_labels_with_array (id : string) (labels : list string)
    (da : NixDataArray) (new : list Mutation) (s : Store) :
  set_first_dimension_labels id labels (with_array id da new s)
  = match with_first_dimension_labels labels da with
    | Ok da' => Ok (tt, with_array id da' new s)
    | Raise e => Raise e
    end.
Proof.
  unfold set_first_dimension_labels. rewrite bind_eq, get_data_array_with_array.
  unfold with_first_dimension_labels.
  destruct (da_dimensions da) as [|[]]; try done;
    by rewrite alter_data_array_with_array.
Qed.

Lemma section_or_create_spec (sp : path) (type : string) (s : Store) :
  section_or_create sp type s
  = Ok (sp, {| nix_block := nix_block s;
               sections := ensure_section sp type (sections s);
               journal := journal s |}).
Proof.
  unfold section_or_create, ensure_section. rewrite bind_eq. unfold gets.
  destruct (sections s !! sp); [by destruct s|]. done.
Qed.

Lemma object_section_spec (kind id : string) (s : Store) :
  object_section kind id s
  = match blk_metadata (nix_block s) with
    | Some bsp =>
        Ok (section_path bsp kind id,
            {| nix_block := nix_block s;
               sections := ensure_section (section_path bsp kind id) kind
                             (ensure_section (bsp ++ [kind +:+ "s"])%list kind
                                (sections s));
               journal := journal s |})
    | None => Raise (AttributeError "sections")
    end.
Proof.
  unfold object_section. rewrite bind_eq. unfold gets, metadata_root.
  destruct (blk_metadata (nix_block s)) as [bsp|]; [|done].
  unfold get_or_create_section. rewrite bind_eq, section_or_create_spec.
  by rewrite section_or_create_spec.
Qed.

Lemma ensure_section_lookup (sp : path) (type : string) (secs : gmap path NixSection) :
  ensure_section sp type secs !! sp
  = Some (default {| sec_type := type; sec_props := ∅ |} (secs !! sp)).
Proof.
  unfold ensure_section. destruct (secs !! sp) eqn:Hs; [done|].
  by rewrite lookup_insert_eq.
Qed.

Lemma ensure_section_lookup_ne (sp p : path) (type : string)
    (secs : gmap path NixSection) :
  p ≠ sp → ensure_section sp type secs !! p = secs !! p.
Proof.
  intros Hne. unfold ensure_section. destruct (secs !! sp); [done|].
  by rewrite lookup_insert_ne.
Qed.

(** The end of every writer of a data object: the section of the object is
    found or created, the array is given it as metadata, and the metadata
    are written there. *)
Lemma finish_spec (kind id : string) (metadata : gmap string PyValue)
    (da : NixDataArray) (new : list Mutation) (s : Store) :
  (sec <- object_section kind id ;;
   run alter_data_array id (set_da_metadata (Some sec)) ;;
   write_metadata sec metadata) (with_array id da new s)
  = match blk_metadata (nix_block s) with
    | Some bsp =>
        let sp := section_path bsp kind id in
        let secs := ensure_section sp kind
                      (ensure_section (bsp ++ [kind +:+ "s"])%list kind (sections s)) in
        let sec := default {| sec_type := kind; sec_props := ∅ |} (secs !! sp) in
        Ok (tt,
            {| nix_block := with_data_arrays (nix_block s)
                              (<[id := set_da_metadata (Some sp) da]>
                                 (blk_data_arrays (nix_block s)));
               sections := <[sp := with_props sec (stored_props metadata (sec_props sec))]>
                             secs;
               journal := ((journal s ++ new)
                             ++ stored_mutations sp metadata (sec_props sec))%list |})
    | None => Raise (AttributeError "sections")
    end.
Proof.
  rewrite bind_eq, object_section_spec.
  cbn [nix_block sections journal with_array blk_metadata with_data_arrays].
  destruct (blk_metadata (nix_block s)) as [bsp|]; [|done].
  cbv zeta. rewrite bind_eq.
  set (sp := section_path bsp kind id).
  set (secs := ensure_section sp kind _).
  unfold alter_data_array, set_block, modify. cbv beta iota.
  cbn [nix_block sections journal blk_data_arrays with_data_arrays blk_name
         blk_type blk_metadata blk_tags blk_sources].
  rewrite alter_insert_eq.
  assert (secs !! sp = Some (default {| sec_type := kind; sec_props := ∅ |} (secs !! sp)))
    as Hsec.
  { unfold secs at 1. rewrite ensure_section_lookup.
    unfold secs. by rewrite ensure_section_lookup. }
  erewrite write_metadata_spec; [|exact Hsec].
  reflexivity.
Qed.

End ArraySteps.

Ltac array_step :=
  rewrite bind_eq;
  first
    [ rewrite array_or_create_spec
    | rewrite alter_data_array_with_array
    | rewrite dimension_if_none_with_array
    | rewrite set_first_dimension_unit_with_array
    | rewrite set_first_dimension_labels_with_array ];
  cbv beta iota zeta.

Section DataWriters.
Context {env : Env}.

Lemma write_analogsignal_written (signal : AnalogSignal) (s : Store) :
  agrees (write_analogsignal signal s)
    (written "analogsignal" (pretty (py_hash (nd_bytes (as_signal signal))))
       (analogsignal_array signal) (analogsignal_metadata signal) s).
Proof.
  unfold write_analogsignal. rewrite bind_eq.
  unfold lift at 1. cbn [get_obj_nix_name hashed_bytes AnalogSignal_obj].
  cbv beta iota.
  do 4 array_step.
  unfold written, analogsignal_array, analogsignal_metadata.
  destruct (with_first_dimension_unit _ _) as [da|e]; [|done].
  rewrite bind_eq. unfold lift at 1.
  destruct (extract_metadata signal) as [metadata|e]; [|done].
  cbv beta iota zeta. rewrite finish_spec.
  destruct (blk_metadata (nix_block s)) as [bsp|]; [|done].
  reflexivity.
Qed.

Lemma write_irregularlysampledsignal_written (signal : IrregularlySampledSignal)
    (s : Store) :
  agrees (write_irregularlysampledsignal signal s)
    (written "irregularlysampledsignal"
       (pretty (py_hash (nd_bytes (irr_signal signal))))
       (irregularlysampledsignal_array signal) (extract_metadata signal) s).
Proof.
  unfold write_irregularlysampledsignal. rewrite bind_eq.
  unfold lift at 1. cbn [get_obj_nix_name hashed_bytes IrregularlySampledSignal_obj].
  cbv beta iota.
  do 4 array_step.
  unfold written, irregularlysampledsignal_array.
  destruct (with_first_dimension_unit _ _) as [da|e]; [|done].
  rewrite bind_eq. unfold lift at 1.
  destruct (extract_metadata signal) as [metadata|e]; [|done].
  cbv beta iota zeta. rewrite finish_spec.
  destruct (blk_metadata (nix_block s)) as [bsp|]; [|done].
  reflexivity.
Qed.

Lemma write_spiketrain_written (st : SpikeTrain) (s : Store) :
  agrees (write_spiketrain st s)
    (written "spiketrain" (pretty (py_hash (nd_bytes (st_times st))))
       (spiketrain_array st) (spiketrain_metadata st) s).
Proof.
  unfold write_spiketrain. rewrite bind_eq.
  unfold lift at 1. cbn [get_obj_nix_name hashed_bytes SpikeTrain_obj].
  cbv beta iota.
  do 2 array_step.
  unfold written, spiketrain_array, spiketrain_metadata. cbv zeta.
  rewrite bind_eq.
  destruct (st_sampling_rate st) as [rate|].
  - array_step. rewrite set_first_dimension_unit_with_array.
    destruct (with_first_dimension_unit _ _) as [da|e]; [|done].
    rewrite bind_eq. unfold lift at 1.
    destruct (extract_metadata st) as [metadata|e]; [|done].
    cbv beta iota zeta. rewrite finish_spec.
    destruct (blk_metadata (nix_block s)) as [bsp|]; [|done].
    reflexivity.
  - unfold ret at 1. cbv beta iota.
    rewrite bind_eq. unfold lift at 1.
    destruct (extract_metadata st) as [metadata|e]; [|done].
    cbv beta iota zeta. rewrite finish_spec.
    destruct (blk_metadata (nix_block s)) as [bsp|]; [|done].
    reflexivity.
Qed.

Lemma write_event_written (event : Event) (s : Store) :
  agrees (write_event event s)
    (written "event" (pretty (py_hash (nd_bytes (ev_times event))))
       (event_array event) (extract_metadata event) s).
Proof.
  unfold write_event. rewrite bind_eq.
  unfold lift at 1. cbn [get_obj_nix_name hashed_bytes Event_obj].
  cbv beta iota.
  do 3 array_step.
  unfold written, event_array.
  destruct (with_first_dimension_labels _ _) as [da|e]; [|done].
  rewrite bind_eq. unfold lift at 1.
  destruct (extract_metadata event) as [metadata|e]; [|done].
  cbv beta iota zeta. rewrite finish_spec.
  destruct (blk_metadata (nix_block s)) as [bsp|]; [|done].
  reflexivity.
Qed.

Lemma write_epoch_written (epoch : Epoch) (s : Store) :
  agrees (write_epoch epoch s)
    (written "epoch" (pretty (py_hash (nd_bytes (ep_times epoch))))
       (epoch_array epoch) (extract_metadata epoch) s).
Proof.
  unfold write_epoch. rewrite bind_eq.
  unfold lift at 1. cbn [get_obj_nix_name hashed_bytes Epoch_obj].
  cbv beta iota.
  rewrite bind_eq. unfold gets at 1. cbv beta iota.
  rewrite bind_eq, find_or_create_spec. cbv beta iota zeta.
  do 2 array_step.
  unfold written, epoch_array.
  destruct (with_first_dimension_labels _ _) as [da|e]; [|done].
  rewrite bind_eq. unfold lift at 1.
  destruct (extract_metadata epoch) as [metadata|e]; [|done].
  cbv beta iota zeta. rewrite finish_spec.
  destruct (blk_metadata (nix_block s)) as [bsp|]; [|done].
  reflexivity.
Qed.

(** The writer of a data object and [data_object_written] agree. *)
Lemma write_data_object_written (o : DataObject) (s : Store) :
  agrees (write_data_object o s) (data_object_written o s).
Proof.
  destruct o; unfold data_object_written;
    cbn [get_obj_nix_name hashed_bytes DataObject_obj write_data_object
           AnalogSignal_obj IrregularlySampledSignal_obj SpikeTrain_obj
           Event_obj Epoch_obj].
  - apply write_analogsignal_written.
  - apply write_irregularlysampledsignal_written.
  - apply write_spiketrain_written.
  - apply write_event_written.
  - apply write_epoch_written.
Qed.

Lemma agrees_Ok (r : result (unit * Store)) (r' : result Store) (s' : Store) :
  agrees r r' → (r = Ok (tt, s') ↔ r' = Ok s').
Proof.
  unfold agrees. destruct r as [[[] s1]|], r' as [s2|]; naive_solver.
Qed.

Lemma write_data_object_Ok (o : DataObject) (s s' : Store) :
  write_data_object o s = Ok (tt, s') ↔ data_object_written o s = Ok s'.
Proof. apply agrees_Ok, write_data_object_written. Qed.

End DataWriters.
(** ** One array for one payload *)

Section Deduplication.
Context {env : Env}.

Lemma get_obj_nix_name_payload (o : DataObject) :
  get_obj_nix_name o = Ok (pretty (py_hash (payload o))).
Proof. by destruct o. Qed.

(** What [written] returns, spelled out. *)
Lemma written_Ok (kind id : string) (array : option NixDataArray → result NixDataArray)
    (metadata : result (gmap string PyValue)) (s s' : Store) :
  written kind id array metadata s = Ok s' →
  ∃ da md bsp,
    array (blk_data_arrays (nix_block s) !! id) = Ok da ∧
    metadata = Ok md ∧
    blk_metadata (nix_block s) = Some bsp ∧
    let found := blk_data_arrays (nix_block s) !! id in
    let sp := section_path bsp kind id in
    let secs := ensure_section sp kind
                  (ensure_section (bsp ++ [kind +:+ "s"])%list kind (sections s)) in
    let sec := default {| sec_type := kind; sec_props := ∅ |} (secs !! sp) in
    nix_block s' = with_data_arrays (nix_block s)
                     (<[id := set_da_metadata (Some sp) da]>
                        (blk_data_arrays (nix_block s))) ∧
    sections s' = <[sp := with_props sec (stored_props md (sec_props sec))]> secs ∧
    journal s' = ((journal s ++ created id found)
                    ++ stored_mutations sp md (sec_props sec))%list.
Proof.
  unfold written. intros Hw.
  destruct (array _) as [da|]; [|done].
  destruct metadata as [md|]; [|done].
  destruct (blk_metadata (nix_block s)) as [bsp|]; [|done].
  injection Hw as <-. by exists da, md, bsp.
Qed.

Lemma data_object_written_Ok (o : DataObject) (s s' : Store) :
  data_object_written o s = Ok s' →
  ∃ kind array metadata,
    written kind (pretty (py_hash (payload o))) array metadata s = Ok s' ∧
    ∀ da da', array (Some da) = Ok da' → da_data da' = da_data da.
Proof.
  unfold data_object_written. rewrite get_obj_nix_name_payload.
  destruct o; intros Hw; eexists _, _, _; (split; [exact Hw|]); intros da da';
    unfold analogsignal_array, irregularlysampledsignal_array, spiketrain_array,
      event_array, epoch_array, with_first_dimension_unit,
      with_first_dimension_labels, with_dimension_if_none; simpl;
    repeat case_match; intros; simplify_eq; done.
Qed.

(** C4: two data objects with the same payload have the same identity,
    whatever their names; and when both are written, the first write leaves
    one array under that identity (created, or found), the second one
    creates none and leaves the data of that array as they are. *)
Theorem same_payload_one_array (o1 o2 : DataObject) (s s1 s2 : Store) :
  payload o1 = payload o2 →
  write_data_object o1 s = Ok (tt, s1) →
  write_data_object o2 s1 = Ok (tt, s2) →
  ∃ id da1 da2 new,
    get_obj_nix_name o1 = Ok id ∧
    get_obj_nix_name o2 = Ok id ∧
    dom (blk_data_arrays (nix_block s1))
    = dom (blk_data_arrays (nix_block s)) ∪ {[id]} ∧
    dom (blk_data_arrays (nix_block s2)) = dom (blk_data_arrays (nix_block s1)) ∧
    blk_data_arrays (nix_block s1) !! id = Some da1 ∧
    blk_data_arrays (nix_block s2) !! id = Some da2 ∧
    da_data da2 = da_data da1 ∧
    journal s2 = (journal s1 ++ new)%list ∧
    ∀ c n, CreateNode c n ∉ new.
Proof.
  intros Hp H1 H2.
  apply write_data_object_Ok in H1, H2.
  apply data_object_written_Ok in H1 as (k1 & a1 & m1 & H1 & _).
  apply data_object_written_Ok in H2 as (k2 & a2 & m2 & H2 & Hdata).
  rewrite <- Hp in H2. set (id := pretty (py_hash (payload o1))) in *.
  apply written_Ok in H1 as (da1 & md1 & bsp1 & Ha1 & -> & Hb1 & Hblk1 & Hsec1 & Hj1).
  apply written_Ok in H2 as (da2 & md2 & bsp2 & Ha2 & -> & Hb2 & Hblk2 & Hsec2 & Hj2).
  cbv zeta in *.
  assert (blk_data_arrays (nix_block s1) !! id
          = Some (set_da_metadata (Some (section_path bsp1 k1 id)) da1)) as Hl1.
  { rewrite Hblk1. simpl. apply lookup_insert_eq. }
  rewrite Hl1 in Ha2, Hj2.
  eexists id, _, _, _.
  split; [by rewrite get_obj_nix_name_payload|].
  split; [by rewrite get_obj_nix_name_payload, <- Hp|].
  split; [rewrite Hblk1; simpl; rewrite dom_insert_L; set_solver|].
  split.
  { rewrite Hblk2. simpl. rewrite dom_insert_L.
    apply elem_of_dom_2 in Hl1. set_solver. }
  split; [exact Hl1|].
  split; [rewrite Hblk2; simpl; apply lookup_insert_eq|].
  split; [simpl; by rewrite (Hdata _ _ Ha2)|].
  split.
  { rewrite Hj2. simpl. rewrite app_nil_r. reflexivity. }
  intros c n Hin. apply stored_mutations_elem in Hin as (? & ? & ? & _ & _ & _ & [?|?]);
    done.
Qed.

End Deduplication.
(** ** Further properties of the file operations *)

Section FileOperations.

(** X1: opening a handler whose file does not exist creates the file,
    empty, in the mode [Overwrite], and leaves the handle open; the other
    files on disk are as they were. *)
Theorem FileHandler_open_missing_creates (st : IOState) :
  io_disk st !! filename (io_fh st) = None →
  let st' := FileHandler_open st in
  handle (io_fh st')
  = Some {| h_mode := Overwrite; h_is_open := true; h_file := empty_file |} ∧
  io_disk st' !! filename (io_fh st) = Some empty_file ∧
  filename (io_fh st') = filename (io_fh st) ∧
  readonly (io_fh st') = readonly (io_fh st) ∧
  ∀ other, other ≠ filename (io_fh st) → io_disk st' !! other = io_disk st !! other.
Proof.
  intros Hnone st'. subst st'.
  unfold FileHandler_open, open_filemode, path_exists.
  rewrite bool_decide_eq_false_2 by (rewrite Hnone; by intros [? ?]).
  cbn. split; [done|]. split; [apply lookup_insert_eq|].
  split; [done|]. split; [done|].
  intros other Hne. by rewrite lookup_insert_ne.
Qed.

(** X2: opening a handler whose file exists hands out the file as it is on
    disk, read-only if the handler is, read-write otherwise, and changes
    nothing on disk. *)
Theorem FileHandler_open_existing_keeps (st : IOState) (f : NixFile) :
  io_disk st !! filename (io_fh st) = Some f →
  let st' := FileHandler_open st in
  handle (io_fh st')
  = Some {| h_mode := if readonly (io_fh st) then ReadOnly else ReadWrite;
            h_is_open := true; h_file := f |} ∧
  io_disk st' = io_disk st.
Proof.
  intros Hf st'. subst st'.
  unfold FileHandler_open, open_filemode, path_exists.
  rewrite bool_decide_eq_true_2 by (rewrite Hf; eauto).
  destruct (readonly (io_fh st)); cbn; by rewrite Hf.
Qed.

(** X3: once a proxy list has fetched its members, every later access
    returns the same members from the cache, whatever the state of the
    handler and of the disk: the fetch function is not called again, and
    the handler is neither opened nor closed. *)
Theorem ProxyList_cached_access {A} (p p' : ProxyList A) (st st' : IOState)
    (c : list A) :
  ProxyList_data p st = (Ok c, p', st') →
  ∀ later : IOState, ProxyList_data p' later = (Ok c, p', later).
Proof.
  intros Hd later.
  assert (_cache p' = Some c) as Hc.
  { unfold ProxyList_data in Hd.
    destruct (_cache p) as [c0|] eqn:Hp; [by simplify_eq|].
    destruct (handle _); [|done].
    destruct (_fetch_func p _); [|done].
    destruct (negb _); [destruct (FileHandler_close _); [|done]|];
      by simplify_eq. }
  unfold ProxyList_data. by rewrite Hc.
Qed.

End FileOperations.

(** ** Further properties of the attribute codec *)

Section Codec.

(** X4: writing the same dictionary to the same section a second time
    returns the store of the first write as it is, journal included. *)
Theorem write_metadata_idempotent (sp : path) (d : gmap string PyValue)
    (s s' : Store) :
  write_metadata sp d s = Ok (tt, s') →
  write_metadata sp d s' = Ok (tt, s').
Proof. apply write_metadata_twice. Qed.

Lemma section_getitem_stored (sp : path) (d : gmap string PyValue)
    (s s' : Store) (k : string) (v : PyValue) :
  d !! k = Some v → v ≠ PNone →
  write_metadata sp d s = Ok (tt, s') →
  ∃ sec',
    sections s' !! sp = Some sec' ∧
    section_getitem sec' k
    = Ok match v with
         | PScalar x | PList [x] | PTuple [x] => PScalar x
         | PList xs | PTuple xs => PList xs
         | PNone => PNone
         end.
Proof.
  intros Hk Hv Hw.
  destruct (sections s !! sp) as [sec|] eqn:Hsec.
  - rewrite (write_metadata_spec sp d s sec Hsec) in Hw. injection Hw as <-.
    eexists. split; [apply lookup_insert_eq|].
    destruct (make_nix_values_ok v Hv) as [values Hval].
    unfold section_getitem. cbn [sec_props with_props].
    rewrite (stored_props_lookup_Some d _ k v values Hk Hval).
    destruct v as [|x|xs|xs]; simpl in Hval; simplify_eq; [done|..];
      by destruct values as [|? [|? ?]].
  - exfalso. unfold write_metadata in Hw.
    assert ((k, v) ∈ map_to_list (to_store d)) as Hin.
    { by apply elem_of_map_to_list, to_store_lookup. }
    destruct (map_to_list (to_store d)) as [|[k0 v0] items] eqn:Hitems;
      [by apply not_elem_of_nil in Hin|].
    assert (v0 ≠ PNone) as Hv0.
    { assert ((k0, v0) ∈ map_to_list (to_store d)) as Hin0 by (rewrite Hitems; left).
      apply elem_of_map_to_list, to_store_lookup in Hin0. tauto. }
    simpl in Hw. unfold bind at 1 in Hw.
    unfold write_property, get_section in Hw. unfold bind, lift, gets in Hw.
    destruct (make_nix_values v0); [|done]. by rewrite Hsec in Hw.
Qed.

(** X5: what is read back of a value that [write_metadata] stored.  A
    scalar is read back as it is; a list of one item is read back as the
    item; any other list is read back as it is; and a tuple is read back
    as the list, or the single item, of its items. *)
Theorem stored_value_read_back (sp : path) (d : gmap string PyValue)
    (s s' : Store) (k : string) (v : PyValue) :
  d !! k = Some v → v ≠ PNone →
  write_metadata sp d s = Ok (tt, s') →
  ∃ sec',
    sections s' !! sp = Some sec' ∧
    section_getitem sec' k
    = Ok match v with
         | PScalar x | PList [x] | PTuple [x] => PScalar x
         | PList xs | PTuple xs => PList xs
         | PNone => PNone
         end.
Proof. apply section_getitem_stored. Qed.

(** X6: every property of a section is read back once: by
    [read_attributes] if its name is a simple attribute of the kind, by
    [read_annotations] otherwise. *)
Theorem read_attributes_annotations_partition (sec : NixSection) (obj_type : string)
    (names : list string) (read_attrs read_annots : gmap string PyValue) :
  attr_names obj_type = Ok names →
  read_attributes sec obj_type = Ok read_attrs →
  read_annotations sec obj_type = Ok read_annots →
  ∀ k v,
    (read_attrs !! k = Some v ↔ k ∈ names ∧ section_getitem sec k = Ok v) ∧
    (read_annots !! k = Some v ↔ (k ∉ names) ∧ section_getitem sec k = Ok v).
Proof.
  intros Hn Ha Hb k v.
  rewrite (read_attributes_lookup sec obj_type names read_attrs k Hn Ha).
  rewrite (read_annotations_lookup sec obj_type names read_annots k Hn Hb).
  destruct (decide (k ∈ names)); destruct (section_getitem sec k); naive_solver.
Qed.

(** X7: what [extract_metadata] holds under a name.  A simple attribute of
    the kind that is not [None] takes the place of an annotation of the
    same name; any other name holds its annotation, a [None] one too. *)
Theorem extract_metadata_shadows {A} `{NeoObject A} (obj : A)
    (names : list string) (metadata : gmap string PyValue) (k : string) :
  attr_names (get_classname obj) = Ok names →
  extract_metadata obj = Ok metadata →
  (k ∈ names → getattr (neo_base obj) k ≠ PNone →
   metadata !! k = Some (getattr (neo_base obj) k)) ∧
  (k ∉ names ∨ getattr (neo_base obj) k = PNone →
   metadata !! k = annotations (neo_base obj) !! k).
Proof.
  intros Hn He.
  rewrite (extract_metadata_lookup obj names metadata k Hn He).
  split.
  - intros ??. by rewrite decide_True.
  - intros Hor. rewrite decide_False; [done|]. intros [??]. by destruct Hor.
Qed.

End Codec.

Section QuantityRoundTrip.
Context {env : Env}.

(** X8: a quantity stored as the writers store it, the magnitude as a
    float under a name and the unit as a string under the name followed by
    [__unit], is read back by [read_quantity] as it was. *)
Theorem read_quantity_of_written (sp : path) (d : gmap string PyValue)
    (s s' : Store) (qname : string) (q : Quantity) :
  d !! qname = Some (quantity_item q) →
  d !! (qname +:+ "__unit") = Some (quantity_units q) →
  write_metadata sp d s = Ok (tt, s') →
  ∃ sec', sections s' !! sp = Some sec' ∧ read_quantity sec' qname = Ok q.
Proof.
  intros Hi Hu Hw.
  destruct (section_getitem_stored sp d s s' qname _ Hi ltac:(done) Hw)
    as (sec' & Hsec' & Hgi).
  destruct (section_getitem_stored sp d s s' _ _ Hu ltac:(done) Hw)
    as (sec'' & Hsec'' & Hgu).
  rewrite Hsec' in Hsec''. injection Hsec'' as <-.
  exists sec'. split; [done|].
  unfold read_quantity. rewrite Hgi, Hgu. simpl. by destruct q.
Qed.

End QuantityRoundTrip.

(** ** Further properties of the writers of data objects *)

Section DataWriterProperties.
Context {env : Env}.

Lemma set_da_metadata_twice (m : option path) (da : NixDataArray) :
  set_da_metadata m (set_da_metadata m da) = set_da_metadata m da.
Proof. done. Qed.

(** The arrays that the writers leave are fixed points of theirs, and keep
    the type, the dtype, the data and the sources of the array found. *)
Lemma data_object_written_inv (o : DataObject) (s s' : Store) :
  data_object_written o s = Ok s' →
  ∃ array metadata,
    written (get_classname o) (pretty (py_hash (payload o))) array metadata s = Ok s' ∧
    (∀ da da', array (Some da) = Ok da' →
       da_type da' = da_type da ∧ da_dtype da' = da_dtype da ∧
       da_data da' = da_data da ∧ da_sources da' = da_sources da) ∧
    (∀ found da m, array found = Ok da →
       array (Some (set_da_metadata m da)) = Ok (set_da_metadata m da)).
Proof.
  unfold data_object_written. rewrite get_obj_nix_name_payload.
  destruct o; intros Hw; eexists _, _; (split; [exact Hw|]); split.
  all: try (intros da da';
    unfold analogsignal_array, irregularlysampledsignal_array, spiketrain_array,
      event_array, epoch_array, with_first_dimension_unit,
      with_first_dimension_labels, with_dimension_if_none; simpl;
    repeat case_match; intros; simplify_eq; done).
  all: intros found da m;
    unfold analogsignal_array, irregularlysampledsignal_array, spiketrain_array,
      event_array, epoch_array, with_first_dimension_unit,
      with_first_dimension_labels, with_dimension_if_none;
    destruct found as [[]|]; simpl; repeat case_match; simpl in *;
    intros; simplify_eq; simpl in *; simplify_eq; done.
Qed.

Lemma section_path_ne_group (bsp : path) (kind id : string) :
  section_path bsp kind id ≠ (bsp ++ [kind +:+ "s"])%list.
Proof.
  unfold section_path. intros Heq.
  apply (f_equal length) in Heq. rewrite !length_app in Heq. simpl in Heq. lia.
Qed.

(** What is stored is stored: a second pass of [stored_props] changes
    nothing and journals nothing. *)
Lemma stored_props_fixed (sp : path) (d : gmap string PyValue)
    (props : gmap string (list Scalar)) :
  stored_props d (stored_props d props) = stored_props d props ∧
  stored_mutations sp d (stored_props d props) = [].
Proof.
  set (sec := {| sec_type := ""; sec_props := stored_props d props |}).
  set (s0 := {| nix_block := new_block "" ""; sections := {[sp := sec]};
                journal := [] |}).
  assert (write_metadata sp d s0 = Ok (tt, s0)) as Hnoop.
  { apply (write_metadata_noop sp d s0 sec); [apply lookup_singleton_eq|].
    intros k v values Hk Hval. by eapply stored_props_lookup_Some. }
  rewrite (write_metadata_spec sp d s0 sec) in Hnoop by apply lookup_singleton_eq.
  pose proof (f_equal (λ r : result (unit * Store),
                         match r with
                         | Ok (_, st) => Some (sections st !! sp, journal st)
                         | Raise _ => None
                         end) Hnoop) as Heq.
  cbn [sections journal s0 app] in Heq.
  rewrite lookup_insert_eq, lookup_singleton_eq in Heq.
  injection Heq as Hp Hj. split; [|done].
  exact Hp.
Qed.

(** A second write after [written] returns the same store. *)
Lemma written_twice (kind id : string)
    (array : option NixDataArray → result NixDataArray)
    (metadata : result (gmap string PyValue)) (s s' : Store) :
  (∀ found da m, array found = Ok da →
     array (Some (set_da_metadata m da)) = Ok (set_da_metadata m da)) →
  written kind id array metadata s = Ok s' →
  written kind id array metadata s' = Ok s'.
Proof.
  intros Hfix Hw.
  apply written_Ok in Hw as (da & md & bsp & Ha & -> & Hb & Hblk & Hsec & Hj).
  cbv zeta in *.
  set (sp := section_path bsp kind id) in *.
  set (gp := (bsp ++ [kind +:+ "s"])%list) in *.
  set (secs := ensure_section sp kind (ensure_section gp kind (sections s))) in *.
  set (sec := default {| sec_type := kind; sec_props := ∅ |} (secs !! sp)) in *.
  assert (sp ≠ gp) as Hne by apply section_path_ne_group.
  assert (is_Some (secs !! gp)) as [sg Hsg].
  { unfold secs. rewrite ensure_section_lookup_ne by done.
    rewrite ensure_section_lookup. eauto. }
  unfold written.
  rewrite Hblk. cbn [blk_data_arrays with_data_arrays blk_metadata].
  rewrite lookup_insert_eq, (Hfix _ _ _ Ha), Hb.
  fold sp gp. rewrite Hsec.
  assert (ensure_section gp kind
            (<[sp := with_props sec (stored_props md (sec_props sec))]> secs)
          = <[sp := with_props sec (stored_props md (sec_props sec))]> secs) as ->.
  { unfold ensure_section at 1. by rewrite lookup_insert_ne, Hsg. }
  assert (ensure_section sp kind
            (<[sp := with_props sec (stored_props md (sec_props sec))]> secs)
          = <[sp := with_props sec (stored_props md (sec_props sec))]> secs) as ->.
  { unfold ensure_section at 1. by rewrite lookup_insert_eq. }
  rewrite lookup_insert_eq. cbn [default from_option Datatypes.id sec_props with_props].
  destruct (stored_props_fixed sp md (sec_props sec)) as [-> ->].
  rewrite insert_insert_eq. cbn [created]. rewrite !app_nil_r.
  f_equal. destruct s' as [b' secs' j']. simpl in *. subst.
  f_equal. rewrite insert_insert_eq. done.
Qed.

(** X9: a writer of a data object (an analog or irregularly sampled
    signal, a spike train, an event, an epoch) writes one array, under the
    identity of the object.  The name, the type, the metadata link, the
    tags and the sources of the block stay as they are; the arrays are
    those before plus that one, and every other array stays as it is; an
    array found under the identity keeps its type, its dtype, its data and
    its sources; and every section other than the section of the object
    and the section of its kind stays as it is. *)
Theorem data_writer_frame (o : DataObject) (s s' : Store) :
  write_data_object o s = Ok (tt, s') →
  ∃ id bsp,
    get_obj_nix_name o = Ok id ∧
    blk_metadata (nix_block s) = Some bsp ∧
    blk_name (nix_block s') = blk_name (nix_block s) ∧
    blk_type (nix_block s') = blk_type (nix_block s) ∧
    blk_metadata (nix_block s') = blk_metadata (nix_block s) ∧
    blk_tags (nix_block s') = blk_tags (nix_block s) ∧
    blk_sources (nix_block s') = blk_sources (nix_block s) ∧
    dom (blk_data_arrays (nix_block s')) = dom (blk_data_arrays (nix_block s)) ∪ {[id]} ∧
    (∀ n, n ≠ id →
       blk_data_arrays (nix_block s') !! n = blk_data_arrays (nix_block s) !! n) ∧
    (∀ da, blk_data_arrays (nix_block s) !! id = Some da →
       ∃ da', blk_data_arrays (nix_block s') !! id = Some da' ∧
              da_type da' = da_type da ∧ da_dtype da' = da_dtype da ∧
              da_data da' = da_data da ∧ da_sources da' = da_sources da) ∧
    (∀ p, p ≠ (bsp ++ [get_classname o +:+ "s"])%list →
          p ≠ section_path bsp (get_classname o) id →
          sections s' !! p = sections s !! p).
Proof.
  intros Hw. apply write_data_object_Ok in Hw.
  apply data_object_written_inv in Hw as (array & metadata & Hw & Hkeep & _).
  apply written_Ok in Hw as (da & md & bsp & Ha & -> & Hb & Hblk & Hsec & Hj).
  cbv zeta in *.
  exists (pretty (py_hash (payload o))), bsp.
  split; [apply get_obj_nix_name_payload|]. split; [done|].
  rewrite Hblk. cbn [blk_name blk_type blk_metadata blk_tags blk_sources
                       blk_data_arrays with_data_arrays].
  do 5 (split; [done|]).
  split; [rewrite dom_insert_L; set_solver|].
  split; [intros n Hn; by rewrite lookup_insert_ne|].
  split.
  - intros da0 Hda0. rewrite Hda0 in Ha.
    destruct (Hkeep _ _ Ha) as (? & ? & ? & ?).
    eexists. split; [apply lookup_insert_eq|]. done.
  - intros p Hp1 Hp2. rewrite Hsec.
    rewrite lookup_insert_ne by done.
    by rewrite !ensure_section_lookup_ne.
Qed.

(** X10: writing a data object a second time, right after the first,
    returns the store of the first write as it is: no array is created, no
    property is mutated, nothing is journalled. *)
Theorem data_writer_idempotent (o : DataObject) (s s' : Store) :
  write_data_object o s = Ok (tt, s') →
  write_data_object o s' = Ok (tt, s').
Proof.
  intros Hw. apply write_data_object_Ok in Hw. apply write_data_object_Ok.
  pose proof Hw as Hw'.
  apply data_object_written_inv in Hw' as (array & metadata & Hw' & _ & Hfix).
  pose proof (written_twice _ _ _ _ _ _ Hfix Hw') as Htwice.
  revert Hw' Htwice. unfold data_object_written in *.
  rewrite get_obj_nix_name_payload in *.
  destruct o; cbn [get_classname DataObject_obj AnalogSignal_obj
                     IrregularlySampledSignal_obj SpikeTrain_obj Event_obj Epoch_obj].
  all: intros Hw' _; eapply written_twice; [|exact Hw].
  all: intros found da m;
    unfold analogsignal_array, irregularlysampledsignal_array, spiketrain_array,
      event_array, epoch_array, with_first_dimension_unit,
      with_first_dimension_labels, with_dimension_if_none;
    destruct found as [[]|]; simpl; repeat case_match; simpl in *;
    intros; simplify_eq; simpl in *; simplify_eq; done.
Qed.

(** X11: the writers of data objects need the metadata of the block, which
    [write_block] sets: on a block whose metadata were never set they
    raise. *)
Theorem data_writer_needs_block_metadata (o : DataObject) (s : Store) :
  blk_metadata (nix_block s) = None →
  ∃ e, write_data_object o s = Raise e.
Proof.
  intros Hnone.
  pose proof (write_data_object_written o s) as Hag.
  assert (∃ e, data_object_written o s = Raise e) as [e He].
  { unfold data_object_written. rewrite get_obj_nix_name_payload.
    destruct o; unfold written; rewrite Hnone;
      repeat case_match; eauto. }
  rewrite He in Hag. unfold agrees in Hag.
  destruct (write_data_object o s) as [[u s1]|e']; [done|eauto].
Qed.

End DataWriterProperties.
(** ** Further properties of the structural writers *)

Section StructuralWriters.
Context {env : Env}.

(** [write_segment] keeps every projection of the block that neither the
    data arrays nor the tags are part of. *)
Lemma write_segment_keeps {B} (f : NixBlock → B) (sg : Segment list)
    (recursive : bool) :
  (∀ b das, f (with_data_arrays b das) = f b) →
  (∀ b tags, f (with_tags b tags) = f b) →
  preserves (keeps f) (write_segment sg recursive).
Proof.
  intros Hda Htags.
  assert (Hset : ∀ g, preserves (keeps f) (set_block (λ b, with_tags b (g b)))).
  { intros g. apply keeps_set_block. intros b. apply Htags. }
  destruct (data_writers_keep f Hda) as (? & ? & ? & ? & ?).
  unfold write_segment.
  pbind; [frame_tac|]. pbind; [frame_tac|].
  pbind. { destruct (_ !! _); [frame_tac|]. unfold create_tag.
           repeat (first [progress preserves_step | apply Hset]). }
  pbind; [frame_tac|]. pbind; [apply Hset|]. pbind; [frame_tac|].
  pbind; [frame_tac|]. pbind; [|by apply clean_keeps].
  destruct recursive; [|frame_tac].
  repeat (first [pbind|apply write_many_data_keeps]);
    first [done | intros; apply Htags].
Qed.

(** [write_recordingchannelgroup] keeps every projection of the block that
    neither the data arrays nor the sources are part of. *)
Lemma write_recordingchannelgroup_keeps {B} (f : NixBlock → B)
    (r : RecordingChannelGroup list) (recursive : bool) :
  (∀ b das, f (with_data_arrays b das) = f b) →
  (∀ b srcs, f (with_sources b srcs) = f b) →
  preserves (keeps f) (write_recordingchannelgroup r recursive).
Proof.
  intros Hda Hsrc.
  assert (Hset : ∀ g, preserves (keeps f) (set_block (λ b, with_sources b (g b)))).
  { intros g. apply keeps_set_block. intros b. apply Hsrc. }
  destruct (data_writers_keep f Hda) as (? & ? & _).
  unfold write_recordingchannelgroup.
  pbind; [frame_tac|]. pbind; [frame_tac|].
  pbind. { destruct (_ !! _); [frame_tac|]. unfold create_source.
           repeat (first [progress preserves_step | apply Hset]). }
  pbind; [frame_tac|]. pbind; [apply Hset|]. pbind; [frame_tac|].
  pbind; [frame_tac|]. pbind; [|by apply clean_keeps].
  destruct recursive; [|frame_tac].
  pbind; [|pbind].
  - apply write_many_preserves; [tc_solve| | |].
    + intros pn u. apply write_unit_keeps; [done|]. intros b g. apply Hsrc.
    + intros c X Y. by apply update_sources_keeps.
    + intros first k _. rewrite containers_unit.
      unfold container_delete, container_has, alter_source.
      repeat (first [progress preserves_step | progress cbv beta | apply Hset]).
  - apply write_many_data_keeps; first [done|apply not_unit_analogsignal].
  - apply write_many_data_keeps; first [done|apply not_unit_irregular].
Qed.

(** X12: a write of a segment, recursive or not, leaves the block with
    the tags it had and the tag named after the segment, and with the
    name, the type, the metadata link and the sources it had. *)
Theorem write_segment_adds_its_tag (sg : Segment list) (recursive : bool)
    (n : string) (s s' : Store) :
  name_of (seg_base sg) = Ok n →
  write_segment sg recursive s = Ok (tt, s') →
  dom (blk_tags (nix_block s')) = dom (blk_tags (nix_block s)) ∪ {[n]} ∧
  blk_sources (nix_block s') = blk_sources (nix_block s) ∧
  blk_name (nix_block s') = blk_name (nix_block s) ∧
  blk_type (nix_block s') = blk_type (nix_block s) ∧
  blk_metadata (nix_block s') = blk_metadata (nix_block s).
Proof.
  intros Hn Hw.
  split; [by eapply write_segment_tags|].
  split; [by apply (write_segment_keeps blk_sources sg recursive) in Hw|].
  split; [by apply (write_segment_keeps blk_name sg recursive) in Hw|].
  split; [by apply (write_segment_keeps blk_type sg recursive) in Hw|].
  by apply (write_segment_keeps blk_metadata sg recursive) in Hw.
Qed.

(** X13: a write of a recording channel group, recursive or not, leaves
    the block with the sources it had and the source named after the
    group, and with the name, the type, the metadata link and the tags it
    had. *)
Theorem write_recordingchannelgroup_adds_its_source
    (r : RecordingChannelGroup list) (recursive : bool) (n : string)
    (s s' : Store) :
  name_of (rcg_base r) = Ok n →
  write_recordingchannelgroup r recursive s = Ok (tt, s') →
  dom (blk_sources (nix_block s')) = dom (blk_sources (nix_block s)) ∪ {[n]} ∧
  blk_tags (nix_block s') = blk_tags (nix_block s) ∧
  blk_name (nix_block s') = blk_name (nix_block s) ∧
  blk_type (nix_block s') = blk_type (nix_block s) ∧
  blk_metadata (nix_block s') = blk_metadata (nix_block s).
Proof.
  intros Hn Hw.
  split; [by eapply write_recordingchannelgroup_sources|].
  split; [by apply (write_recordingchannelgroup_keeps blk_tags r recursive) in Hw|].
  split; [by apply (write_recordingchannelgroup_keeps blk_name r recursive) in Hw|].
  split; [by apply (write_recordingchannelgroup_keeps blk_type r recursive) in Hw|].
  by apply (write_recordingchannelgroup_keeps blk_metadata r recursive) in Hw.
Qed.

(** X14: [write_unit] looks the source of the recording channel group up
    by name before anything else: when the block has no such source it
    raises the [KeyError] of the lookup, whatever the unit.  When it
    returns, the units of that source are those before and the unit
    written, the sources of the block have the names they had, and the
    tags are as they were. *)
Theorem write_unit_needs_its_group (source_id : string) (u : Unit list)
    (recursive : bool) (s : Store) :
  (blk_sources (nix_block s) !! source_id = None →
   write_unit source_id u recursive s = Raise (KeyError source_id)) ∧
  ∀ n s',
    name_of (u_base u) = Ok n →
    write_unit source_id u recursive s = Ok (tt, s') →
    is_Some (blk_sources (nix_block s) !! source_id) ∧
    units_of source_id (nix_block s') = units_of source_id (nix_block s) ∪ {[n]} ∧
    dom (blk_sources (nix_block s')) = dom (blk_sources (nix_block s)) ∧
    blk_tags (nix_block s') = blk_tags (nix_block s).
Proof.
  split.
  - intros Hnone. unfold write_unit, get_source. rewrite !bind_eq.
    unfold gets, lift, getitem. by rewrite Hnone.
  - intros n s' Hn Hw. split.
    + destruct (blk_sources (nix_block s) !! source_id) eqn:Hs; [eauto|].
      unfold write_unit, get_source in Hw. rewrite !bind_eq in Hw.
      unfold gets, lift, getitem in Hw. by rewrite Hs in Hw.
    + split; [by eapply write_unit_units|].
      split.
      * apply (write_unit_keeps (λ b, dom (blk_sources b)) source_id u recursive)
          in Hw; [done|done|].
        intros b g. simpl. apply dom_alter_L.
      * apply (write_unit_keeps blk_tags source_id u recursive) in Hw; done.
Qed.

End StructuralWriters.

(** *** Projections of the store that a computation leaves unchanged *)

Global Instance unchanged_preorder {B} (f : Store → B) : PreOrder (unchanged f).
Proof.
  split.
  - by intros s.
  - intros s1 s2 s3. unfold unchanged. congruence.
Qed.

Lemma unchanged_modify {B} (f : Store → B) (g : Store → Store) :
  (∀ s, f (g s) = f s) → preserves (unchanged f) (modify g).
Proof. intros Hg s [] s' H. apply modify_Ok in H. subst. apply Hg. Qed.

Ltac unchanged_tac :=
  repeat (first
    [ progress preserves_step
    | progress cbv beta
    | progress unfold_ops
    | match goal with
      | |- preserves (unchanged _) (set_block _) =>
          unfold set_block; apply unchanged_modify; intros ?; reflexivity
      | |- preserves (unchanged _) (set_sections _) =>
          unfold set_sections; apply unchanged_modify; intros ?; reflexivity
      | |- preserves (unchanged _) (log _) =>
          unfold log; apply unchanged_modify; intros ?; reflexivity
      end ]).

Section LinkUpdates.

Lemma update_references_unchanged {B} (f : Store → B) c t X Y :
  (∀ s g, f {| nix_block := with_tags (nix_block s) (g (nix_block s));
               sections := sections s; journal := journal s |} = f s) →
  preserves (unchanged f) (update_references c t X Y).
Proof.
  intros Hf.
  assert (Hset : ∀ g, preserves (unchanged f)
                        (set_block (λ b, with_tags b (g b)))).
  { intros g. unfold set_block. apply unchanged_modify. intros s. apply Hf. }
  unfold update_references, container_has, get_tag, alter_tag.
  repeat (first [progress preserves_step | progress cbv beta | apply Hset]).
Qed.

Lemma update_sources_unchanged {B} (f : Store → B) c p X Y :
  (∀ s g, f {| nix_block := with_data_arrays (nix_block s) (g (nix_block s));
               sections := sections s; journal := journal s |} = f s) →
  preserves (unchanged f) (update_sources c p X Y).
Proof.
  intros Hf.
  assert (Hset : ∀ g, preserves (unchanged f)
                        (set_block (λ b, with_data_arrays b (g b)))).
  { intros g. unfold set_block. apply unchanged_modify. intros s. apply Hf. }
  unfold update_sources, container_has, get_data_array, alter_data_array.
  repeat (first [progress preserves_step | progress cbv beta | apply Hset]).
Qed.

(** The tags other than the tag [t] are as they were. *)
Lemma update_references_other_tags c t X Y (t' : string) :
  t' ≠ t →
  preserves (unchanged (λ s, blk_tags (nix_block s) !! t'))
    (update_references c t X Y).
Proof.
  intros Hne.
  assert (Hset : ∀ g, preserves (unchanged (λ s, blk_tags (nix_block s) !! t'))
                        (set_block (λ b, with_tags b (alter g t (blk_tags b))))).
  { intros g. unfold set_block. apply unchanged_modify. intros s. simpl.
    by rewrite lookup_alter_ne. }
  unfold update_references, container_has, get_tag, alter_tag.
  repeat (first [progress preserves_step | progress cbv beta | apply Hset]).
Qed.

(** X15: [update_references] on a tag of the block.  When it returns, the
    references of the tag are those before, less the names to remove, plus
    the names to append; the data arrays, the sources, the other tags, the
    sections and the journal are as they were. *)
Theorem update_references_relinks (t : string) (to_remove to_append : gset string)
    (s s' : Store) :
  is_Some (blk_tags (nix_block s) !! t) →
  update_references DataArrays t to_remove to_append s = Ok (tt, s') →
  references_of t (nix_block s')
  = (references_of t (nix_block s) ∖ to_remove) ∪ to_append ∧
  blk_data_arrays (nix_block s') = blk_data_arrays (nix_block s) ∧
  blk_sources (nix_block s') = blk_sources (nix_block s) ∧
  (∀ t', t' ≠ t → blk_tags (nix_block s') !! t' = blk_tags (nix_block s) !! t') ∧
  sections s' = sections s ∧
  journal s' = journal s.
Proof.
  intros Htag Hu.
  split; [by apply update_references_spec|].
  split; [by apply (update_references_unchanged
                      (λ s, blk_data_arrays (nix_block s))) in Hu|].
  split; [by apply (update_references_unchanged
                      (λ s, blk_sources (nix_block s))) in Hu|].
  split; [intros t' Hne; by apply (update_references_other_tags _ _ _ _ t' Hne) in Hu|].
  split; [by apply (update_references_unchanged sections) in Hu|].
  by apply (update_references_unchanged journal) in Hu.
Qed.

(** X16: [update_sources] for a source of the block.  When it returns,
    the arrays that have the source among their sources are those before,
    less the names to remove, plus the names to append; the names of the
    arrays, the tags, the sources of the block, the sections and the
    journal are as they were. *)
Theorem update_sources_relinks (p : path) (to_remove to_append : gset string)
    (s s' : Store) :
  update_sources DataArrays p to_remove to_append s = Ok (tt, s') →
  linked_arrays p (nix_block s')
  = (linked_arrays p (nix_block s) ∖ to_remove) ∪ to_append ∧
  dom (blk_data_arrays (nix_block s')) = dom (blk_data_arrays (nix_block s)) ∧
  blk_tags (nix_block s') = blk_tags (nix_block s) ∧
  blk_sources (nix_block s') = blk_sources (nix_block s) ∧
  sections s' = sections s ∧
  journal s' = journal s.
Proof.
  intros Hu.
  split; [by apply update_sources_spec|].
  split.
  { revert Hu.
    assert (preserves (keeps (λ b, dom (blk_data_arrays b)))
              (update_sources DataArrays p to_remove to_append)) as Hp;
      [|apply Hp].
    unfold update_sources. frame_tac. }
  split; [by apply (update_sources_unchanged (λ s, blk_tags (nix_block s))) in Hu|].
  split; [by apply (update_sources_unchanged (λ s, blk_sources (nix_block s))) in Hu|].
  split; [by apply (update_sources_unchanged sections) in Hu|].
  by apply (update_sources_unchanged journal) in Hu.
Qed.

End LinkUpdates.
(** ** The orphan sweep *)

Section Sweep.

Lemma has_references_tags (b b' : NixBlock) (n : string) :
  blk_tags b' = blk_tags b → has_references b' n = has_references b n.
Proof. intros Ht. unfold has_references. by rewrite Ht. Qed.

(** One turn of the loop of [clean], on an array of the block. *)
Lemma clean_turn (n : string) (da : NixDataArray) (s : Store) :
  blk_data_arrays (nix_block s) !! n = Some da →
  (da <- get_data_array n ;;
   b <- gets nix_block ;;
   if negb (has_references b n) && negb (has_sources da) then
     container_delete DataArrays n
   else ret tt) s
  = Ok (tt,
        if negb (has_references (nix_block s) n) && negb (has_sources da) then
          {| nix_block := with_data_arrays (nix_block s)
                            (delete n (blk_data_arrays (nix_block s)));
             sections := sections s;
             journal := (journal s ++ [DeleteNode DataArrays n])%list |}
        else s).
Proof.
  intros Hda. rewrite bind_eq. unfold get_data_array. rewrite bind_eq.
  unfold gets at 1. unfold lift, getitem. rewrite Hda. cbv beta iota.
  rewrite bind_eq. unfold gets at 1. cbv beta iota.
  destruct (negb (has_references (nix_block s) n) && negb (has_sources da));
    [|done].
  unfold container_delete, container_has, bind, gets, lift, ret, set_block,
    modify, log.
  cbn [entities]. cbv beta iota. unfold getitem.
  rewrite lookup_fmap, Hda. cbn. reflexivity.
Qed.

Lemma clean_loop (names : list string) :
  NoDup names →
  ∀ s, (∀ n, n ∈ names → is_Some (blk_data_arrays (nix_block s) !! n)) →
  ∃ s',
    for_each names (λ name,
      da <- get_data_array name ;;
      b <- gets nix_block ;;
      if negb (has_references b name) && negb (has_sources da) then
        container_delete DataArrays name
      else ret tt) s = Ok (tt, s') ∧
    blk_name (nix_block s') = blk_name (nix_block s) ∧
    blk_type (nix_block s') = blk_type (nix_block s) ∧
    blk_metadata (nix_block s') = blk_metadata (nix_block s) ∧
    blk_tags (nix_block s') = blk_tags (nix_block s) ∧
    blk_sources (nix_block s') = blk_sources (nix_block s) ∧
    sections s' = sections s ∧
    ∀ n, blk_data_arrays (nix_block s') !! n
         = if decide (n ∈ names) then
             match blk_data_arrays (nix_block s) !! n with
             | Some da =>
                 if negb (has_references (nix_block s) n) && negb (has_sources da)
                 then None else Some da
             | None => None
             end
           else blk_data_arrays (nix_block s) !! n.
Proof.
  induction 1 as [|n l Hnin Hnd IH]; intros s Hall.
  - exists s. cbn [for_each]. repeat split; done.
  - destruct (Hall n) as [da Hda]; [set_solver|].
    cbn [for_each]. rewrite bind_eq, (clean_turn n da s Hda).
    set (s1 := if negb (has_references (nix_block s) n) && negb (has_sources da)
               then _ else s).
    assert (blk_tags (nix_block s1) = blk_tags (nix_block s)) as Htags
      by (subst s1; by destruct (_ && _)).
    assert (∀ k, k ≠ n → blk_data_arrays (nix_block s1) !! k
                          = blk_data_arrays (nix_block s) !! k) as Hother.
    { intros k Hk. subst s1. destruct (_ && _); [|done].
      simpl. by rewrite lookup_delete_ne. }
    destruct (IH s1) as (s' & Hloop & Hn' & Hty & Hmd & Ht & Hsrc & Hsec & Hdas).
    { intros k Hk. rewrite Hother by set_solver. apply Hall. set_solver. }
    exists s'. split; [exact Hloop|].
    split; [rewrite Hn'; subst s1; by destruct (_ && _)|].
    split; [rewrite Hty; subst s1; by destruct (_ && _)|].
    split; [rewrite Hmd; subst s1; by destruct (_ && _)|].
    split; [by rewrite Ht|].
    split; [rewrite Hsrc; subst s1; by destruct (_ && _)|].
    split; [rewrite Hsec; subst s1; by destruct (_ && _)|].
    intros k. rewrite Hdas. destruct (decide (k = n)) as [->|Hne].
    + rewrite decide_False by done. rewrite decide_True by set_solver.
      rewrite Hda. subst s1. destruct (_ && _); [|done].
      simpl. apply lookup_delete_eq.
    + rewrite Hother by done.
      destruct (decide (k ∈ l)) as [Hin|Hnin'].
      * rewrite decide_True by set_solver.
        by rewrite (has_references_tags _ _ k Htags).
      * by rewrite decide_False by set_solver.
Qed.

(** X17: the orphan sweep always returns.  It deletes every array of
    the block that no tag references and that has no source, and no other:
    an array that a tag references, or that has a source, is as it was.
    The tags, the sources, the name, the type and the metadata link of the
    block and the metadata sections are as they were; the sections of the
    deleted arrays are not removed. *)
Theorem clean_deletes_the_orphans (s : Store) :
  ∃ s',
    clean s = Ok (tt, s') ∧
    blk_name (nix_block s') = blk_name (nix_block s) ∧
    blk_type (nix_block s') = blk_type (nix_block s) ∧
    blk_metadata (nix_block s') = blk_metadata (nix_block s) ∧
    blk_tags (nix_block s') = blk_tags (nix_block s) ∧
    blk_sources (nix_block s') = blk_sources (nix_block s) ∧
    sections s' = sections s ∧
    ∀ n, blk_data_arrays (nix_block s') !! n
         = match blk_data_arrays (nix_block s) !! n with
           | Some da =>
               if negb (has_references (nix_block s) n) && negb (has_sources da)
               then None else Some da
           | None => None
           end.
Proof.
  unfold clean. rewrite bind_eq. unfold log at 1, modify. cbv beta iota.
  rewrite bind_eq. unfold gets at 1. cbv beta iota.
  cbn [nix_block].
  set (s0 := {| nix_block := nix_block s; sections := sections s;
                journal := (journal s ++ [Sweep])%list |}).
  destruct (clean_loop (map fst (map_to_list (blk_data_arrays (nix_block s))))
              (NoDup_fst_map_to_list _) s0)
    as (s' & Hloop & Hn & Hty & Hmd & Ht & Hsrc & Hsec & Hdas).
  { intros n Hin. apply list_elem_of_fmap in Hin as ([n' da] & -> & Hin).
    apply elem_of_map_to_list in Hin. simpl. eauto. }
  exists s'. split; [exact Hloop|]. do 6 (split; [done|]).
  intros n. rewrite Hdas. cbn [nix_block s0].
  destruct (blk_data_arrays (nix_block s) !! n) as [da|] eqn:Hda.
  - rewrite decide_True; [done|].
    apply list_elem_of_fmap. exists (n, da). split; [done|].
    by apply elem_of_map_to_list.
  - by destruct (decide _).
Qed.

End Sweep.
(** ** Writing an analog signal and reading it back *)

Section AnalogSignalRoundTrip.
Context {env : Env}.

Lemma read_quantity_stored_props (d : gmap string PyValue)
    (props : gmap string (list Scalar)) (sec : NixSection) (qname : string)
    (q : Quantity) :
  d !! qname = Some (quantity_item q) →
  d !! (qname +:+ "__unit") = Some (quantity_units q) →
  read_quantity (with_props sec (stored_props d props)) qname = Ok q.
Proof.
  intros Hi Hu. unfold read_quantity, section_getitem. cbn [sec_props with_props].
  rewrite (stored_props_lookup_Some d props qname _ [SFloat (q_item q)] Hi)
    by done.
  rewrite (stored_props_lookup_Some d props _ _ [SStr (q_units q)] Hu) by done.
  simpl. by destruct q.
Qed.

Lemma read_annotations_Ok (sec : NixSection) (obj_type : string)
    (names : list string) :
  attr_names obj_type = Ok names →
  ∃ read_annots, read_annotations sec obj_type = Ok read_annots.
Proof. intros Hn. unfold read_annotations. rewrite Hn. eauto. Qed.

Lemma read_attributes_Ok (sec : NixSection) (obj_type : string)
    (names : list string) :
  attr_names obj_type = Ok names →
  ∃ read_attrs, read_attributes sec obj_type = Ok read_attrs.
Proof. intros Hn. unfold read_attributes. rewrite Hn. eauto. Qed.

Lemma analogsignal_names :
  attr_names "analogsignal" = Ok ["description"; "file_origin"; "name"].
Proof. reflexivity. Qed.

(** What [write_analogsignal] leaves, spelled out. *)
Lemma write_analogsignal_Ok (signal : AnalogSignal) (s s' : Store) :
  write_analogsignal signal s = Ok (tt, s') →
  let id := pretty (py_hash (nd_bytes (as_signal signal))) in
  ∃ da md0 bsp sec,
    analogsignal_array signal (blk_data_arrays (nix_block s) !! id) = Ok da ∧
    extract_metadata signal = Ok md0 ∧
    blk_metadata (nix_block s) = Some bsp ∧
    let md := <["t_start__unit" := quantity_units (as_t_start signal)]>
                (<["t_start" := quantity_item (as_t_start signal)]> md0) in
    let sp := section_path bsp "analogsignal" id in
    blk_data_arrays (nix_block s') !! id = Some (set_da_metadata (Some sp) da) ∧
    sections s' !! sp = Some (with_props sec (stored_props md (sec_props sec))).
Proof.
  intros Hw id.
  apply (agrees_Ok _ _ _ (write_analogsignal_written signal s)) in Hw.
  apply written_Ok in Hw as (da & md & bsp & Ha & Hmd & Hb & Hblk & Hsec & _).
  cbv zeta in *. unfold analogsignal_metadata in Hmd.
  destruct (extract_metadata signal) as [md0|] eqn:Hex; [|done].
  injection Hmd as <-.
  eexists da, md0, bsp, _. split; [done|]. split; [done|]. split; [done|].
  split.
  - rewrite Hblk. simpl. apply lookup_insert_eq.
  - rewrite Hsec. apply lookup_insert_eq.
Qed.

(** X18: the start time of an analog signal comes back among its
    annotations.  [write_analogsignal] stores [t_start] and [t_start__unit]
    in the section of the signal beside the annotations, and
    [read_annotations] leaves out the simple attributes only: whatever the
    annotations of the signal written, the annotations read from its
    section hold the magnitude of the start time under [t_start] and its
    unit under [t_start__unit]. *)
Theorem analogsignal_annotations_gain_t_start (signal : AnalogSignal)
    (s s' : Store) :
  write_analogsignal signal s = Ok (tt, s') →
  ∃ id bsp sec read_annots,
    get_obj_nix_name signal = Ok id ∧
    blk_metadata (nix_block s) = Some bsp ∧
    da_metadata <$> blk_data_arrays (nix_block s') !! id
    = Some (Some (section_path bsp "analogsignal" id)) ∧
    sections s' !! section_path bsp "analogsignal" id = Some sec ∧
    read_annotations sec "analogsignal" = Ok read_annots ∧
    read_annots !! "t_start"
    = Some (PScalar (SFloat (q_item (as_t_start signal)))) ∧
    read_annots !! "t_start__unit"
    = Some (PScalar (SStr (q_units (as_t_start signal)))).
Proof.
  intros Hw.
  apply write_analogsignal_Ok in Hw
    as (da & md0 & bsp & sec & Ha & Hex & Hb & Hda & Hsec).
  cbv zeta in *.
  set (id := pretty (py_hash (nd_bytes (as_signal signal)))) in *.
  set (md := <["t_start__unit" := _]> _) in *.
  destruct (read_annotations_Ok (with_props sec (stored_props md (sec_props sec)))
              "analogsignal" _ analogsignal_names) as [read_annots Hra].
  exists id, bsp, (with_props sec (stored_props md (sec_props sec))), read_annots.
  split; [done|]. split; [done|]. split; [by rewrite Hda|].
  split; [exact Hsec|]. split; [exact Hra|].
  rewrite !(read_annotations_lookup _ _ _ _ _ analogsignal_names Hra).
  rewrite !decide_False by set_solver.
  unfold section_getitem. cbn [sec_props with_props].
  rewrite (stored_props_lookup_Some md _ "t_start"
             (quantity_item (as_t_start signal))
             [SFloat (q_item (as_t_start signal))]);
    [|by subst md; rewrite lookup_insert_ne, lookup_insert_eq|done].
  rewrite (stored_props_lookup_Some md _ "t_start__unit"
             (quantity_units (as_t_start signal))
             [SStr (q_units (as_t_start signal))]);
    [|by subst md; rewrite lookup_insert_eq|done].
  done.
Qed.

(** X19: an analog signal written to a block that had no array of its
    identity is read back, from a file that holds the block written and its
    sections, with the payload, the unit and the start time it was written
    with.  The magnitude of its sampling rate is stored as the sampling
    interval of the array, beside the unit of the rate: the reader gives it
    back as the sampling rate when that unit contains [hz], and takes it for
    a sampling period otherwise. *)
Theorem analogsignal_read_back (signal : AnalogSignal) (s s' : Store)
    (nix_file : NixFile) (block_id u' : string) :
  let id := pretty (py_hash (nd_bytes (as_signal signal))) in
  let rate := as_sampling_rate signal in
  blk_data_arrays (nix_block s) !! id = None →
  write_analogsignal signal s = Ok (tt, s') →
  f_blocks nix_file !! block_id = Some (nix_block s') →
  f_sections nix_file = sections s' →
  pq_getattr (q_units rate) = Some u' →
  ∃ signal',
    read_analogsignal nix_file block_id id = Ok signal' ∧
    as_signal signal' = as_signal signal ∧
    as_units signal' = as_units signal ∧
    as_t_start signal' = as_t_start signal ∧
    as_sampling_rate signal'
    = let sampling := {| q_item := q_item rate; q_units := u' |} in
      if contains "hz" (lower (q_units rate)) then sampling
      else rate_of_period sampling.
Proof.
  intros id rate Hfresh Hw Hblk Hsecs Hu.
  apply write_analogsignal_Ok in Hw
    as (da & md0 & bsp & sec & Ha & Hex & Hb & Hda & Hsec).
  cbv zeta in *. fold id in Ha, Hda, Hsec.
  set (md := <["t_start__unit" := _]> _) in *.
  rewrite Hfresh in Ha.
  unfold analogsignal_array, with_first_dimension_unit, with_dimension_if_none
    in Ha.
  cbn in Ha. injection Ha as <-.
  assert (read_quantity (with_props sec (stored_props md (sec_props sec)))
            "t_start" = Ok (as_t_start signal)) as Hq.
  { apply read_quantity_stored_props; subst md.
    - by rewrite lookup_insert_ne, lookup_insert_eq.
    - by rewrite lookup_insert_eq. }
  set (sec' := with_props sec (stored_props md (sec_props sec))) in *.
  unfold read_analogsignal, getitem. rewrite Hblk. cbv beta iota.
  rewrite Hda. cbv beta iota.
  unfold get_obj_neo_name, metadata_of, read_sampling.
  cbn [da_type da_metadata da_dimensions da_unit set_da_metadata
       set_da_dimensions set_da_unit new_array].
  rewrite Hsecs, Hsec.
  assert (∃ name, match section_getitem sec' "name" with
                  | Ok v => Ok v | Raise _ => Ok PNone end = Ok name) as [name ->]
    by (destruct (section_getitem sec' "name"); eauto).
  rewrite bool_decide_eq_true_2 by set_solver. cbv beta iota.
  unfold rate in *. rewrite Hu. cbv beta iota. cbn [required_units fst snd].
  rewrite Hq. cbv beta iota.
  destruct (read_attributes_Ok sec' "analogsignal" _ analogsignal_names)
    as [read_attrs ->].
  destruct (read_annotations_Ok sec' "analogsignal" _ analogsignal_names)
    as [read_annots ->].
  cbv beta iota. eexists. split; [reflexivity|]. cbn.
  split; [|done]. unfold read_all. cbn. rewrite app_nil_r.
  by destruct (as_signal signal).
Qed.

End AnalogSignalRoundTrip.
(** ** Instances on the sample data *)

Lemma NixIO_readonly_not_passed_witness :
  let io := NixIO_init "foo.h5" true in
  nio_readonly io = true ∧
  readonly (nio_f io) = false ∧
  open_filemode (nio_f io) {["foo.h5" := empty_file]} = ReadWrite ∧
  h_mode <$> handle (io_fh (FileHandler_open
      {| io_fh := nio_f io; io_disk := {["foo.h5" := empty_file]} |}))
    = Some ReadWrite.
Proof.
  apply (NixIO_readonly_not_passed "foo.h5" true {["foo.h5" := empty_file]}).
  by eexists.
Defined.

Lemma ProxyList_first_access_witness :
  ∃ h,
    handle (io_fh (FileHandler_open sample_io_closed)) = Some h ∧
    h_is_open h = true ∧
    ∃ st',
      ProxyList_data sample_proxy sample_io_closed
      = (Ok [1; 2; 3],
         {| _fetch_func := _fetch_func sample_proxy; _cache := Some [1; 2; 3] |},
         st') ∧
      handle_is_open (io_fh st') = handle_is_open (io_fh sample_io_closed) ∧
      FileHandler_close (FileHandler_open sample_io_closed) = Ok st'.
Proof.
  apply (ProxyList_first_access sample_proxy sample_io_closed). reflexivity.
Defined.

(** The segments of a block that was read from a file, accessed after
    the file was removed: the handler opens a new, empty file, the fetch
    function finds no block in it, and the handler that was closed before
    the access is open after it. *)
Lemma ProxyList_raising_fetch_counterexample :
  let r := ProxyList_data sample_segments sample_io_closed in
  _cache sample_segments = None ∧
  handle_is_open (io_fh sample_io_closed) = false ∧
  r.1.1 = Raise (KeyError "foo") ∧
  _cache r.1.2 = None ∧
  handle_is_open (io_fh r.2) = true ∧
  handle_is_open (io_fh r.2) ≠ handle_is_open (io_fh sample_io_closed).
Proof. vm_compute. repeat split; discriminate. Qed.

Lemma write_metadata_same_value_no_mutation_witness :
  ∃ s' sec' new,
    write_metadata ["foo"]
      {["description" := PScalar (SStr "a test block"); "index" := PScalar (SInt 1)]}
      sample_section_store = Ok (tt, s') ∧
    sections s' !! ["foo"] = Some sec' ∧
    sec_props sec' !! "description" = Some [SStr "a test block"] ∧
    journal s' = (journal sample_section_store ++ new)%list ∧
    ∀ m, m ∈ new → ¬ mutates ["foo"] "description" m.
Proof.
  apply (write_metadata_same_value_no_mutation ["foo"] _ sample_section_store
           sample_section "description" (PScalar (SStr "a test block"))).
  - reflexivity.
  - reflexivity.
  - reflexivity.
  - reflexivity.
Defined.

(** C7, as stated, fails: the magnitude is there and the unit is not, and
    the exception raised is the [KeyError] of the lookup, not a
    [MissingUnitError]. *)
Lemma read_quantity_counterexample :
  sec_props sample_section_no_unit !! "t_start__unit" = None ∧
  read_quantity (env := sample_env) sample_section_no_unit "t_start"
  = Raise (KeyError "t_start__unit") ∧
  ¬ ∃ e, read_quantity (env := sample_env) sample_section_no_unit "t_start" = Raise e ∧
         exn_class e = "MissingUnitError".
Proof.
  split; [reflexivity|]. split; [reflexivity|].
  intros (e & He & Hc). vm_compute in He. injection He as <-. discriminate Hc.
Qed.

Lemma read_quantity_missing_unit_witness :
  read_quantity (env := sample_env) sample_section_no_unit "t_start"
  = Raise (KeyError "t_start__unit").
Proof.
  apply (read_quantity_missing_unit (env := sample_env) sample_section_no_unit "t_start").
  reflexivity.
Defined.



(** C1, as stated, fails for an empty collection: the tag of the segment
    references three signals of the kind, the collection handed to
    [write_many] is empty, so that all three are to be removed, and the
    call returns the store as it is: the three are still referenced. *)
Lemma write_many_empty_counterexample :
  let s := sample_store1 in
  let parent := ParentTag "s1" in
  let existing : gset string := {["209530"; "210523"; "211516"]} in
  let desired : list string := [] in
  existing_names (nix_block s) DataArrays "analogsignal" parent = Ok existing ∧
  conv_all (env := sample_env) ([] : list AnalogSignal) = Ok desired ∧
  existing ∖ list_to_set desired = existing ∧
  write_many (env := sample_env) (λ _, write_analogsignal (env := sample_env))
    parent [] s = Ok (tt, s) ∧
  linked parent "analogsignal" (nix_block s) = existing ∧
  linked parent "analogsignal" (nix_block s)
  ≠ (linked parent "analogsignal" (nix_block s) ∖ (existing ∖ list_to_set desired))
      ∪ (list_to_set desired ∖ existing).
Proof.
  repeat split; try (vm_compute; reflexivity).
  refine (bool_decide_unpack _ _). vm_compute. exact I.
Qed.

Lemma write_many_reconciles_witness :
  ∃ (existing : gset string) (desired : list string),
    existing_names (nix_block sample_store1)
      (containers "analogsignal" (ParentTag "s1")) "analogsignal" (ParentTag "s1")
      = Ok existing ∧
    conv_all (env := sample_env) [sig_B; sig_C; sig_D] = Ok desired ∧
    linked (ParentTag "s1") "analogsignal" (nix_block sample_store2)
    = (linked (ParentTag "s1") "analogsignal" (nix_block sample_store1)
         ∖ (existing ∖ list_to_set desired))
        ∪ (list_to_set desired ∖ existing).
Proof.
  apply (proj1 (proj2 (proj2 (write_many_reconciles (env := sample_env)))) "s1"
           sig_B [sig_C; sig_D] sample_store1 sample_store2).
  vm_compute. reflexivity.
Defined.



Lemma same_payload_one_array_witness :
  ∃ id da1 da2 new,
    get_obj_nix_name (env := sample_env) (AnAnalogSignal sig_A) = Ok id ∧
    get_obj_nix_name (env := sample_env) (AnAnalogSignal sig_A') = Ok id ∧
    dom (blk_data_arrays (nix_block sample_store_A))
    = dom (blk_data_arrays (nix_block sample_store0)) ∪ {[id]} ∧
    dom (blk_data_arrays (nix_block sample_store_AA))
    = dom (blk_data_arrays (nix_block sample_store_A)) ∧
    blk_data_arrays (nix_block sample_store_A) !! id = Some da1 ∧
    blk_data_arrays (nix_block sample_store_AA) !! id = Some da2 ∧
    da_data da2 = da_data da1 ∧
    journal sample_store_AA = (journal sample_store_A ++ new)%list ∧
    ∀ c n, CreateNode c n ∉ new.
Proof.
  apply (same_payload_one_array (env := sample_env)
           (AnAnalogSignal sig_A) (AnAnalogSignal sig_A') sample_store0).
  - reflexivity.
  - vm_compute. reflexivity.
  - vm_compute. reflexivity.
Defined.

Lemma FileHandler_open_missing_creates_witness :
  let st' := FileHandler_open sample_io_closed in
  handle (io_fh st')
  = Some {| h_mode := Overwrite; h_is_open := true; h_file := empty_file |} ∧
  io_disk st' !! filename (io_fh sample_io_closed) = Some empty_file ∧
  filename (io_fh st') = filename (io_fh sample_io_closed) ∧
  readonly (io_fh st') = readonly (io_fh sample_io_closed) ∧
  ∀ other, other ≠ filename (io_fh sample_io_closed) →
           io_disk st' !! other = io_disk sample_io_closed !! other.
Proof. apply (FileHandler_open_missing_creates sample_io_closed). reflexivity. Defined.

Lemma FileHandler_open_existing_keeps_witness :
  let st' := FileHandler_open sample_io_existing in
  handle (io_fh st')
  = Some {| h_mode := if readonly (io_fh sample_io_existing) then ReadOnly
                      else ReadWrite;
            h_is_open := true; h_file := empty_file |} ∧
  io_disk st' = io_disk sample_io_existing.
Proof.
  apply (FileHandler_open_existing_keeps sample_io_existing empty_file).
  reflexivity.
Defined.

Lemma ProxyList_cached_access_witness :
  ProxyList_data {| _fetch_func := _fetch_func sample_proxy;
                    _cache := Some [1; 2; 3] |} sample_io_existing
  = (Ok [1; 2; 3],
     {| _fetch_func := _fetch_func sample_proxy; _cache := Some [1; 2; 3] |},
     sample_io_existing).
Proof.
  apply (ProxyList_cached_access sample_proxy _ sample_io_closed
           {| io_fh := {| filename := "foo.h5"; readonly := false;
                          handle := Some {| h_mode := Overwrite; h_is_open := false;
                                            h_file := empty_file |} |};
              io_disk := {["foo.h5" := empty_file]} |}).
  reflexivity.
Defined.

Lemma write_metadata_idempotent_witness :
  write_metadata ["foo"] sample_dict sample_dict_store = Ok (tt, sample_dict_store).
Proof.
  apply (write_metadata_idempotent ["foo"] sample_dict sample_store0).
  vm_compute. reflexivity.
Defined.

Lemma stored_value_read_back_witness :
  ∃ sec',
    sections sample_dict_store !! ["foo"] = Some sec' ∧
    section_getitem sec' "pair" = Ok (PList [SInt 1; SInt 2]).
Proof.
  apply (stored_value_read_back ["foo"] sample_dict sample_store0 sample_dict_store
           "pair" (PTuple [SInt 1; SInt 2])).
  - reflexivity.
  - discriminate.
  - vm_compute. reflexivity.
Defined.

Lemma read_attributes_annotations_partition_witness :
  let k := "description" in
  let v := PScalar (SStr "a test block") in
  (({["description" := PScalar (SStr "a test block")]} : gmap string PyValue) !! k
     = Some v
   ↔ k ∈ sample_block_names ∧ section_getitem sample_section k = Ok v) ∧
  ((∅ : gmap string PyValue) !! k = Some v
   ↔ (k ∉ sample_block_names) ∧ section_getitem sample_section k = Ok v).
Proof.
  apply (read_attributes_annotations_partition sample_section "block").
  - reflexivity.
  - vm_compute. reflexivity.
  - vm_compute. reflexivity.
Defined.

Lemma extract_metadata_shadows_witness :
  let obj := sample_annotated (PScalar (SStr "first")) PNone in
  ("description" ∈ sample_block_names →
   getattr (neo_base obj) "description" ≠ PNone →
   ({["description" := PScalar (SStr "first"); "note" := PNone]}
      : gmap string PyValue) !! "description"
   = Some (getattr (neo_base obj) "description")) ∧
  ("description" ∉ sample_block_names ∨ getattr (neo_base obj) "description" = PNone →
   ({["description" := PScalar (SStr "first"); "note" := PNone]}
      : gmap string PyValue) !! "description"
   = annotations (neo_base obj) !! "description").
Proof.
  intros obj.
  apply (extract_metadata_shadows obj sample_block_names).
  - reflexivity.
  - vm_compute. reflexivity.
Defined.

Lemma read_quantity_of_written_witness :
  ∃ sec',
    sections sample_dict_store !! ["foo"] = Some sec' ∧
    read_quantity (env := sample_env) sec' "t_start"
    = Ok {| q_item := FBits 5; q_units := "ms" |}.
Proof.
  apply (read_quantity_of_written (env := sample_env) ["foo"] sample_dict
           sample_store0 sample_dict_store "t_start"
           {| q_item := FBits 5; q_units := "ms" |}).
  - reflexivity.
  - reflexivity.
  - vm_compute. reflexivity.
Defined.

Lemma data_writer_frame_witness :
  let o := AnAnalogSignal sig_A in
  let s := sample_store0 in
  let s' := sample_store_A in
  ∃ id bsp,
    get_obj_nix_name (env := sample_env) o = Ok id ∧
    blk_metadata (nix_block s) = Some bsp ∧
    blk_name (nix_block s') = blk_name (nix_block s) ∧
    blk_type (nix_block s') = blk_type (nix_block s) ∧
    blk_metadata (nix_block s') = blk_metadata (nix_block s) ∧
    blk_tags (nix_block s') = blk_tags (nix_block s) ∧
    blk_sources (nix_block s') = blk_sources (nix_block s) ∧
    dom (blk_data_arrays (nix_block s')) = dom (blk_data_arrays (nix_block s)) ∪ {[id]} ∧
    (∀ n, n ≠ id →
       blk_data_arrays (nix_block s') !! n = blk_data_arrays (nix_block s) !! n) ∧
    (∀ da, blk_data_arrays (nix_block s) !! id = Some da →
       ∃ da', blk_data_arrays (nix_block s') !! id = Some da' ∧
              da_type da' = da_type da ∧ da_dtype da' = da_dtype da ∧
              da_data da' = da_data da ∧ da_sources da' = da_sources da) ∧
    (∀ p, p ≠ (bsp ++ [get_classname o +:+ "s"])%list →
          p ≠ section_path bsp (get_classname o) id →
          sections s' !! p = sections s !! p).
Proof.
  intros o s s'.
  apply (data_writer_frame (env := sample_env) o s s').
  vm_compute. reflexivity.
Defined.

Lemma data_writer_idempotent_witness :
  write_data_object (env := sample_env) (AnAnalogSignal sig_A) sample_store_A
  = Ok (tt, sample_store_A).
Proof.
  apply (data_writer_idempotent (env := sample_env) (AnAnalogSignal sig_A)
           sample_store0).
  vm_compute. reflexivity.
Defined.

Lemma data_writer_needs_block_metadata_witness :
  ∃ e, write_data_object (env := sample_env) (AnAnalogSignal sig_A) sample_store_bare
       = Raise e.
Proof.
  apply (data_writer_needs_block_metadata (env := sample_env)).
  reflexivity.
Defined.

Lemma write_segment_adds_its_tag_witness :
  let s := sample_store0 in
  let s' := sample_store1 in
  dom (blk_tags (nix_block s')) = dom (blk_tags (nix_block s)) ∪ {["s1"]} ∧
  blk_sources (nix_block s') = blk_sources (nix_block s) ∧
  blk_name (nix_block s') = blk_name (nix_block s) ∧
  blk_type (nix_block s') = blk_type (nix_block s) ∧
  blk_metadata (nix_block s') = blk_metadata (nix_block s).
Proof.
  apply (write_segment_adds_its_tag (env := sample_env)
           (sample_segment "s1" [sig_A; sig_B; sig_C]) true "s1").
  - reflexivity.
  - vm_compute. reflexivity.
Defined.

Lemma write_recordingchannelgroup_adds_its_source_witness :
  let s := sample_store0 in
  let s' := sample_store_rcg in
  dom (blk_sources (nix_block s')) = dom (blk_sources (nix_block s)) ∪ {["r1"]} ∧
  blk_tags (nix_block s') = blk_tags (nix_block s) ∧
  blk_name (nix_block s') = blk_name (nix_block s) ∧
  blk_type (nix_block s') = blk_type (nix_block s) ∧
  blk_metadata (nix_block s') = blk_metadata (nix_block s).
Proof.
  apply (write_recordingchannelgroup_adds_its_source (env := sample_env)
           sample_rcg true "r1").
  - reflexivity.
  - vm_compute. reflexivity.
Defined.

Lemma update_references_relinks_witness :
  let s := sample_store1 in
  let s' := sample_store_unref in
  references_of "s1" (nix_block s')
  = (references_of "s1" (nix_block s) ∖ {["209530"]}) ∪ ∅ ∧
  blk_data_arrays (nix_block s') = blk_data_arrays (nix_block s) ∧
  blk_sources (nix_block s') = blk_sources (nix_block s) ∧
  (∀ t', t' ≠ "s1" → blk_tags (nix_block s') !! t' = blk_tags (nix_block s) !! t') ∧
  sections s' = sections s ∧
  journal s' = journal s.
Proof.
  apply (update_references_relinks "s1" {["209530"]} ∅ sample_store1).
  - vm_compute. eauto.
  - vm_compute. reflexivity.
Defined.

Lemma update_sources_relinks_witness :
  let s := sample_store_rcg in
  let s' := sample_store_unlinked in
  linked_arrays ["r1"] (nix_block s')
  = (linked_arrays ["r1"] (nix_block s) ∖ {["209530"]}) ∪ ∅ ∧
  dom (blk_data_arrays (nix_block s')) = dom (blk_data_arrays (nix_block s)) ∧
  blk_tags (nix_block s') = blk_tags (nix_block s) ∧
  blk_sources (nix_block s') = blk_sources (nix_block s) ∧
  sections s' = sections s ∧
  journal s' = journal s.
Proof.
  apply (update_sources_relinks ["r1"] {["209530"]} ∅ sample_store_rcg).
  vm_compute. reflexivity.
Defined.

Lemma analogsignal_annotations_gain_t_start_witness :
  let s := sample_store0 in
  let s' := sample_store_A in
  ∃ id bsp sec read_annots,
    get_obj_nix_name (env := sample_env) sig_A = Ok id ∧
    blk_metadata (nix_block s) = Some bsp ∧
    da_metadata <$> blk_data_arrays (nix_block s') !! id
    = Some (Some (section_path bsp "analogsignal" id)) ∧
    sections s' !! section_path bsp "analogsignal" id = Some sec ∧
    read_annotations sec "analogsignal" = Ok read_annots ∧
    read_annots !! "t_start" = Some (PScalar (SFloat (FBits 0))) ∧
    read_annots !! "t_start__unit" = Some (PScalar (SStr "s")).
Proof.
  apply (analogsignal_annotations_gain_t_start (env := sample_env) sig_A
           sample_store0 sample_store_A).
  vm_compute. reflexivity.
Defined.

Lemma analogsignal_read_back_witness :
  ∃ signal',
    read_analogsignal (env := sample_env) sample_file_A "foo" "209530"
    = Ok signal' ∧
    as_signal signal' = as_signal sig_A ∧
    as_units signal' = "mV" ∧
    as_t_start signal' = {| q_item := FBits 0; q_units := "s" |} ∧
    as_sampling_rate signal' = {| q_item := FBits 1000; q_units := "Hz" |}.
Proof.
  apply (analogsignal_read_back (env := sample_env) sig_A sample_store0
           sample_store_A sample_file_A "foo" "Hz"); vm_compute; reflexivity.
Defined.
